(** * TPMS pulse decoders for Flipper Zero: Ford and SMD3MA4

    A shallow embedding of the two protocol decoders of the TPMS
    application (protocols/ford.c and protocols/SMD3MA4.c) and the
    properties of the decoding engine they implement: pulse
    classification, frame synchronisation, bit accumulation, frame
    validation and field extraction.

    Machine integers are [Z] with the wrap-around written out.  The two
    [float] fields of a record are IEEE 754 binary32 values, computed as
    the C expressions compute them: the integer converted to [float] or
    [double], the products rounded to nearest even in the operand type,
    the store rounded to binary32.  Debug logging ([FURI_LOG_D]) and the
    invocation of the registered callback are the effects of [feed]; both
    are returned as a trace of events next to the new decoder state. *)

From Stdlib Require Import ZArith QArith List Bool String Lia SpecFloat.
Import ListNotations.
Open Scope Z_scope.

(** ** Firmware interface

    The decoders are written against headers of the Flipper firmware
    (lib/subghz/blocks, lib/toolbox/manchester_decoder.h) and against
    tpms_generic.h.  What the decoders use of them is declared here. *)

(** Events and states of the firmware's Manchester decoder. *)
Inductive ManchesterEvent : Type :=
| ManchesterEventShortLow
| ManchesterEventShortHigh
| ManchesterEventLongLow
| ManchesterEventLongHigh
| ManchesterEventReset.

Inductive ManchesterState : Type :=
| ManchesterStateStart1
| ManchesterStateMid1
| ManchesterStateMid0
| ManchesterStateStart0.

(** [bool manchester_advance(state, event, &next_state, &data)]: the
    next state, and [Some data] when the call returns true (a bit is
    ready), [None] when it returns false. *)
Definition manchester_decoder : Type :=
  ManchesterState -> ManchesterEvent -> ManchesterState * option bool.

(** Timing constants of a protocol ([SubGhzBlockConst]). *)
Record SubGhzBlockConst : Type := {
  te_short : Z;
  te_long : Z;
  te_delta : Z;
  min_count_bit_for_found : Z
}.

(** [SubGhzProtocolDecoderBase]: of the base object the decoders only test
    whether a callback is registered, and call it. *)
Record SubGhzProtocolDecoderBase : Type := {
  callback : bool
}.

(** [SubGhzBlockDecoder]: the parser step and the frame buffer.  The step
    is stored as the protocol's own enumeration. *)
Record SubGhzBlockDecoder (Step : Type) : Type := {
  parser_step : Step;
  decode_data : Z;
  decode_count_bit : Z
}.
Arguments parser_step {Step}.
Arguments decode_data {Step}.
Arguments decode_count_bit {Step}.

(** [TPMSBlockGeneric]: the record a decoder stores and reports. *)
Record TPMSBlockGeneric : Type := {
  protocol_name : string;
  id : Z;
  data : Z;
  data_count_bit : Z;
  battery_low : Z;
  temperature : spec_float;
  pressure : spec_float
}.

(** C floating point on the target: [float] is binary32 (24-bit
    significand, infinities at exponent 128), [double] is binary64 (53
    bits, 1024); conversions and products round to nearest, ties to
    even. *)
Definition float_of_uint64 (z : Z) : spec_float :=
  binary_normalize 24 128 z 0 false.

Definition double_of_uint64 (z : Z) : spec_float :=
  binary_normalize 53 1024 z 0 false.

Definition double_of_float (x : spec_float) : spec_float :=
  match x with
  | S754_finite s m e => binary_normalize 53 1024 (cond_Zopp s (Zpos m)) e s
  | _ => x
  end.

Definition float_of_double (x : spec_float) : spec_float :=
  match x with
  | S754_finite s m e => binary_normalize 24 128 (cond_Zopp s (Zpos m)) e s
  | _ => x
  end.

Definition float_mul : spec_float -> spec_float -> spec_float := SFmul 24 128.

Definition double_mul : spec_float -> spec_float -> spec_float := SFmul 53 1024.

(** The [double] a decimal literal [num / den] denotes: the binary64
    value nearest to the quotient. *)
Definition double_literal (num den : Z) : spec_float :=
  SFdiv 53 1024 (double_of_uint64 num) (double_of_uint64 den).

(** The literal [0.25f]. *)
Definition float_quarter : spec_float := binary_normalize 24 128 1 (-2) false.

(** The real number a finite floating-point value stands for (0 for
    infinities and NaN, which the extractors never produce). *)
Definition float_value (x : spec_float) : Q :=
  match x with
  | S754_finite s m e => (inject_Z (cond_Zopp s (Zpos m)) * Qpower 2 e)%Q
  | _ => 0%Q
  end.

Definition float_is_finite (x : spec_float) : bool :=
  match x with
  | S754_finite _ _ _ | S754_zero _ => true
  | _ => false
  end.

(** Structural equality of floating-point values. *)
Definition float_same (x y : spec_float) : bool :=
  match x, y with
  | S754_zero s, S754_zero s' => Bool.eqb s s'
  | S754_infinity s, S754_infinity s' => Bool.eqb s s'
  | S754_nan, S754_nan => true
  | S754_finite s m e, S754_finite s' m' e' =>
      Bool.eqb s s' && Pos.eqb m m' && Z.eqb e e'
  | _, _ => false
  end.

(** The values of a byte. *)
Definition byte_values : list Z := map Z.of_nat (seq 0 256).

(** Modelled from the spec: the constant TPMS_NO_BATT of tpms_generic.h is
    missing from the sources; section 3 gives battery_low a distinguished
    "Unknown" value and section 4.6 says battery detection is unsupported
    in the profiles; the all-ones byte stands for it. *)
Definition TPMS_NO_BATT : Z := 255.

(** The decoder instance; [TPMSProtocolDecoderFord] and
    [TPMSProtocolDecoderSMD3MA4] have the same five members. *)
Record TPMSProtocolDecoder (Step : Type) : Type := {
  base : SubGhzProtocolDecoderBase;
  decoder : SubGhzBlockDecoder Step;
  generic : TPMSBlockGeneric;
  manchester_saved_state : ManchesterState;
  header_count : Z
}.
Arguments base {Step}.
Arguments decoder {Step}.
Arguments generic {Step}.
Arguments manchester_saved_state {Step}.
Arguments header_count {Step}.

(** What a call of [feed] does besides changing the instance: the debug
    lines it logs and the callback it invokes, in program order. *)
Inductive Event : Type :=
| LogEdge (level : bool) (duration : Z)
| LogResetAccumulated (count_bit : Z) (bits : Z)
| LogFrame (bits : Z)
| LogChecksumInData (b7 : Z)
| LogCalculatedChecksum (checksum : Z)
| LogCrcMismatchDrop
| CallbackInvoked (record : TPMSBlockGeneric).

(** Assignments to members of the instance. *)
Section Assign.
Context {Step : Type}.
Implicit Type instance : TPMSProtocolDecoder Step.

Definition set_parser_step instance (p : Step) : TPMSProtocolDecoder Step :=
  {| base := base instance;
     decoder := {| parser_step := p;
                   decode_data := decode_data (decoder instance);
                   decode_count_bit := decode_count_bit (decoder instance) |};
     generic := generic instance;
     manchester_saved_state := manchester_saved_state instance;
     header_count := header_count instance |}.

Definition set_decode instance (bits count : Z) : TPMSProtocolDecoder Step :=
  {| base := base instance;
     decoder := {| parser_step := parser_step (decoder instance);
                   decode_data := bits;
                   decode_count_bit := count |};
     generic := generic instance;
     manchester_saved_state := manchester_saved_state instance;
     header_count := header_count instance |}.

Definition set_generic instance (g : TPMSBlockGeneric) : TPMSProtocolDecoder Step :=
  {| base := base instance;
     decoder := decoder instance;
     generic := g;
     manchester_saved_state := manchester_saved_state instance;
     header_count := header_count instance |}.

Definition set_manchester_saved_state instance (m : ManchesterState)
  : TPMSProtocolDecoder Step :=
  {| base := base instance;
     decoder := decoder instance;
     generic := generic instance;
     manchester_saved_state := m;
     header_count := header_count instance |}.

Definition set_header_count instance (h : Z) : TPMSProtocolDecoder Step :=
  {| base := base instance;
     decoder := decoder instance;
     generic := generic instance;
     manchester_saved_state := manchester_saved_state instance;
     header_count := h |}.

(** [subghz_protocol_decoder_base_set_decoder_callback] of the firmware:
    the caller registers (or clears) its sink. *)
Definition set_callback instance (registered : bool) : TPMSProtocolDecoder Step :=
  {| base := {| callback := registered |};
     decoder := decoder instance;
     generic := generic instance;
     manchester_saved_state := manchester_saved_state instance;
     header_count := header_count instance |}.

(** Modelled from the spec: [subghz_protocol_blocks_add_bit] of the
    firmware (lib/subghz/blocks/decoder.c) is missing from the sources;
    section 4.4 gives it as reg = (reg << 1) | bit on a 64-bit register
    with bit_count incremented, section 3 gives bit_count 16 bits. *)
Definition subghz_protocol_blocks_add_bit instance (bit : bool)
  : TPMSProtocolDecoder Step :=
  set_decode instance
    (Z.lor (Z.shiftl (decode_data (decoder instance)) 1) (Z.b2z bit) mod 2 ^ 64)
    ((decode_count_bit (decoder instance) + 1) mod 2 ^ 16).
End Assign.

(** Modelled from the spec: the macro DURATION_DIFF of the firmware
    (lib/subghz/blocks/math.h) is missing from the sources; section 4.1
    uses it as the absolute difference |duration - te|. *)
Definition DURATION_DIFF (x y : Z) : Z :=
  if x <? y then y - x else x - y.

(** The sink invocations of a trace, in order. *)
Fixpoint callbacks (log : list Event) : list TPMSBlockGeneric :=
  match log with
  | [] => []
  | CallbackInvoked r :: rest => r :: callbacks rest
  | _ :: rest => callbacks rest
  end.

(** Whether a trace shows a completed frame handed to validation: both
    decoders log the frame register at exactly that point. *)
Fixpoint frame_completed (log : list Event) : bool :=
  match log with
  | [] => false
  | LogFrame _ :: _ => true
  | _ :: rest => frame_completed rest
  end.

(** How the target lays the bytes of a [uint64_t] out in memory; the
    Flipper Zero (Cortex-M4) is little-endian. *)
Inductive ByteOrder : Type := LittleEndian | BigEndian.

(** Byte [i] of the 64-bit value [x] seen through a [uint8_t *]. *)
Definition byte_at (order : ByteOrder) (x : Z) (i : Z) : Z :=
  match order with
  | LittleEndian => Z.land (Z.shiftr x (8 * i)) 255
  | BigEndian => Z.land (Z.shiftr x (8 * (7 - i))) 255
  end.

(** Byte [i] of a 64-bit frame in transmission order (bits are shifted in
    from the right, so the first byte received is the most significant). *)
Definition frame_byte (x : Z) (i : Z) : Z :=
  Z.land (Z.shiftr x (8 * (7 - i))) 255.

(** The calls a client makes on a decoder between alloc and free. *)
Inductive DecoderCall : Type :=
| CallFeed (level : bool) (duration : Z)
| CallReset
| CallSetCallback (registered : bool).

(** The firmware's table-driven Manchester decoder
    (lib/toolbox/manchester_decoder.c), which is not part of this
    repository.  The theorems below hold for any [manchester_decoder];
    this one serves to run the decoders on concrete edges. *)
Module Toolbox.

Definition event_shift (e : ManchesterEvent) : Z :=
  match e with
  | ManchesterEventShortLow => 0
  | ManchesterEventShortHigh => 2
  | ManchesterEventLongLow => 4
  | ManchesterEventLongHigh => 6
  | ManchesterEventReset => 8
  end.

Definition state_index (s : ManchesterState) : Z :=
  match s with
  | ManchesterStateStart1 => 0
  | ManchesterStateMid1 => 1
  | ManchesterStateMid0 => 2
  | ManchesterStateStart0 => 3
  end.

Definition state_of_index (n : Z) : ManchesterState :=
  if n =? 0 then ManchesterStateStart1
  else if n =? 1 then ManchesterStateMid1
  else if n =? 2 then ManchesterStateMid0
  else ManchesterStateStart0.

Definition transitions (s : ManchesterState) : Z :=
  match s with
  | ManchesterStateStart1 => 1    (* 0b00000001 *)
  | ManchesterStateMid1 => 145    (* 0b10010001 *)
  | ManchesterStateMid0 => 155    (* 0b10011011 *)
  | ManchesterStateStart0 => 251  (* 0b11111011 *)
  end.

Definition manchester_reset_state : ManchesterState := ManchesterStateMid1.

Definition manchester_advance : manchester_decoder :=
  fun state event =>
    match event with
    | ManchesterEventReset => (manchester_reset_state, None)
    | _ =>
        let new_index := Z.land (Z.shiftr (transitions state) (event_shift event)) 3 in
        if new_index =? state_index state then (manchester_reset_state, None)
        else
          match state_of_index new_index with
          | ManchesterStateMid0 => (ManchesterStateMid0, Some false)
          | ManchesterStateMid1 => (ManchesterStateMid1, Some true)
          | other => (other, None)
          end
    end.

End Toolbox.

(** ** protocols/ford.c *)
Module Ford.

Definition TPMS_PROTOCOL_FORD_NAME : string := "Ford TPMS".

Definition PREAMBLE_BITS_LEN : Z := 16.

Definition tpms_protocol_ford_const : SubGhzBlockConst :=
  {| te_short := 52;
     te_long := 104;
     te_delta := 150;
     min_count_bit_for_found := 64 |}.

Inductive FordDecoderStep : Type :=
| FordDecoderStepReset
| FordDecoderStepCheckPreamble
| FordDecoderStepDecoderData
| FordDecoderStepSaveDuration
| FordDecoderStepCheckDuration.

Definition TPMSProtocolDecoderFord : Type := TPMSProtocolDecoder FordDecoderStep.

(** [malloc] of the firmware returns zeroed memory, so every member that
    alloc does not assign is zero: step Reset, empty buffer, no
    callback. *)
Definition tpms_protocol_decoder_ford_alloc : TPMSProtocolDecoderFord :=
  {| base := {| callback := false |};
     decoder := {| parser_step := FordDecoderStepReset;
                   decode_data := 0;
                   decode_count_bit := 0 |};
     generic := {| protocol_name := TPMS_PROTOCOL_FORD_NAME;
                   id := 0;
                   data := 0;
                   data_count_bit := 0;
                   battery_low := 0;
                   temperature := S754_zero false;
                   pressure := S754_zero false |};
     manchester_saved_state := ManchesterStateStart1;
     header_count := 0 |}.

Definition tpms_protocol_decoder_ford_reset (instance : TPMSProtocolDecoderFord)
  : TPMSProtocolDecoderFord :=
  set_parser_step instance FordDecoderStepReset.

(** Analysis of received data. *)
Definition tpms_protocol_ford_analyze (instance : TPMSBlockGeneric) : TPMSBlockGeneric :=
  {| protocol_name := protocol_name instance;
     id := Z.shiftr (data instance) 32 mod 2 ^ 32;
     data := data instance;
     data_count_bit := data_count_bit instance;
     battery_low := TPMS_NO_BATT;
     (* computed in uint64_t, then converted *)
     temperature :=
       float_of_uint64 ((Z.land (Z.shiftr (data instance) 24) 255 - 56) mod 2 ^ 64);
     (* uint64_t times 0.25f in float, times 0.069 in double, stored as float *)
     pressure :=
       float_of_double
         (double_mul
            (double_of_float
               (float_mul
                  (float_of_uint64 (Z.land (Z.shiftr (data instance) 8) 255))
                  float_quarter))
            (double_literal 69 1000)) |}.

Definition level_and_duration_to_event (level : bool) (duration : Z) : ManchesterEvent :=
  if DURATION_DIFF duration (te_long tpms_protocol_ford_const)
     <? te_delta tpms_protocol_ford_const
  then (if level then ManchesterEventLongHigh else ManchesterEventLongLow)
  else if DURATION_DIFF duration (te_short tpms_protocol_ford_const)
          <? te_delta tpms_protocol_ford_const
  then (if level then ManchesterEventShortHigh else ManchesterEventShortLow)
  else ManchesterEventReset.

(** The arguments [get_string] hands to the formatter. *)
Definition tpms_protocol_decoder_ford_get_string (instance : TPMSProtocolDecoderFord)
  : string * Z * Z * spec_float * spec_float :=
  (protocol_name (generic instance),
   id (generic instance),
   battery_low (generic instance),
   temperature (generic instance),
   pressure (generic instance)).

Section Decoder.
Variable manchester_advance : manchester_decoder.
Variable byte_order : ByteOrder.

Definition tpms_protocol_ford_check_crc (instance : TPMSProtocolDecoderFord)
  : bool * list Event :=
  if decode_data (decoder instance) =? 0 then (false, [])
  else
    let b := byte_at byte_order (decode_data (decoder instance)) in
    let checksum := Z.land (b 0 + b 1 + b 2 + b 3 + b 4 + b 5 + b 6) 255 in
    (checksum =? b 7, [LogChecksumInData (b 7); LogCalculatedChecksum checksum]).

(** First half of [feed], the low-level bit sequence decoding: the
    instance, the log, and [Some bit] when control reaches the switch
    ([None] is the early return). *)
Definition tpms_protocol_decoder_ford_feed_bit
    (instance : TPMSProtocolDecoderFord) (level : bool) (duration : Z)
  : TPMSProtocolDecoderFord * list Event * option bool :=
  match parser_step (decoder instance) with
  | FordDecoderStepReset => (instance, [], Some false)
  | step =>
      match level_and_duration_to_event level duration with
      | ManchesterEventReset =>
          (set_parser_step instance FordDecoderStepReset,
           match step with
           | FordDecoderStepDecoderData =>
               if decode_count_bit (decoder instance) =? 0 then []
               else [LogResetAccumulated (decode_count_bit (decoder instance))
                                         (decode_data (decoder instance))]
           | _ => []
           end,
           Some false)
      | event =>
          let '(next_state, have_bit) :=
            manchester_advance (manchester_saved_state instance) event in
          match have_bit with
          | None => (set_manchester_saved_state instance next_state, [], None)
          | Some bit =>
              (* Invert value, due to signal is Manchester II and decoder is Manchester I *)
              (set_manchester_saved_state instance next_state, [], Some (negb bit))
          end
      end
  end.

(** Second half of [feed], the switch on the parser step. *)
Definition tpms_protocol_decoder_ford_feed_step
    (instance : TPMSProtocolDecoderFord) (level : bool) (duration : Z) (bit : bool)
  : TPMSProtocolDecoderFord * list Event :=
  match parser_step (decoder instance) with
  | FordDecoderStepReset =>
      if negb level
         && (DURATION_DIFF duration (te_long tpms_protocol_ford_const * 2)
             <? te_delta tpms_protocol_ford_const)
      then
        (set_manchester_saved_state
           (set_decode (set_parser_step instance FordDecoderStepCheckPreamble) 0 0)
           ManchesterStateStart1,
         [])
      else (instance, [])
  | FordDecoderStepCheckPreamble =>
      if bit then (set_parser_step instance FordDecoderStepReset, [])
      else
        let instance :=
          set_header_count instance ((header_count instance + 1) mod 2 ^ 16) in
        if header_count instance =? PREAMBLE_BITS_LEN
        then (set_parser_step instance FordDecoderStepDecoderData, [])
        else (instance, [])
  | FordDecoderStepDecoderData =>
      let instance := subghz_protocol_blocks_add_bit instance bit in
      if decode_count_bit (decoder instance)
         =? min_count_bit_for_found tpms_protocol_ford_const
      then
        let '(crc_ok, crc_log) := tpms_protocol_ford_check_crc instance in
        let log := LogFrame (decode_data (decoder instance)) :: crc_log in
        if negb crc_ok
        then (set_parser_step instance FordDecoderStepReset,
              log ++ [LogCrcMismatchDrop])
        else
          let record :=
            tpms_protocol_ford_analyze
              {| protocol_name := protocol_name (generic instance);
                 id := id (generic instance);
                 data := decode_data (decoder instance);
                 data_count_bit := decode_count_bit (decoder instance);
                 battery_low := battery_low (generic instance);
                 temperature := temperature (generic instance);
                 pressure := pressure (generic instance) |} in
          let instance := set_generic instance record in
          (set_parser_step instance FordDecoderStepReset,
           log ++ (if callback (base instance) then [CallbackInvoked record] else []))
      else (instance, [])
  | _ => (instance, [])
  end.

Definition tpms_protocol_decoder_ford_feed
    (instance : TPMSProtocolDecoderFord) (level : bool) (duration : Z)
  : TPMSProtocolDecoderFord * list Event :=
  match tpms_protocol_decoder_ford_feed_bit instance level duration with
  | (instance, log, None) => (instance, log)
  | (instance, log, Some bit) =>
      let '(instance, log') :=
        tpms_protocol_decoder_ford_feed_step instance level duration bit in
      (instance, log ++ log')
  end.

(** One call of the decoder's interface. *)
Definition call (instance : TPMSProtocolDecoderFord) (c : DecoderCall)
  : TPMSProtocolDecoderFord :=
  match c with
  | CallFeed level duration => fst (tpms_protocol_decoder_ford_feed instance level duration)
  | CallReset => tpms_protocol_decoder_ford_reset instance
  | CallSetCallback registered => set_callback instance registered
  end.

(** The instance after a sequence of calls on a fresh decoder. *)
Definition run (calls : list DecoderCall) : TPMSProtocolDecoderFord :=
  fold_left call calls tpms_protocol_decoder_ford_alloc.
End Decoder.

End Ford.

(** ** protocols/SMD3MA4.c *)
Module SMD3MA4.

Definition TPMS_PROTOCOL_SMD3MA4_NAME : string := "SMD3MA4".

Definition PREAMBLE_BITS_LEN : Z := 3.

Definition tpms_protocol_SMD3MA4_const : SubGhzBlockConst :=
  {| te_short := 120;
     te_long := 240;
     te_delta := 55; (* 50% of te_short due to poor sensitivity *)
     min_count_bit_for_found := 33 |}.

Inductive SMD3MA4DecoderStep : Type :=
| SMD3MA4DecoderStepReset
| SMD3MA4DecoderStepCheckPreamble
| SMD3MA4DecoderStepDecoderData
| SMD3MA4DecoderStepSaveDuration
| SMD3MA4DecoderStepCheckDuration.

Definition TPMSProtocolDecoderSMD3MA4 : Type := TPMSProtocolDecoder SMD3MA4DecoderStep.

(** As for Ford, the members alloc does not assign are zero. *)
Definition tpms_protocol_decoder_SMD3MA4_alloc : TPMSProtocolDecoderSMD3MA4 :=
  {| base := {| callback := false |};
     decoder := {| parser_step := SMD3MA4DecoderStepReset;
                   decode_data := 0;
                   decode_count_bit := 0 |};
     generic := {| protocol_name := TPMS_PROTOCOL_SMD3MA4_NAME;
                   id := 0;
                   data := 0;
                   data_count_bit := 0;
                   battery_low := 0;
                   temperature := S754_zero false;
                   pressure := S754_zero false |};
     manchester_saved_state := ManchesterStateStart1;
     header_count := 0 |}.

Definition tpms_protocol_decoder_SMD3MA4_reset (instance : TPMSProtocolDecoderSMD3MA4)
  : TPMSProtocolDecoderSMD3MA4 :=
  set_parser_step instance SMD3MA4DecoderStepReset.

(** Analysis of received data. *)
Definition tpms_protocol_SMD3MA4_analyze (instance : TPMSBlockGeneric) : TPMSBlockGeneric :=
  {| protocol_name := protocol_name instance;
     id := Z.shiftr (data instance) 24 mod 2 ^ 32;
     data := data instance;
     data_count_bit := data_count_bit instance;
     (* TODO locate and fix *)
     battery_low := TPMS_NO_BATT;
     temperature := float_of_uint64 (Z.land (Z.shiftr (data instance) 6) 255);
     (* the subtraction is done in uint64_t, the products in double *)
     pressure :=
       float_of_double
         (double_mul
            (double_mul
               (double_of_uint64
                  ((Z.land (Z.shiftr (data instance) 5) 255 - 32) mod 2 ^ 64))
               (double_literal 2 10))
            (double_literal 69 1000)) |}.

Definition level_and_duration_to_event (level : bool) (duration : Z) : ManchesterEvent :=
  if DURATION_DIFF duration (te_long tpms_protocol_SMD3MA4_const)
     <? te_delta tpms_protocol_SMD3MA4_const
  then (if level then ManchesterEventLongHigh else ManchesterEventLongLow)
  else if DURATION_DIFF duration (te_short tpms_protocol_SMD3MA4_const)
          <? te_delta tpms_protocol_SMD3MA4_const
  then (if level then ManchesterEventShortHigh else ManchesterEventShortLow)
  else ManchesterEventReset.

Section Decoder.
Variable manchester_advance : manchester_decoder.

(** First half of [feed], the low-level bit sequence decoding: the
    instance, the log, and [Some bit] when control reaches the switch
    ([None] is the early return). *)
Definition tpms_protocol_decoder_SMD3MA4_feed_bit
    (instance : TPMSProtocolDecoderSMD3MA4) (level : bool) (duration : Z)
  : TPMSProtocolDecoderSMD3MA4 * list Event * option bool :=
  match parser_step (decoder instance) with
  | SMD3MA4DecoderStepReset => (instance, [], Some false)
  | step =>
      match level_and_duration_to_event level duration with
      | ManchesterEventReset =>
          (set_parser_step instance SMD3MA4DecoderStepReset,
           match step with
           | SMD3MA4DecoderStepDecoderData =>
               if decode_count_bit (decoder instance) =? 0 then []
               else [LogEdge level duration;
                     LogResetAccumulated (decode_count_bit (decoder instance))
                                         (decode_data (decoder instance))]
           | _ => []
           end,
           Some false)
      | event =>
          let '(next_state, have_bit) :=
            manchester_advance (manchester_saved_state instance) event in
          match have_bit with
          | None => (set_manchester_saved_state instance next_state, [], None)
          | Some bit =>
              (* Invert value, due to signal is Manchester II and decoder is Manchester I *)
              (set_manchester_saved_state instance next_state, [], Some (negb bit))
          end
      end
  end.

(** Second half of [feed], the switch on the parser step. *)
Definition tpms_protocol_decoder_SMD3MA4_feed_step
    (instance : TPMSProtocolDecoderSMD3MA4) (level : bool) (duration : Z) (bit : bool)
  : TPMSProtocolDecoderSMD3MA4 * list Event :=
  match parser_step (decoder instance) with
  | SMD3MA4DecoderStepReset =>
      (* wait for start ~480us pulse *)
      if level
         && (DURATION_DIFF duration (te_long tpms_protocol_SMD3MA4_const * 2)
             <? te_delta tpms_protocol_SMD3MA4_const)
      then
        (set_manchester_saved_state
           (set_decode
              (set_header_count
                 (set_parser_step instance SMD3MA4DecoderStepCheckPreamble) 0)
              0 0)
           ManchesterStateStart1,
         [])
      else (instance, [])
  | SMD3MA4DecoderStepCheckPreamble =>
      if bit then (set_parser_step instance SMD3MA4DecoderStepReset, [])
      else
        let instance :=
          set_header_count instance ((header_count instance + 1) mod 2 ^ 16) in
        if header_count instance =? PREAMBLE_BITS_LEN
        then (set_parser_step instance SMD3MA4DecoderStepDecoderData, [])
        else (instance, [])
  | SMD3MA4DecoderStepDecoderData =>
      let instance := subghz_protocol_blocks_add_bit instance bit in
      if decode_count_bit (decoder instance)
         =? min_count_bit_for_found tpms_protocol_SMD3MA4_const
      then
        let record :=
          tpms_protocol_SMD3MA4_analyze
            {| protocol_name := protocol_name (generic instance);
               id := id (generic instance);
               data := decode_data (decoder instance);
               data_count_bit := decode_count_bit (decoder instance);
               battery_low := battery_low (generic instance);
               temperature := temperature (generic instance);
               pressure := pressure (generic instance) |} in
        let instance := set_generic instance record in
        (set_parser_step instance SMD3MA4DecoderStepReset,
         LogFrame (decode_data (decoder instance))
         :: (if callback (base instance) then [CallbackInvoked record] else []))
      else (instance, [])
  | _ => (instance, [])
  end.

Definition tpms_protocol_decoder_SMD3MA4_feed
    (instance : TPMSProtocolDecoderSMD3MA4) (level : bool) (duration : Z)
  : TPMSProtocolDecoderSMD3MA4 * list Event :=
  match tpms_protocol_decoder_SMD3MA4_feed_bit instance level duration with
  | (instance, log, None) => (instance, log)
  | (instance, log, Some bit) =>
      let '(instance, log') :=
        tpms_protocol_decoder_SMD3MA4_feed_step instance level duration bit in
      (instance, log ++ log')
  end.

(** One call of the decoder's interface. *)
Definition call (instance : TPMSProtocolDecoderSMD3MA4) (c : DecoderCall)
  : TPMSProtocolDecoderSMD3MA4 :=
  match c with
  | CallFeed level duration =>
      fst (tpms_protocol_decoder_SMD3MA4_feed instance level duration)
  | CallReset => tpms_protocol_decoder_SMD3MA4_reset instance
  | CallSetCallback registered => set_callback instance registered
  end.

(** The instance after a sequence of calls on a fresh decoder. *)
Definition run (calls : list DecoderCall) : TPMSProtocolDecoderSMD3MA4 :=
  fold_left call calls tpms_protocol_decoder_SMD3MA4_alloc.
End Decoder.

End SMD3MA4.

(** ** The timing classifier as the specification words it

    Section 4.1: a duration is Long if |duration - long_us| < tolerance_us,
    else Short if |duration - short_us| < tolerance_us, else
    OutOfTolerance; with the level it forms a Manchester symbol, the
    out-of-tolerance class being the decoder's reset event. *)
Inductive PulseClass : Type := Long | Short | OutOfTolerance.

Definition classify (duration : Z) (profile : SubGhzBlockConst) : PulseClass :=
  if Z.abs (duration - te_long profile) <? te_delta profile then Long
  else if Z.abs (duration - te_short profile) <? te_delta profile then Short
  else OutOfTolerance.

Definition symbol_of (level : bool) (c : PulseClass) : ManchesterEvent :=
  match c, level with
  | Long, true => ManchesterEventLongHigh
  | Long, false => ManchesterEventLongLow
  | Short, true => ManchesterEventShortHigh
  | Short, false => ManchesterEventShortLow
  | OutOfTolerance, _ => ManchesterEventReset
  end.

(** ** Concrete instances used to run the decoders *)

(** A capture of the start of an SMD3MA4 transmission: the client
    registers its sink, then come the 480 us start pulse, three preamble
    bits and the four data bits 1011. *)
Definition smd3ma4_partial_capture : list DecoderCall :=
  [CallSetCallback true;
   CallFeed true 480;
   CallFeed false 120; CallFeed true 120;
   CallFeed false 120; CallFeed true 120;
   CallFeed false 120;
   CallFeed true 240; CallFeed false 240; CallFeed true 240;
   CallFeed false 120; CallFeed true 120].

(** The SMD3MA4 decoder in the middle of that frame. *)
Definition smd3ma4_mid_frame : SMD3MA4.TPMSProtocolDecoderSMD3MA4 :=
  SMD3MA4.run Toolbox.manchester_advance smd3ma4_partial_capture.

(** A Ford decoder holding [bits] as its first [count] frame bits, with a
    sink registered and the Manchester decoder in state [m]. *)
Definition ford_accumulating (bits count : Z) (m : ManchesterState)
  : Ford.TPMSProtocolDecoderFord :=
  set_manchester_saved_state
    (set_decode
       (set_parser_step
          (set_header_count
             (set_callback Ford.tpms_protocol_decoder_ford_alloc true) 16)
          Ford.FordDecoderStepDecoderData)
       bits count)
    m.

(** An SMD3MA4 decoder holding [bits] as its first [count] frame bits. *)
Definition smd3ma4_accumulating (bits count : Z) (m : ManchesterState)
  : SMD3MA4.TPMSProtocolDecoderSMD3MA4 :=
  set_manchester_saved_state
    (set_decode
       (set_parser_step
          (set_header_count
             (set_callback SMD3MA4.tpms_protocol_decoder_SMD3MA4_alloc true) 3)
          SMD3MA4.SMD3MA4DecoderStepDecoderData)
       bits count)
    m.

(** The Ford frame A5 10 20 18 64 50 04 A5 in transmission order: id
    A5102018, pressure byte 64, temperature byte 50, flags byte 04,
    checksum byte A5. *)
Definition ford_sample_frame : Z := 0xA5102018645004A5.

(** The generic record as [feed] fills it before analysis. *)
Definition received (g : TPMSBlockGeneric) (bits count : Z) : TPMSBlockGeneric :=
  {| protocol_name := protocol_name g;
     id := id g;
     data := bits;
     data_count_bit := count;
     battery_low := battery_low g;
     temperature := temperature g;
     pressure := pressure g |}.

(** [n] edges of 240 us of alternating level, the first at [level]. *)
Fixpoint alternate_long (n : nat) (level : bool) : list DecoderCall :=
  match n with
  | O => []
  | S k => CallFeed level 240 :: alternate_long k (negb level)
  end.

(** The capture continued up to the last but one bit of the frame. *)
Definition smd3ma4_capture_32 : list DecoderCall :=
  smd3ma4_partial_capture ++ alternate_long 28 false.

(** The SMD3MA4 frame the capture completes with a last low edge of
    240 us: 1011 followed by 0101...0. *)
Definition smd3ma4_sample_frame : Z := 0x16AAAAAAA.

(** The Ford decoder after it accepted [ford_sample_frame], and then 63
    bits into a second frame whose last byte will not match. *)
Definition ford_after_sample : Ford.TPMSProtocolDecoderFord :=
  fst (Ford.tpms_protocol_decoder_ford_feed Toolbox.manchester_advance LittleEndian
         (ford_accumulating (Z.shiftr ford_sample_frame 1) 63 ManchesterStateMid1)
         true 100).

Definition ford_second_frame : Ford.TPMSProtocolDecoderFord :=
  set_manchester_saved_state
    (set_decode
       (set_parser_step ford_after_sample Ford.FordDecoderStepDecoderData)
       (Z.shiftr 0xA5102018655004A5 1) 63)
    ManchesterStateMid1.

(** The invariant of the frame buffer: the bit count is at most the frame
    length, and strictly below it in every phase but Idle. *)
Definition ford_invariant (s : Ford.TPMSProtocolDecoderFord) : Prop :=
  0 <= decode_count_bit (decoder s)
       <= min_count_bit_for_found Ford.tpms_protocol_ford_const
  /\ (parser_step (decoder s) <> Ford.FordDecoderStepReset ->
      decode_count_bit (decoder s)
      < min_count_bit_for_found Ford.tpms_protocol_ford_const).

Definition smd3ma4_invariant (s : SMD3MA4.TPMSProtocolDecoderSMD3MA4) : Prop :=
  0 <= decode_count_bit (decoder s)
       <= min_count_bit_for_found SMD3MA4.tpms_protocol_SMD3MA4_const
  /\ (parser_step (decoder s) <> SMD3MA4.SMD3MA4DecoderStepReset ->
      decode_count_bit (decoder s)
      < min_count_bit_for_found SMD3MA4.tpms_protocol_SMD3MA4_const).

(** ** The rest of the decoder interface, and what the further
    properties are stated with *)

Section HashData.
Variable subghz_protocol_blocks_get_hash_data :
  forall Step : Type, SubGhzBlockDecoder Step -> Z -> Z.

(** Getting the hash sum of the last randomly received parcel: the
    firmware's hash over the first [decode_count_bit / 8 + 1] bytes of the
    block decoder. *)
Definition tpms_protocol_decoder_ford_get_hash_data
    (instance : Ford.TPMSProtocolDecoderFord) : Z :=
  subghz_protocol_blocks_get_hash_data _ (decoder instance)
    (decode_count_bit (decoder instance) / 8 + 1).

Definition tpms_protocol_decoder_SMD3MA4_get_hash_data
    (instance : SMD3MA4.TPMSProtocolDecoderSMD3MA4) : Z :=
  subghz_protocol_blocks_get_hash_data _ (decoder instance)
    (decode_count_bit (decoder instance) / 8 + 1).
End HashData.

(** The value of a bit string, first bit most significant. *)
Definition bits_value (bits : list bool) : Z :=
  fold_left (fun acc b => 2 * acc + Z.b2z b) bits 0.

(** The switch of [feed] run on a sequence of recovered bits, the logs
    concatenated. *)
Fixpoint feed_bits {Step : Type}
    (feed_step : TPMSProtocolDecoder Step -> bool -> TPMSProtocolDecoder Step * list Event)
    (instance : TPMSProtocolDecoder Step) (bits : list bool)
  : TPMSProtocolDecoder Step * list Event :=
  match bits with
  | [] => (instance, [])
  | bit :: rest =>
      let '(instance, log) := feed_step instance bit in
      let '(instance, log') := feed_bits feed_step instance rest in
      (instance, log ++ log')
  end.

(** What holds of a Ford decoder in every state it reaches. *)
Definition ford_wellformed (s : Ford.TPMSProtocolDecoderFord) : Prop :=
  ford_invariant s
  /\ (parser_step (decoder s) = Ford.FordDecoderStepReset
      \/ parser_step (decoder s) = Ford.FordDecoderStepCheckPreamble
      \/ parser_step (decoder s) = Ford.FordDecoderStepDecoderData)
  /\ 0 <= decode_data (decoder s) < 2 ^ decode_count_bit (decoder s)
  /\ (parser_step (decoder s) = Ford.FordDecoderStepCheckPreamble ->
      decode_count_bit (decoder s) = 0)
  /\ 0 <= header_count s < 2 ^ 16.

(** What holds of an SMD3MA4 decoder in every state it reaches. *)
Definition smd3ma4_wellformed (s : SMD3MA4.TPMSProtocolDecoderSMD3MA4) : Prop :=
  smd3ma4_invariant s
  /\ (parser_step (decoder s) = SMD3MA4.SMD3MA4DecoderStepReset
      \/ parser_step (decoder s) = SMD3MA4.SMD3MA4DecoderStepCheckPreamble
      \/ parser_step (decoder s) = SMD3MA4.SMD3MA4DecoderStepDecoderData)
  /\ 0 <= decode_data (decoder s) < 2 ^ decode_count_bit (decoder s)
  /\ (parser_step (decoder s) = SMD3MA4.SMD3MA4DecoderStepCheckPreamble ->
      decode_count_bit (decoder s) = 0 /\ header_count s < SMD3MA4.PREAMBLE_BITS_LEN)
  /\ 0 <= header_count s <= SMD3MA4.PREAMBLE_BITS_LEN.

(** Whether every duration fed in a sequence of calls is one a
    [uint32_t] can hold. *)
Definition durations_in_range (calls : list DecoderCall) : Prop :=
  Forall (fun c => match c with
                   | CallFeed _ d => 0 <= d < 2 ^ 32
                   | _ => True
                   end) calls.

(** The [width] low bits of [v], most significant first. *)
Fixpoint frame_bits (width : nat) (v : Z) : list bool :=
  match width with
  | O => []
  | S k => Z.testbit v (Z.of_nat k) :: frame_bits k v
  end.

(** A set of Manchester states, given by its membership test, that long
    symbols cannot leave without the decoder delivering a bit, and from
    which every bit delivered on a long symbol is [false]. *)
Definition long_symbols_deliver_false
    (manchester_advance : manchester_decoder) (quiet : ManchesterState -> bool) : Prop :=
  quiet ManchesterStateStart1 = true
  /\ forall (m : ManchesterState) (level : bool),
      quiet m = true ->
      match manchester_advance m
              (if level then ManchesterEventLongHigh else ManchesterEventLongLow) with
      | (next, None) => quiet next = true
      | (_, Some bit) => bit = false
      end.

(** The states of the firmware decoder that long symbols reach from the
    start state before a bit is delivered. *)
Definition toolbox_quiet (m : ManchesterState) : bool :=
  match m with
  | ManchesterStateStart1 | ManchesterStateMid1 => true
  | _ => false
  end.

(** The edges, besides the sync gaps, of an attempt to send a Ford frame:
    every duration is within 150 us of the long duration. *)
Definition ford_attempt : list DecoderCall :=
  [CallSetCallback true;
   CallFeed false 208;
   CallFeed true 52; CallFeed false 52; CallFeed true 52; CallFeed false 104;
   CallFeed true 104; CallFeed false 52; CallFeed true 52;
   CallFeed false 208;
   CallFeed true 104; CallFeed false 104; CallFeed true 52].

(** A Ford decoder that has never been past the preamble: Idle, or in
    preamble acquisition with the Manchester decoder in a state of
    [quiet], the counter still zero and the record never written. *)
Definition ford_never_locked (quiet : ManchesterState -> bool)
    (s : Ford.TPMSProtocolDecoderFord) : Prop :=
  (parser_step (decoder s) = Ford.FordDecoderStepReset
   \/ (parser_step (decoder s) = Ford.FordDecoderStepCheckPreamble
       /\ quiet (manchester_saved_state s) = true))
  /\ header_count s = 0
  /\ generic s = generic Ford.tpms_protocol_decoder_ford_alloc.

(** ** Pulse classification *)

Lemma DURATION_DIFF_abs (x y : Z) : DURATION_DIFF x y = Z.abs (x - y).
Proof.
  unfold DURATION_DIFF.
  destruct (Z.ltb_spec x y); lia.
Qed.

Lemma ford_event_classify (level : bool) (d : Z) :
  Ford.level_and_duration_to_event level d
  = symbol_of level (classify d Ford.tpms_protocol_ford_const).
Proof.
  unfold Ford.level_and_duration_to_event, classify.
  rewrite !DURATION_DIFF_abs.
  destruct (_ <? _); [now destruct level|].
  destruct (_ <? _); now destruct level.
Qed.

Lemma smd3ma4_event_classify (level : bool) (d : Z) :
  SMD3MA4.level_and_duration_to_event level d
  = symbol_of level (classify d SMD3MA4.tpms_protocol_SMD3MA4_const).
Proof.
  unfold SMD3MA4.level_and_duration_to_event, classify.
  rewrite !DURATION_DIFF_abs.
  destruct (_ <? _); [now destruct level|].
  destruct (_ <? _); now destruct level.
Qed.

Lemma classify_cases (d : Z) (profile : SubGhzBlockConst) :
  (Z.abs (d - te_long profile) < te_delta profile -> classify d profile = Long)
  /\ (te_delta profile <= Z.abs (d - te_long profile) ->
      Z.abs (d - te_short profile) < te_delta profile ->
      classify d profile = Short)
  /\ (te_delta profile <= Z.abs (d - te_long profile) ->
      te_delta profile <= Z.abs (d - te_short profile) ->
      classify d profile = OutOfTolerance).
Proof.
  unfold classify.
  destruct (Z.ltb_spec (Z.abs (d - te_long profile)) (te_delta profile));
    destruct (Z.ltb_spec (Z.abs (d - te_short profile)) (te_delta profile));
    repeat split; intros; try reflexivity; lia.
Qed.

(** C7. For every duration and both profiles, the event the decoder
    derives from an edge is the Manchester symbol of the classification
    Long if |d - long_us| < tolerance_us, otherwise Short if
    |d - short_us| < tolerance_us, otherwise OutOfTolerance (the reset
    event); Long is tested first, so a duration inside the Long window is
    Long whether or not the Short window contains it too. *)
Theorem classification_long_before_short (level : bool) (d : Z) :
  Ford.level_and_duration_to_event level d
  = symbol_of level (classify d Ford.tpms_protocol_ford_const)
  /\ SMD3MA4.level_and_duration_to_event level d
     = symbol_of level (classify d SMD3MA4.tpms_protocol_SMD3MA4_const)
  /\ forall profile : SubGhzBlockConst,
      (Z.abs (d - te_long profile) < te_delta profile -> classify d profile = Long)
      /\ (te_delta profile <= Z.abs (d - te_long profile) ->
          Z.abs (d - te_short profile) < te_delta profile ->
          classify d profile = Short)
      /\ (te_delta profile <= Z.abs (d - te_long profile) ->
          te_delta profile <= Z.abs (d - te_short profile) ->
          classify d profile = OutOfTolerance).
Proof.
  split; [apply ford_event_classify|].
  split; [apply smd3ma4_event_classify|].
  intros profile. apply classify_cases.
Qed.

(** The three classes on the SMD3MA4 profile, and a tie on the Ford
    profile, whose windows overlap: 100 us is 48 us from short and 4 us
    from long. *)
Lemma classification_long_before_short_witness :
  SMD3MA4.level_and_duration_to_event true 250 = ManchesterEventLongHigh
  /\ classify 130 SMD3MA4.tpms_protocol_SMD3MA4_const = Short
  /\ classify 180 SMD3MA4.tpms_protocol_SMD3MA4_const = OutOfTolerance
  /\ classify 100 Ford.tpms_protocol_ford_const = Long.
Proof.
  split.
  - destruct (classification_long_before_short true 250) as (_ & H & _).
    rewrite H. reflexivity.
  - split.
    + destruct (classification_long_before_short true 130) as (_ & _ & H).
      apply (H SMD3MA4.tpms_protocol_SMD3MA4_const); simpl; lia.
    + split.
      * destruct (classification_long_before_short true 180) as (_ & _ & H).
        apply (H SMD3MA4.tpms_protocol_SMD3MA4_const); simpl; lia.
      * destruct (classification_long_before_short true 100) as (_ & _ & H).
        apply (H Ford.tpms_protocol_ford_const); simpl; lia.
Defined.

(** ** Reset *)

Lemma set_parser_step_idem {Step : Type} (s : TPMSProtocolDecoder Step) (p q : Step) :
  set_parser_step (set_parser_step s p) q = set_parser_step s q.
Proof. reflexivity. Qed.

(** C6, as the code has it.  For both protocols and every decoder state,
    reset() forces the phase to Idle and changes nothing else: the frame
    buffer, the bit count, the preamble counter, the Manchester state and
    the stored record keep their values (the buffer is cleared later,
    when the next sync pulse is matched).  Calling reset() twice leaves
    the decoder in exactly the state one call leaves it in. *)
Theorem reset_forces_idle_and_is_idempotent :
  (forall s : Ford.TPMSProtocolDecoderFord,
      let s' := Ford.tpms_protocol_decoder_ford_reset s in
      parser_step (decoder s') = Ford.FordDecoderStepReset
      /\ decode_data (decoder s') = decode_data (decoder s)
      /\ decode_count_bit (decoder s') = decode_count_bit (decoder s)
      /\ header_count s' = header_count s
      /\ manchester_saved_state s' = manchester_saved_state s
      /\ generic s' = generic s
      /\ base s' = base s
      /\ Ford.tpms_protocol_decoder_ford_reset s' = s')
  /\ (forall s : SMD3MA4.TPMSProtocolDecoderSMD3MA4,
      let s' := SMD3MA4.tpms_protocol_decoder_SMD3MA4_reset s in
      parser_step (decoder s') = SMD3MA4.SMD3MA4DecoderStepReset
      /\ decode_data (decoder s') = decode_data (decoder s)
      /\ decode_count_bit (decoder s') = decode_count_bit (decoder s)
      /\ header_count s' = header_count s
      /\ manchester_saved_state s' = manchester_saved_state s
      /\ generic s' = generic s
      /\ base s' = base s
      /\ SMD3MA4.tpms_protocol_decoder_SMD3MA4_reset s' = s').
Proof.
  split; intros s; cbv zeta;
    unfold Ford.tpms_protocol_decoder_ford_reset,
           SMD3MA4.tpms_protocol_decoder_SMD3MA4_reset;
    rewrite set_parser_step_idem; repeat split.
Qed.

(** reset() in the middle of an SMD3MA4 frame: the decoder is Idle, but
    the four bits 1011 received so far are still in the frame buffer. *)
Lemma reset_keeps_frame_buffer :
  parser_step (decoder (SMD3MA4.tpms_protocol_decoder_SMD3MA4_reset smd3ma4_mid_frame))
  = SMD3MA4.SMD3MA4DecoderStepReset
  /\ decode_count_bit
       (decoder (SMD3MA4.tpms_protocol_decoder_SMD3MA4_reset smd3ma4_mid_frame)) = 4
  /\ decode_data
       (decoder (SMD3MA4.tpms_protocol_decoder_SMD3MA4_reset smd3ma4_mid_frame)) = 11
  /\ decode_count_bit
       (decoder (SMD3MA4.tpms_protocol_decoder_SMD3MA4_reset smd3ma4_mid_frame)) <> 0.
Proof.
  vm_compute. repeat split; discriminate.
Qed.

(** ** Leaving Idle *)

Section Idle.
Variable manchester_advance : manchester_decoder.
Variable byte_order : ByteOrder.

Lemma ford_feed_idle (s : Ford.TPMSProtocolDecoderFord) (level : bool) (d : Z) :
  parser_step (decoder s) = Ford.FordDecoderStepReset ->
  Ford.tpms_protocol_decoder_ford_feed manchester_advance byte_order s level d
  = (if negb level && (DURATION_DIFF d 208 <? 150)
     then set_manchester_saved_state
            (set_decode (set_parser_step s Ford.FordDecoderStepCheckPreamble) 0 0)
            ManchesterStateStart1
     else s, []).
Proof.
  intros H.
  unfold Ford.tpms_protocol_decoder_ford_feed,
         Ford.tpms_protocol_decoder_ford_feed_bit.
  rewrite H.
  unfold Ford.tpms_protocol_decoder_ford_feed_step.
  rewrite H.
  change (te_long Ford.tpms_protocol_ford_const * 2) with 208.
  change (te_delta Ford.tpms_protocol_ford_const) with 150.
  destruct (negb level && _); reflexivity.
Qed.

Lemma smd3ma4_feed_idle (s : SMD3MA4.TPMSProtocolDecoderSMD3MA4) (level : bool) (d : Z) :
  parser_step (decoder s) = SMD3MA4.SMD3MA4DecoderStepReset ->
  SMD3MA4.tpms_protocol_decoder_SMD3MA4_feed manchester_advance s level d
  = (if level && (DURATION_DIFF d 480 <? 55)
     then set_manchester_saved_state
            (set_decode
               (set_header_count
                  (set_parser_step s SMD3MA4.SMD3MA4DecoderStepCheckPreamble) 0)
               0 0)
            ManchesterStateStart1
     else s, []).
Proof.
  intros H.
  unfold SMD3MA4.tpms_protocol_decoder_SMD3MA4_feed,
         SMD3MA4.tpms_protocol_decoder_SMD3MA4_feed_bit.
  rewrite H.
  unfold SMD3MA4.tpms_protocol_decoder_SMD3MA4_feed_step.
  rewrite H.
  change (te_long SMD3MA4.tpms_protocol_SMD3MA4_const * 2) with 480.
  change (te_delta SMD3MA4.tpms_protocol_SMD3MA4_const) with 55.
  destruct (level && _); reflexivity.
Qed.

(** C5, as the code has it.  While Idle, the Ford decoder leaves Idle
    for preamble acquisition exactly when the edge is low and its
    duration is within tolerance (150 us) of 2 x long_us = 208 us; the
    SMD3MA4 decoder leaves Idle exactly when the edge is high (the
    start pulse) and its duration is within tolerance (55 us) of
    2 x long_us = 480 us.  Any other edge received in Idle leaves the
    phase Idle. *)
Theorem idle_leaves_on_sync_pulse_only (level : bool) (d : Z) :
  (forall s : Ford.TPMSProtocolDecoderFord,
      parser_step (decoder s) = Ford.FordDecoderStepReset ->
      parser_step
        (decoder
           (fst (Ford.tpms_protocol_decoder_ford_feed
                   manchester_advance byte_order s level d)))
      = if negb level
           && (Z.abs (d - 2 * te_long Ford.tpms_protocol_ford_const)
               <? te_delta Ford.tpms_protocol_ford_const)
        then Ford.FordDecoderStepCheckPreamble
        else Ford.FordDecoderStepReset)
  /\ (forall s : SMD3MA4.TPMSProtocolDecoderSMD3MA4,
      parser_step (decoder s) = SMD3MA4.SMD3MA4DecoderStepReset ->
      parser_step
        (decoder
           (fst (SMD3MA4.tpms_protocol_decoder_SMD3MA4_feed
                   manchester_advance s level d)))
      = if level
           && (Z.abs (d - 2 * te_long SMD3MA4.tpms_protocol_SMD3MA4_const)
               <? te_delta SMD3MA4.tpms_protocol_SMD3MA4_const)
        then SMD3MA4.SMD3MA4DecoderStepCheckPreamble
        else SMD3MA4.SMD3MA4DecoderStepReset).
Proof.
  split; intros s H.
  - rewrite (ford_feed_idle s level d H), <- DURATION_DIFF_abs.
    change (2 * te_long Ford.tpms_protocol_ford_const) with 208.
    change (te_delta Ford.tpms_protocol_ford_const) with 150.
    destruct (negb level && _); [reflexivity | exact H].
  - rewrite (smd3ma4_feed_idle s level d H), <- DURATION_DIFF_abs.
    change (2 * te_long SMD3MA4.tpms_protocol_SMD3MA4_const) with 480.
    change (te_delta SMD3MA4.tpms_protocol_SMD3MA4_const) with 55.
    destruct (level && _); [reflexivity | exact H].
Qed.

(** What the sync pulse sets.  From Idle, on its sync gap (a low edge
    of 208 us) the Ford decoder enters preamble acquisition with the
    frame buffer cleared and the Manchester machine at its start state,
    the preamble counter keeping the value it had; on its start pulse (a
    high edge of 480 us) the SMD3MA4 decoder does all of that and assigns
    zero to the preamble counter too. *)
Lemma ford_sync_keeps_header_count :
  (forall s : Ford.TPMSProtocolDecoderFord,
      let s' :=
        fst (Ford.tpms_protocol_decoder_ford_feed manchester_advance byte_order
               (Ford.tpms_protocol_decoder_ford_reset s) false 208) in
      parser_step (decoder s') = Ford.FordDecoderStepCheckPreamble
      /\ decode_data (decoder s') = 0
      /\ decode_count_bit (decoder s') = 0
      /\ manchester_saved_state s' = ManchesterStateStart1
      /\ header_count s' = header_count s)
  /\ (forall s : SMD3MA4.TPMSProtocolDecoderSMD3MA4,
      let s' :=
        fst (SMD3MA4.tpms_protocol_decoder_SMD3MA4_feed manchester_advance
               (SMD3MA4.tpms_protocol_decoder_SMD3MA4_reset s) true 480) in
      parser_step (decoder s') = SMD3MA4.SMD3MA4DecoderStepCheckPreamble
      /\ decode_data (decoder s') = 0
      /\ decode_count_bit (decoder s') = 0
      /\ manchester_saved_state s' = ManchesterStateStart1
      /\ header_count s' = 0).
Proof.
  split; intros s; cbv zeta.
  - rewrite ford_feed_idle by reflexivity. repeat split.
  - rewrite smd3ma4_feed_idle by reflexivity. repeat split.
Qed.
End Idle.

(** On a low edge of 480 us the Idle SMD3MA4 decoder stays Idle, and on a
    high edge of 480 us it leaves Idle. *)
Lemma smd3ma4_leaves_idle_on_high_pulse :
  parser_step
    (decoder
       (fst (SMD3MA4.tpms_protocol_decoder_SMD3MA4_feed Toolbox.manchester_advance
               SMD3MA4.tpms_protocol_decoder_SMD3MA4_alloc false 480)))
  = SMD3MA4.SMD3MA4DecoderStepReset
  /\ parser_step
       (decoder
          (fst (SMD3MA4.tpms_protocol_decoder_SMD3MA4_feed Toolbox.manchester_advance
                  SMD3MA4.tpms_protocol_decoder_SMD3MA4_alloc true 480)))
     = SMD3MA4.SMD3MA4DecoderStepCheckPreamble.
Proof.
  split; reflexivity.
Qed.

(** The Idle decoders at their sync pulses and at an edge of the wrong
    level. *)
Lemma idle_leaves_on_sync_pulse_only_witness :
  parser_step
    (decoder
       (fst (Ford.tpms_protocol_decoder_ford_feed Toolbox.manchester_advance LittleEndian
               Ford.tpms_protocol_decoder_ford_alloc false 208)))
  = Ford.FordDecoderStepCheckPreamble
  /\ parser_step
       (decoder
          (fst (SMD3MA4.tpms_protocol_decoder_SMD3MA4_feed Toolbox.manchester_advance
                  SMD3MA4.tpms_protocol_decoder_SMD3MA4_alloc false 480)))
     = SMD3MA4.SMD3MA4DecoderStepReset.
Proof.
  split.
  - exact (proj1 (idle_leaves_on_sync_pulse_only
                    Toolbox.manchester_advance LittleEndian false 208)
             Ford.tpms_protocol_decoder_ford_alloc eq_refl).
  - exact (proj2 (idle_leaves_on_sync_pulse_only
                    Toolbox.manchester_advance LittleEndian false 480)
             SMD3MA4.tpms_protocol_decoder_SMD3MA4_alloc eq_refl).
Defined.

(** ** The frame buffer invariant *)

Lemma frame_completed_app (l1 l2 : list Event) :
  frame_completed (l1 ++ l2) = frame_completed l1 || frame_completed l2.
Proof.
  induction l1 as [|e l1 IH]; [reflexivity|].
  destruct e; simpl; auto.
Qed.

Lemma callbacks_app (l1 l2 : list Event) :
  callbacks (l1 ++ l2) = callbacks l1 ++ callbacks l2.
Proof.
  induction l1 as [|e l1 IH]; [reflexivity|].
  destruct e; simpl; auto. now rewrite IH.
Qed.

Ltac frame_tac :=
  repeat split; intros;
  repeat match goal with H : _ /\ _ |- _ => destruct H end;
  try discriminate; try congruence; try lia;
  try match goal with
      | Hd : _ <> _ -> _ < _ |- _ < _ => apply Hd; congruence
      end.

Section FrameBuffer.
Variable manchester_advance : manchester_decoder.
Variable byte_order : ByteOrder.

(** The bit decoding stage leaves the frame buffer alone, keeps the
    phase or drops to Idle, and hands no frame to validation. *)
Lemma ford_feed_bit_frame s level d s1 log1 ob :
  Ford.tpms_protocol_decoder_ford_feed_bit manchester_advance s level d = (s1, log1, ob) ->
  decode_count_bit (decoder s1) = decode_count_bit (decoder s)
  /\ (parser_step (decoder s1) = parser_step (decoder s)
      \/ parser_step (decoder s1) = Ford.FordDecoderStepReset)
  /\ frame_completed log1 = false.
Proof.
  unfold Ford.tpms_protocol_decoder_ford_feed_bit.
  destruct (parser_step (decoder s)) eqn:Hs;
    try (intros [= <- <- <-]; auto);
    (destruct (Ford.level_and_duration_to_event level d);
     try (destruct (manchester_advance _ _) as [n [b|]]);
     intros [= <- <- <-]; cbn; auto).
  destruct (_ =? _); auto.
Qed.

Lemma smd3ma4_feed_bit_frame s level d s1 log1 ob :
  SMD3MA4.tpms_protocol_decoder_SMD3MA4_feed_bit manchester_advance s level d
  = (s1, log1, ob) ->
  decode_count_bit (decoder s1) = decode_count_bit (decoder s)
  /\ (parser_step (decoder s1) = parser_step (decoder s)
      \/ parser_step (decoder s1) = SMD3MA4.SMD3MA4DecoderStepReset)
  /\ frame_completed log1 = false.
Proof.
  unfold SMD3MA4.tpms_protocol_decoder_SMD3MA4_feed_bit.
  destruct (parser_step (decoder s)) eqn:Hs;
    try (intros [= <- <- <-]; auto);
    (destruct (SMD3MA4.level_and_duration_to_event level d);
     try (destruct (manchester_advance _ _) as [n [b|]]);
     intros [= <- <- <-]; cbn; auto).
  destruct (_ =? _); auto.
Qed.

(** The switch keeps the invariant; it hands a frame to validation
    exactly when the bit it appends is the last of the frame, and then
    ends in Idle. *)
Lemma ford_feed_step_frame s level d bit :
  ford_invariant s ->
  let r := Ford.tpms_protocol_decoder_ford_feed_step byte_order s level d bit in
  ford_invariant (fst r)
  /\ (frame_completed (snd r) = true <->
      decode_count_bit (decoder s) = 63 /\ decode_count_bit (decoder (fst r)) = 64)
  /\ (frame_completed (snd r) = true ->
      parser_step (decoder (fst r)) = Ford.FordDecoderStepReset).
Proof.
  unfold ford_invariant.
  change (min_count_bit_for_found Ford.tpms_protocol_ford_const) with 64.
  intros [Hc Hd]. cbv zeta.
  unfold Ford.tpms_protocol_decoder_ford_feed_step.
  destruct (parser_step (decoder s)) eqn:Hs.
  - destruct (negb level && _); cbn; rewrite ?Hs; frame_tac.
  - destruct bit; [cbn; frame_tac|].
    destruct (_ =? _); cbn; rewrite ?Hs; frame_tac.
  - assert (Hlt : decode_count_bit (decoder s) < 64) by (apply Hd; discriminate).
    clear Hd.
    unfold subghz_protocol_blocks_add_bit.
    cbn [decoder decode_count_bit set_decode].
    change (min_count_bit_for_found Ford.tpms_protocol_ford_const) with 64.
    rewrite (Z.mod_small (decode_count_bit (decoder s) + 1)) by lia.
    destruct (Z.eqb_spec (decode_count_bit (decoder s) + 1) 64) as [He|He].
    + destruct (Ford.tpms_protocol_ford_check_crc _ _) as [ok crc_log].
      destruct ok; cbn; frame_tac.
    + cbn; rewrite ?Hs; frame_tac.
  - cbn; rewrite ?Hs; frame_tac.
  - cbn; rewrite ?Hs; frame_tac.
Qed.

Lemma smd3ma4_feed_step_frame s level d bit :
  smd3ma4_invariant s ->
  let r := SMD3MA4.tpms_protocol_decoder_SMD3MA4_feed_step s level d bit in
  smd3ma4_invariant (fst r)
  /\ (frame_completed (snd r) = true <->
      decode_count_bit (decoder s) = 32 /\ decode_count_bit (decoder (fst r)) = 33)
  /\ (frame_completed (snd r) = true ->
      parser_step (decoder (fst r)) = SMD3MA4.SMD3MA4DecoderStepReset).
Proof.
  unfold smd3ma4_invariant.
  change (min_count_bit_for_found SMD3MA4.tpms_protocol_SMD3MA4_const) with 33.
  intros [Hc Hd]. cbv zeta.
  unfold SMD3MA4.tpms_protocol_decoder_SMD3MA4_feed_step.
  destruct (parser_step (decoder s)) eqn:Hs.
  - destruct (level && _); cbn; rewrite ?Hs; frame_tac.
  - destruct bit; [cbn; frame_tac|].
    destruct (_ =? _); cbn; rewrite ?Hs; frame_tac.
  - assert (Hlt : decode_count_bit (decoder s) < 33) by (apply Hd; discriminate).
    clear Hd.
    unfold subghz_protocol_blocks_add_bit.
    cbn [decoder decode_count_bit set_decode].
    change (min_count_bit_for_found SMD3MA4.tpms_protocol_SMD3MA4_const) with 33.
    rewrite (Z.mod_small (decode_count_bit (decoder s) + 1)) by lia.
    destruct (Z.eqb_spec (decode_count_bit (decoder s) + 1) 33) as [He|He].
    + cbn; frame_tac.
    + cbn; rewrite ?Hs; frame_tac.
  - cbn; rewrite ?Hs; frame_tac.
  - cbn; rewrite ?Hs; frame_tac.
Qed.

Lemma ford_feed_frame s level d :
  ford_invariant s ->
  let r := Ford.tpms_protocol_decoder_ford_feed
             manchester_advance byte_order s level d in
  ford_invariant (fst r)
  /\ (frame_completed (snd r) = true <->
      decode_count_bit (decoder s) = 63 /\ decode_count_bit (decoder (fst r)) = 64)
  /\ (frame_completed (snd r) = true ->
      parser_step (decoder (fst r)) = Ford.FordDecoderStepReset).
Proof.
  intros Hinv. cbv zeta.
  unfold Ford.tpms_protocol_decoder_ford_feed.
  destruct (Ford.tpms_protocol_decoder_ford_feed_bit manchester_advance s level d)
    as [[s1 log1] ob] eqn:Hbit.
  destruct (ford_feed_bit_frame _ _ _ _ _ _ Hbit) as (Hcnt & Hstep & Hlog).
  assert (Hinv1 : ford_invariant s1).
  { destruct Hinv as [Hc Hd]. unfold ford_invariant. rewrite Hcnt.
    split; [exact Hc|]. intros Hne. apply Hd.
    destruct Hstep as [E|E]; congruence. }
  destruct ob as [bit|].
  - pose proof (ford_feed_step_frame s1 level d bit Hinv1) as H. cbv zeta in H.
    destruct (Ford.tpms_protocol_decoder_ford_feed_step byte_order s1 level d bit)
      as [s2 log2].
    cbn [fst snd] in *.
    rewrite frame_completed_app, Hlog, <- Hcnt. exact H.
  - cbn [fst snd]. rewrite Hlog, Hcnt.
    destruct Hinv1 as [Hc Hd].
    split; [split; assumption|].
    split; [split; [discriminate | lia] | discriminate].
Qed.

Lemma smd3ma4_feed_frame s level d :
  smd3ma4_invariant s ->
  let r := SMD3MA4.tpms_protocol_decoder_SMD3MA4_feed manchester_advance s level d in
  smd3ma4_invariant (fst r)
  /\ (frame_completed (snd r) = true <->
      decode_count_bit (decoder s) = 32 /\ decode_count_bit (decoder (fst r)) = 33)
  /\ (frame_completed (snd r) = true ->
      parser_step (decoder (fst r)) = SMD3MA4.SMD3MA4DecoderStepReset).
Proof.
  intros Hinv. cbv zeta.
  unfold SMD3MA4.tpms_protocol_decoder_SMD3MA4_feed.
  destruct (SMD3MA4.tpms_protocol_decoder_SMD3MA4_feed_bit manchester_advance s level d)
    as [[s1 log1] ob] eqn:Hbit.
  destruct (smd3ma4_feed_bit_frame _ _ _ _ _ _ Hbit) as (Hcnt & Hstep & Hlog).
  assert (Hinv1 : smd3ma4_invariant s1).
  { destruct Hinv as [Hc Hd]. unfold smd3ma4_invariant. rewrite Hcnt.
    split; [exact Hc|]. intros Hne. apply Hd.
    destruct Hstep as [E|E]; congruence. }
  destruct ob as [bit|].
  - pose proof (smd3ma4_feed_step_frame s1 level d bit Hinv1) as H. cbv zeta in H.
    destruct (SMD3MA4.tpms_protocol_decoder_SMD3MA4_feed_step s1 level d bit)
      as [s2 log2].
    cbn [fst snd] in *.
    rewrite frame_completed_app, Hlog, <- Hcnt. exact H.
  - cbn [fst snd]. rewrite Hlog, Hcnt.
    destruct Hinv1 as [Hc Hd].
    split; [split; assumption|].
    split; [split; [discriminate | lia] | discriminate].
Qed.

Lemma ford_call_invariant s c :
  ford_invariant s -> ford_invariant (Ford.call manchester_advance byte_order s c).
Proof.
  intros Hinv. destruct c as [level d| |registered]; cbn [Ford.call].
  - apply (ford_feed_frame s level d Hinv).
  - destruct Hinv as [Hc Hd]. split; [exact Hc|]. intros Hne. now elim Hne.
  - exact Hinv.
Qed.

Lemma smd3ma4_call_invariant s c :
  smd3ma4_invariant s -> smd3ma4_invariant (SMD3MA4.call manchester_advance s c).
Proof.
  intros Hinv. destruct c as [level d| |registered]; cbn [SMD3MA4.call].
  - apply (smd3ma4_feed_frame s level d Hinv).
  - destruct Hinv as [Hc Hd]. split; [exact Hc|]. intros Hne. now elim Hne.
  - exact Hinv.
Qed.

Lemma ford_run_invariant calls :
  ford_invariant (Ford.run manchester_advance byte_order calls).
Proof.
  unfold Ford.run.
  assert (H0 : ford_invariant Ford.tpms_protocol_decoder_ford_alloc)
    by (split; [cbn; lia | intros H; now elim H]).
  revert H0. generalize Ford.tpms_protocol_decoder_ford_alloc.
  induction calls as [|c calls IH]; intros s Hs; [exact Hs|].
  cbn [fold_left]. apply IH, ford_call_invariant, Hs.
Qed.

Lemma smd3ma4_run_invariant calls :
  smd3ma4_invariant (SMD3MA4.run manchester_advance calls).
Proof.
  unfold SMD3MA4.run.
  assert (H0 : smd3ma4_invariant SMD3MA4.tpms_protocol_decoder_SMD3MA4_alloc)
    by (split; [cbn; lia | intros H; now elim H]).
  revert H0. generalize SMD3MA4.tpms_protocol_decoder_SMD3MA4_alloc.
  induction calls as [|c calls IH]; intros s Hs; [exact Hs|].
  cbn [fold_left]. apply IH, smd3ma4_call_invariant, Hs.
Qed.

(** C8. In every state a decoder reaches from alloc through calls of
    feed, reset and callback registration, the bit count is at most the
    frame length (64 for Ford, 33 for SMD3MA4).  A further edge hands a
    frame to validation exactly when it brings the count from one below
    the frame length to the frame length, and whenever it does, the
    phase after the call is Idle, whatever the validation said. *)
Theorem bit_count_bounded_and_sole_trigger (calls : list DecoderCall)
    (level : bool) (d : Z) :
  (let s := Ford.run manchester_advance byte_order calls in
   let r := Ford.tpms_protocol_decoder_ford_feed
              manchester_advance byte_order s level d in
   0 <= decode_count_bit (decoder s) <= 64
   /\ (frame_completed (snd r) = true <->
       decode_count_bit (decoder s) = 63 /\ decode_count_bit (decoder (fst r)) = 64)
   /\ (frame_completed (snd r) = true ->
       parser_step (decoder (fst r)) = Ford.FordDecoderStepReset))
  /\ (let s := SMD3MA4.run manchester_advance calls in
      let r := SMD3MA4.tpms_protocol_decoder_SMD3MA4_feed
                 manchester_advance s level d in
      0 <= decode_count_bit (decoder s) <= 33
      /\ (frame_completed (snd r) = true <->
          decode_count_bit (decoder s) = 32 /\ decode_count_bit (decoder (fst r)) = 33)
      /\ (frame_completed (snd r) = true ->
          parser_step (decoder (fst r)) = SMD3MA4.SMD3MA4DecoderStepReset)).
Proof.
  split; cbv zeta.
  - pose proof (ford_run_invariant calls) as Hinv.
    split; [exact (proj1 Hinv)|].
    exact (proj2 (ford_feed_frame _ level d Hinv)).
  - pose proof (smd3ma4_run_invariant calls) as Hinv.
    split; [exact (proj1 Hinv)|].
    exact (proj2 (smd3ma4_feed_frame _ level d Hinv)).
Qed.
End FrameBuffer.

(** The capture up to the 32nd bit, and the edge that completes the
    frame: the count goes from 32 to 33, the frame is handed on and the
    decoder is Idle again. *)
Lemma bit_count_bounded_and_sole_trigger_witness :
  0 <= decode_count_bit
         (decoder (SMD3MA4.run Toolbox.manchester_advance smd3ma4_capture_32)) <= 33
  /\ frame_completed
       (snd (SMD3MA4.tpms_protocol_decoder_SMD3MA4_feed Toolbox.manchester_advance
               (SMD3MA4.run Toolbox.manchester_advance smd3ma4_capture_32) false 240))
     = true
  /\ parser_step
       (decoder
          (fst (SMD3MA4.tpms_protocol_decoder_SMD3MA4_feed Toolbox.manchester_advance
                  (SMD3MA4.run Toolbox.manchester_advance smd3ma4_capture_32) false 240)))
     = SMD3MA4.SMD3MA4DecoderStepReset.
Proof.
  destruct (bit_count_bounded_and_sole_trigger
              Toolbox.manchester_advance LittleEndian smd3ma4_capture_32 false 240)
    as (_ & Hbound & Hiff & Hidle).
  assert (Hdone :
    frame_completed
      (snd (SMD3MA4.tpms_protocol_decoder_SMD3MA4_feed Toolbox.manchester_advance
              (SMD3MA4.run Toolbox.manchester_advance smd3ma4_capture_32) false 240))
    = true).
  { apply Hiff. split; vm_compute; reflexivity. }
  split; [exact Hbound|].
  split; [exact Hdone | exact (Hidle Hdone)].
Defined.

(** ** Completed frames *)

Section CompletedFrame.
Variable manchester_advance : manchester_decoder.
Variable byte_order : ByteOrder.

(** An edge that delivers a bit while the decoder accumulates goes
    straight to the switch with that bit, inverted. *)
Lemma ford_feed_data s level d next b :
  parser_step (decoder s) = Ford.FordDecoderStepDecoderData ->
  Ford.level_and_duration_to_event level d <> ManchesterEventReset ->
  manchester_advance (manchester_saved_state s)
    (Ford.level_and_duration_to_event level d) = (next, Some b) ->
  Ford.tpms_protocol_decoder_ford_feed manchester_advance byte_order s level d
  = Ford.tpms_protocol_decoder_ford_feed_step byte_order
      (set_manchester_saved_state s next) level d (negb b).
Proof.
  intros Hs Hev Hm.
  unfold Ford.tpms_protocol_decoder_ford_feed,
         Ford.tpms_protocol_decoder_ford_feed_bit.
  rewrite Hs.
  destruct (Ford.level_and_duration_to_event level d); try (now elim Hev);
    rewrite Hm;
    destruct (Ford.tpms_protocol_decoder_ford_feed_step _ _ _ _ _); reflexivity.
Qed.

Lemma smd3ma4_feed_data s level d next b :
  parser_step (decoder s) = SMD3MA4.SMD3MA4DecoderStepDecoderData ->
  SMD3MA4.level_and_duration_to_event level d <> ManchesterEventReset ->
  manchester_advance (manchester_saved_state s)
    (SMD3MA4.level_and_duration_to_event level d) = (next, Some b) ->
  SMD3MA4.tpms_protocol_decoder_SMD3MA4_feed manchester_advance s level d
  = SMD3MA4.tpms_protocol_decoder_SMD3MA4_feed_step
      (set_manchester_saved_state s next) level d (negb b).
Proof.
  intros Hs Hev Hm.
  unfold SMD3MA4.tpms_protocol_decoder_SMD3MA4_feed,
         SMD3MA4.tpms_protocol_decoder_SMD3MA4_feed_bit.
  rewrite Hs.
  destruct (SMD3MA4.level_and_duration_to_event level d); try (now elim Hev);
    rewrite Hm;
    destruct (SMD3MA4.tpms_protocol_decoder_SMD3MA4_feed_step _ _ _ _); reflexivity.
Qed.

(** What [check_crc] decides: the register is not zero and the low
    byte of the sum of its bytes 0 to 6, as they lie in memory, is its
    byte 7. *)
Lemma ford_check_crc_spec (s : Ford.TPMSProtocolDecoderFord) :
  let b := byte_at byte_order (decode_data (decoder s)) in
  fst (Ford.tpms_protocol_ford_check_crc byte_order s) = true
  <-> decode_data (decoder s) <> 0
      /\ (b 0 + b 1 + b 2 + b 3 + b 4 + b 5 + b 6) mod 256 = b 7.
Proof.
  cbv zeta. unfold Ford.tpms_protocol_ford_check_crc.
  change 255 with (Z.ones 8) at 1. 
  destruct (Z.eqb_spec (decode_data (decoder s)) 0) as [E|E]; cbn [fst].
  - split; [discriminate | intros [H _]; now elim H].
  - rewrite Z.land_ones by lia. change (2 ^ 8) with 256.
    rewrite Z.eqb_eq. split; [intros H; split; assumption | intros [_ H]; exact H].
Qed.

(** What the edge that completes a Ford frame does, for either byte
    order of the target.  The record is extracted if and only if the
    frame register is not zero and the sum of the register's bytes 0 to
    6, as they lie in memory, is byte 7 modulo 256; the sink is then
    invoked once, with that record, when a callback is registered.
    Otherwise no record is emitted and the stored record is kept.  In
    both cases the phase returns to Idle. *)
Lemma ford_frame_accepted_iff_checksum
    (s : Ford.TPMSProtocolDecoderFord) (level : bool) (d : Z)
    (next : ManchesterState) (b : bool) :
  parser_step (decoder s) = Ford.FordDecoderStepDecoderData ->
  Ford.level_and_duration_to_event level d <> ManchesterEventReset ->
  manchester_advance (manchester_saved_state s)
    (Ford.level_and_duration_to_event level d) = (next, Some b) ->
  (decode_count_bit (decoder s) + 1) mod 2 ^ 16 = 64 ->
  let bits :=
    Z.lor (Z.shiftl (decode_data (decoder s)) 1) (Z.b2z (negb b)) mod 2 ^ 64 in
  let B := byte_at byte_order bits in
  let record := Ford.tpms_protocol_ford_analyze (received (generic s) bits 64) in
  let r := Ford.tpms_protocol_decoder_ford_feed
             manchester_advance byte_order s level d in
  (bits <> 0 /\ (B 0 + B 1 + B 2 + B 3 + B 4 + B 5 + B 6) mod 256 = B 7 ->
   generic (fst r) = record
   /\ callbacks (snd r) = if callback (base s) then [record] else [])
  /\ (~ (bits <> 0 /\ (B 0 + B 1 + B 2 + B 3 + B 4 + B 5 + B 6) mod 256 = B 7) ->
      generic (fst r) = generic s /\ callbacks (snd r) = [])
  /\ parser_step (decoder (fst r)) = Ford.FordDecoderStepReset.
Proof.
  intros Hs Hev Hm Hcnt. cbv zeta.
  rewrite (ford_feed_data s level d next b Hs Hev Hm).
  unfold Ford.tpms_protocol_decoder_ford_feed_step.
  cbn [set_manchester_saved_state decoder parser_step]. rewrite Hs.
  pose proof (ford_check_crc_spec
                (subghz_protocol_blocks_add_bit
                   (set_manchester_saved_state s next) (negb b))) as Hcrc.
  cbv zeta in Hcrc.
  unfold subghz_protocol_blocks_add_bit in *.
  cbn [set_manchester_saved_state set_decode decoder decode_count_bit decode_data
       generic base] in *.
  rewrite Hcnt. cbn [min_count_bit_for_found Ford.tpms_protocol_ford_const].
  rewrite Z.eqb_refl.
  destruct (Ford.tpms_protocol_ford_check_crc _ _) as [ok crc_log] eqn:Hcheck.
  assert (Hlog : callbacks crc_log = []).
  { unfold Ford.tpms_protocol_ford_check_crc in Hcheck.
    destruct (_ =? 0) in Hcheck; injection Hcheck as _ <-; reflexivity. }
  cbn [fst] in Hcrc.
  destruct ok; cbn [negb fst snd set_parser_step set_generic generic decoder
                    parser_step base callbacks].
  - rewrite callbacks_app.
    cbn [callbacks app base set_decode set_manchester_saved_state].
    rewrite Hlog.
    split; [intros _; split; [reflexivity|] |].
    + destruct (callback (base s)); reflexivity.
    + split; [intros Hn; elim Hn; now apply Hcrc | reflexivity].
  - rewrite callbacks_app. cbn [callbacks]. rewrite Hlog.
    split; [intros Hok; apply Hcrc in Hok; discriminate|].
    split; [intros _; split; reflexivity | reflexivity].
Qed.

(** C9.  When an edge brings the SMD3MA4 decoder's frame buffer to 33
    bits, the frame is accepted as it is: the record is extracted from
    it and, when a callback is registered, the sink is invoked exactly
    once with that record (and not at all when none is); nothing about
    the frame's bits is checked.  The phase returns to Idle. *)
Theorem smd3ma4_frame_always_accepted
    (s : SMD3MA4.TPMSProtocolDecoderSMD3MA4) (level : bool) (d : Z)
    (next : ManchesterState) (b : bool) :
  parser_step (decoder s) = SMD3MA4.SMD3MA4DecoderStepDecoderData ->
  SMD3MA4.level_and_duration_to_event level d <> ManchesterEventReset ->
  manchester_advance (manchester_saved_state s)
    (SMD3MA4.level_and_duration_to_event level d) = (next, Some b) ->
  (decode_count_bit (decoder s) + 1) mod 2 ^ 16 = 33 ->
  let bits :=
    Z.lor (Z.shiftl (decode_data (decoder s)) 1) (Z.b2z (negb b)) mod 2 ^ 64 in
  let record := SMD3MA4.tpms_protocol_SMD3MA4_analyze (received (generic s) bits 33) in
  let r := SMD3MA4.tpms_protocol_decoder_SMD3MA4_feed manchester_advance s level d in
  frame_completed (snd r) = true
  /\ generic (fst r) = record
  /\ callbacks (snd r) = (if callback (base s) then [record] else [])
  /\ parser_step (decoder (fst r)) = SMD3MA4.SMD3MA4DecoderStepReset.
Proof.
  intros Hs Hev Hm Hcnt. cbv zeta.
  rewrite (smd3ma4_feed_data s level d next b Hs Hev Hm).
  unfold SMD3MA4.tpms_protocol_decoder_SMD3MA4_feed_step.
  cbn [set_manchester_saved_state decoder parser_step]. rewrite Hs.
  unfold subghz_protocol_blocks_add_bit.
  cbn [set_manchester_saved_state set_decode decoder decode_count_bit decode_data
       generic base].
  rewrite Hcnt. cbn [min_count_bit_for_found SMD3MA4.tpms_protocol_SMD3MA4_const].
  rewrite Z.eqb_refl.
  cbn [fst snd set_parser_step set_generic generic decoder parser_step base
       frame_completed callbacks].
  repeat split.
  cbn [base set_decode set_manchester_saved_state].
  destruct (callback (base s)); reflexivity.
Qed.

(** C10.  If the frame the Ford decoder completes at 64 bits fails the
    checksum, the call leaves the stored generic record as it was, so
    that get_string still reports the frame accepted before; the sink
    is not invoked, and of the decoder only the Manchester state, the
    frame buffer (which holds the rejected frame) and the phase, now
    Idle, have changed. *)
Theorem ford_crc_failure_keeps_record
    (s : Ford.TPMSProtocolDecoderFord) (level : bool) (d : Z)
    (next : ManchesterState) (b : bool) :
  parser_step (decoder s) = Ford.FordDecoderStepDecoderData ->
  Ford.level_and_duration_to_event level d <> ManchesterEventReset ->
  manchester_advance (manchester_saved_state s)
    (Ford.level_and_duration_to_event level d) = (next, Some b) ->
  (decode_count_bit (decoder s) + 1) mod 2 ^ 16 = 64 ->
  fst (Ford.tpms_protocol_ford_check_crc byte_order
         (subghz_protocol_blocks_add_bit
            (set_manchester_saved_state s next) (negb b))) = false ->
  let r := Ford.tpms_protocol_decoder_ford_feed
             manchester_advance byte_order s level d in
  generic (fst r) = generic s
  /\ Ford.tpms_protocol_decoder_ford_get_string (fst r)
     = Ford.tpms_protocol_decoder_ford_get_string s
  /\ callbacks (snd r) = []
  /\ fst r
     = Ford.tpms_protocol_decoder_ford_reset
         (subghz_protocol_blocks_add_bit
            (set_manchester_saved_state s next) (negb b)).
Proof.
  intros Hs Hev Hm Hcnt Hcrc. cbv zeta.
  rewrite (ford_feed_data s level d next b Hs Hev Hm).
  unfold Ford.tpms_protocol_decoder_ford_feed_step,
         Ford.tpms_protocol_decoder_ford_get_string,
         Ford.tpms_protocol_decoder_ford_reset.
  cbn [set_manchester_saved_state decoder parser_step]. rewrite Hs.
  unfold subghz_protocol_blocks_add_bit in *.
  cbn [set_manchester_saved_state set_decode decoder decode_count_bit decode_data
       generic base] in *.
  rewrite Hcnt in *. cbn [min_count_bit_for_found Ford.tpms_protocol_ford_const].
  rewrite Z.eqb_refl.
  destruct (Ford.tpms_protocol_ford_check_crc _ _) as [ok crc_log] eqn:Hcheck.
  cbn [fst] in Hcrc. subst ok.
  assert (Hlog : callbacks crc_log = []).
  { unfold Ford.tpms_protocol_ford_check_crc in Hcheck.
    destruct (_ =? 0) in Hcheck; inversion Hcheck; reflexivity. }
  cbn [negb fst snd set_parser_step generic].
  rewrite callbacks_app. cbn [callbacks app]. rewrite Hlog.
  repeat split.
Qed.
End CompletedFrame.

(** The last edge of [ford_sample_frame]: the register's bytes sum up in
    either byte order, the record is extracted and handed to the sink. *)
Lemma ford_sample_frame_accepted :
  callbacks
    (snd (Ford.tpms_protocol_decoder_ford_feed Toolbox.manchester_advance LittleEndian
            (ford_accumulating (Z.shiftr ford_sample_frame 1) 63 ManchesterStateMid1)
            true 100))
  = [Ford.tpms_protocol_ford_analyze
       (received (generic Ford.tpms_protocol_decoder_ford_alloc) ford_sample_frame 64)]
  /\ parser_step
       (decoder
          (fst (Ford.tpms_protocol_decoder_ford_feed
                  Toolbox.manchester_advance LittleEndian
                  (ford_accumulating (Z.shiftr ford_sample_frame 1) 63
                     ManchesterStateMid1)
                  true 100)))
     = Ford.FordDecoderStepReset.
Proof.
  assert (Hev : Ford.level_and_duration_to_event true 100 <> ManchesterEventReset)
    by (vm_compute; discriminate).
  destruct (ford_frame_accepted_iff_checksum
              Toolbox.manchester_advance LittleEndian
              (ford_accumulating (Z.shiftr ford_sample_frame 1) 63 ManchesterStateMid1)
              true 100 ManchesterStateMid0 false eq_refl Hev eq_refl eq_refl)
    as (Haccept & _ & Hidle).
  split; [|exact Hidle].
  apply Haccept.
  split; [vm_compute; discriminate | vm_compute; reflexivity].
Defined.

(** The last edge of the all-zero frame.  Its bytes 0 to 6 sum to its
    byte 7, yet in either byte order the decoder drops it: nothing is
    handed to the registered sink and the stored record is untouched. *)
Lemma ford_zero_frame_dropped :
  (frame_byte 0 0 + frame_byte 0 1 + frame_byte 0 2 + frame_byte 0 3
   + frame_byte 0 4 + frame_byte 0 5 + frame_byte 0 6) mod 256 = frame_byte 0 7
  /\ callback (base (ford_accumulating 0 63 ManchesterStateMid0)) = true
  /\ Ford.tpms_protocol_decoder_ford_feed Toolbox.manchester_advance LittleEndian
       (ford_accumulating 0 63 ManchesterStateMid0) false 100
     = (Ford.tpms_protocol_decoder_ford_reset
          (ford_accumulating 0 64 ManchesterStateMid1),
        [LogFrame 0; LogCrcMismatchDrop])
  /\ Ford.tpms_protocol_decoder_ford_feed Toolbox.manchester_advance BigEndian
       (ford_accumulating 0 63 ManchesterStateMid0) false 100
     = (Ford.tpms_protocol_decoder_ford_reset
          (ford_accumulating 0 64 ManchesterStateMid1),
        [LogFrame 0; LogCrcMismatchDrop]).
Proof.
  repeat split.
Qed.

(** On the little-endian target byte 7 of the register is the byte
    received first.  The frame 01 02 00 00 00 00 00 03, whose last byte is
    the sum of the seven before it, is dropped; the frame
    05 02 00 00 00 00 00 03, whose last byte is not, is accepted. *)
Lemma ford_check_crc_little_endian :
  (frame_byte 0x0102000000000003 0 + frame_byte 0x0102000000000003 1
   + frame_byte 0x0102000000000003 2 + frame_byte 0x0102000000000003 3
   + frame_byte 0x0102000000000003 4 + frame_byte 0x0102000000000003 5
   + frame_byte 0x0102000000000003 6) mod 256
  = frame_byte 0x0102000000000003 7
  /\ callbacks
       (snd (Ford.tpms_protocol_decoder_ford_feed
               Toolbox.manchester_advance LittleEndian
               (ford_accumulating (Z.shiftr 0x0102000000000003 1) 63
                  ManchesterStateMid1)
               true 100))
     = []
  /\ (frame_byte 0x0502000000000003 0 + frame_byte 0x0502000000000003 1
      + frame_byte 0x0502000000000003 2 + frame_byte 0x0502000000000003 3
      + frame_byte 0x0502000000000003 4 + frame_byte 0x0502000000000003 5
      + frame_byte 0x0502000000000003 6) mod 256
     <> frame_byte 0x0502000000000003 7
  /\ List.length
       (callbacks
          (snd (Ford.tpms_protocol_decoder_ford_feed
                  Toolbox.manchester_advance LittleEndian
                  (ford_accumulating (Z.shiftr 0x0502000000000003 1) 63
                     ManchesterStateMid1)
                  true 100)))
     = 1%nat.
Proof.
  repeat split. vm_compute. discriminate.
Qed.

(** C1, where the code departs from it.  On the little-endian target the
    byte [b[7]] that [check_crc] compares against is the byte received
    first, and the bytes it sums are the seven received after it: the
    frame is accepted exactly when it is not zero and its last seven
    bytes sum to its first byte, not when bytes 0 to 6 sum to byte 7.
    The frame 12 34 56 78 64 50 04 CC, whose checksum byte CC is the sum
    of the seven bytes before it, is rejected (received 12, calculated
    86): the edge that completes it emits no record. *)
Theorem ford_check_crc_sums_last_seven_bytes :
  (forall s : Ford.TPMSProtocolDecoderFord,
      fst (Ford.tpms_protocol_ford_check_crc LittleEndian s) = true
      <-> decode_data (decoder s) <> 0
          /\ (frame_byte (decode_data (decoder s)) 7
              + frame_byte (decode_data (decoder s)) 6
              + frame_byte (decode_data (decoder s)) 5
              + frame_byte (decode_data (decoder s)) 4
              + frame_byte (decode_data (decoder s)) 3
              + frame_byte (decode_data (decoder s)) 2
              + frame_byte (decode_data (decoder s)) 1) mod 256
             = frame_byte (decode_data (decoder s)) 0)
  /\ (frame_byte 0x12345678645004CC 0 + frame_byte 0x12345678645004CC 1
      + frame_byte 0x12345678645004CC 2 + frame_byte 0x12345678645004CC 3
      + frame_byte 0x12345678645004CC 4 + frame_byte 0x12345678645004CC 5
      + frame_byte 0x12345678645004CC 6) mod 256
     = frame_byte 0x12345678645004CC 7
  /\ Ford.tpms_protocol_ford_check_crc LittleEndian
       (set_decode Ford.tpms_protocol_decoder_ford_alloc 0x12345678645004CC 64)
     = (false, [LogChecksumInData 0x12; LogCalculatedChecksum 0x86])
  /\ Ford.tpms_protocol_decoder_ford_feed Toolbox.manchester_advance LittleEndian
       (ford_accumulating (Z.shiftr 0x12345678645004CC 1) 63 ManchesterStateMid0)
       false 100
     = (Ford.tpms_protocol_decoder_ford_reset
          (ford_accumulating 0x12345678645004CC 64 ManchesterStateMid1),
        [LogFrame 0x12345678645004CC; LogChecksumInData 0x12;
         LogCalculatedChecksum 0x86; LogCrcMismatchDrop]).
Proof.
  split; [intros s; exact (ford_check_crc_spec LittleEndian s)|].
  repeat split.
Qed.

(** The capture of a whole SMD3MA4 frame: its last edge hands the record
    to the registered sink, once. *)
Lemma smd3ma4_frame_always_accepted_witness :
  callbacks
    (snd (SMD3MA4.tpms_protocol_decoder_SMD3MA4_feed Toolbox.manchester_advance
            (SMD3MA4.run Toolbox.manchester_advance smd3ma4_capture_32) false 240))
  = [SMD3MA4.tpms_protocol_SMD3MA4_analyze
       (received (generic SMD3MA4.tpms_protocol_decoder_SMD3MA4_alloc)
          smd3ma4_sample_frame 33)]
  /\ parser_step
       (decoder
          (fst (SMD3MA4.tpms_protocol_decoder_SMD3MA4_feed Toolbox.manchester_advance
                  (SMD3MA4.run Toolbox.manchester_advance smd3ma4_capture_32)
                  false 240)))
     = SMD3MA4.SMD3MA4DecoderStepReset.
Proof.
  assert (Hev : SMD3MA4.level_and_duration_to_event false 240 <> ManchesterEventReset)
    by (vm_compute; discriminate).
  destruct (smd3ma4_frame_always_accepted
              Toolbox.manchester_advance
              (SMD3MA4.run Toolbox.manchester_advance smd3ma4_capture_32)
              false 240 ManchesterStateMid1 true eq_refl Hev eq_refl eq_refl)
    as (_ & _ & Hcall & Hidle).
  split; [exact Hcall | exact Hidle].
Defined.

(** The second Ford frame differs from the accepted one in one bit of
    its temperature byte, so its checksum fails in either byte order: the
    record of the first frame stays. *)
Lemma ford_crc_failure_keeps_record_witness :
  generic
    (fst (Ford.tpms_protocol_decoder_ford_feed Toolbox.manchester_advance LittleEndian
            ford_second_frame true 100))
  = Ford.tpms_protocol_ford_analyze
      (received (generic Ford.tpms_protocol_decoder_ford_alloc) ford_sample_frame 64)
  /\ callbacks
       (snd (Ford.tpms_protocol_decoder_ford_feed
               Toolbox.manchester_advance LittleEndian ford_second_frame true 100))
     = [].
Proof.
  assert (Hev : Ford.level_and_duration_to_event true 100 <> ManchesterEventReset)
    by (vm_compute; discriminate).
  destruct (ford_crc_failure_keeps_record
              Toolbox.manchester_advance LittleEndian ford_second_frame
              true 100 ManchesterStateMid0 false eq_refl Hev eq_refl eq_refl eq_refl)
    as (Hgen & _ & Hcall & _).
  split; [exact Hgen | exact Hcall].
Defined.

(** ** Field extraction *)

(** C2, where the code departs from it.  In the documented layout
    II II II II PP TT FF CC the pressure byte is byte 4 of the frame and
    the temperature byte is byte 5.  The Ford extractor computes the
    temperature from byte 4, minus 56 in unsigned 64-bit arithmetic, and
    the pressure from byte 6, the flags byte, times 0.25f times 0.069.
    On the accepted frame A5 10 20 18 64 50 04 A5 the emitted record has
    temperature 44 (not 0x50 - 56 = 24) and as pressure the binary32
    value 9261023 / 2 ^ 27, which is 0.069 bar to seven digits (not what
    the pressure byte 0x64 would give, 1.725). *)
Theorem ford_analyze_reads_other_bytes :
  (forall (g : TPMSBlockGeneric) (bits : Z),
      temperature (Ford.tpms_protocol_ford_analyze (received g bits 64))
      = float_of_uint64 ((frame_byte bits 4 - 56) mod 2 ^ 64)
      /\ pressure (Ford.tpms_protocol_ford_analyze (received g bits 64))
         = float_of_double
             (double_mul
                (double_of_float
                   (float_mul (float_of_uint64 (frame_byte bits 6)) float_quarter))
                (double_literal 69 1000)))
  /\ frame_byte ford_sample_frame 4 = 0x64
  /\ frame_byte ford_sample_frame 5 = 0x50
  /\ frame_byte ford_sample_frame 6 = 0x04
  /\ callbacks
       (snd (Ford.tpms_protocol_decoder_ford_feed
               Toolbox.manchester_advance LittleEndian
               (ford_accumulating (Z.shiftr ford_sample_frame 1) 63
                  ManchesterStateMid1)
               true 100))
     = [Ford.tpms_protocol_ford_analyze
          (received (generic Ford.tpms_protocol_decoder_ford_alloc)
             ford_sample_frame 64)]
  /\ temperature
       (Ford.tpms_protocol_ford_analyze
          (received (generic Ford.tpms_protocol_decoder_ford_alloc)
             ford_sample_frame 64))
     = float_of_uint64 44
  /\ (float_value
        (temperature
           (Ford.tpms_protocol_ford_analyze
              (received (generic Ford.tpms_protocol_decoder_ford_alloc)
                 ford_sample_frame 64))) == 44)%Q
  /\ (float_value
        (pressure
           (Ford.tpms_protocol_ford_analyze
              (received (generic Ford.tpms_protocol_decoder_ford_alloc)
                 ford_sample_frame 64))) == 9261023 # 134217728)%Q
  /\ (689999 # 10000000
      < float_value
          (pressure
             (Ford.tpms_protocol_ford_analyze
                (received (generic Ford.tpms_protocol_decoder_ford_alloc)
                   ford_sample_frame 64))))%Q
  /\ (float_value
        (pressure
           (Ford.tpms_protocol_ford_analyze
              (received (generic Ford.tpms_protocol_decoder_ford_alloc)
                 ford_sample_frame 64)))
      < 690001 # 10000000)%Q
  /\ ~ (float_value
          (temperature
             (Ford.tpms_protocol_ford_analyze
                (received (generic Ford.tpms_protocol_decoder_ford_alloc)
                   ford_sample_frame 64))) == inject_Z (0x50 - 56))%Q
  /\ ~ (float_value
          (pressure
             (Ford.tpms_protocol_ford_analyze
                (received (generic Ford.tpms_protocol_decoder_ford_alloc)
                   ford_sample_frame 64))) == 1725 # 1000)%Q
  /\ pressure
       (Ford.tpms_protocol_ford_analyze
          (received (generic Ford.tpms_protocol_decoder_ford_alloc)
             ford_sample_frame 64))
     <> float_of_double
          (double_mul
             (double_of_float (float_mul (float_of_uint64 0x64) float_quarter))
             (double_literal 69 1000)).
Proof.
  split; [intros g bits; split; reflexivity|].
  repeat split; try (vm_compute; discriminate); vm_compute; reflexivity.
Qed.

(** C3, where the code departs from it.  The SMD3MA4 frame carries no
    temperature, yet the extractor stores as temperature the eight frame
    bits 13 to 6 (seven of them pressure bits); the record has no value
    that marks the field unavailable.  The frame of the capture is
    emitted with temperature 170, and the frame that differs from it in
    bit 6 alone yields 171. *)
Theorem smd3ma4_analyze_fabricates_temperature :
  (forall (g : TPMSBlockGeneric) (bits count : Z),
      temperature (SMD3MA4.tpms_protocol_SMD3MA4_analyze (received g bits count))
      = float_of_uint64 (Z.shiftr bits 6 mod 256))
  /\ callbacks
       (snd (SMD3MA4.tpms_protocol_decoder_SMD3MA4_feed Toolbox.manchester_advance
               (SMD3MA4.run Toolbox.manchester_advance smd3ma4_capture_32)
               false 240))
     = [SMD3MA4.tpms_protocol_SMD3MA4_analyze
          (received (generic SMD3MA4.tpms_protocol_decoder_SMD3MA4_alloc)
             smd3ma4_sample_frame 33)]
  /\ (float_value
        (temperature
           (SMD3MA4.tpms_protocol_SMD3MA4_analyze
              (received (generic SMD3MA4.tpms_protocol_decoder_SMD3MA4_alloc)
                 smd3ma4_sample_frame 33))) == 170)%Q
  /\ (float_value
        (temperature
           (SMD3MA4.tpms_protocol_SMD3MA4_analyze
              (received (generic SMD3MA4.tpms_protocol_decoder_SMD3MA4_alloc)
                 (Z.lxor smd3ma4_sample_frame 64) 33))) == 171)%Q.
Proof.
  split.
  - intros g bits count.
    unfold SMD3MA4.tpms_protocol_SMD3MA4_analyze.
    cbn [temperature received data].
    change 255 with (Z.ones 8).
    rewrite Z.land_ones by lia. reflexivity.
  - repeat split; vm_compute; reflexivity.
Qed.


(** ** Reachable states *)

Lemma add_bit_value (a : Z) (b : bool) :
  0 <= a -> Z.lor (Z.shiftl a 1) (Z.b2z b) = 2 * a + Z.b2z b.
Proof.
  intros Ha. destruct a as [|p|p]; [now destruct b| |lia].
  destruct b; reflexivity.
Qed.

Lemma add_bit_bound (a c : Z) (b : bool) :
  0 <= c -> 0 <= a < 2 ^ c ->
  0 <= Z.lor (Z.shiftl a 1) (Z.b2z b) mod 2 ^ 64 < 2 ^ (c + 1).
Proof.
  intros Hc Ha. rewrite add_bit_value by lia.
  assert (Hb : 0 <= Z.b2z b <= 1) by (destruct b; cbn; lia).
  rewrite Z.pow_add_r, Z.pow_1_r by lia.
  pose proof (Z.mod_pos_bound (2 * a + Z.b2z b) (2 ^ 64) ltac:(lia)).
  pose proof (Z.mod_le (2 * a + Z.b2z b) (2 ^ 64) ltac:(lia) ltac:(lia)).
  lia.
Qed.

Ltac fields :=
  cbn [fst snd negb decoder generic base header_count manchester_saved_state
       parser_step decode_data decode_count_bit
       set_parser_step set_decode set_generic set_header_count
       set_manchester_saved_state set_callback].

Ltac wf_tac Hs :=
  fields; rewrite ?Hs; repeat split; auto; try lia; try discriminate;
  try (intros; discriminate).

Section Reachable.
Variable manchester_advance : manchester_decoder.
Variable byte_order : ByteOrder.

(** The bit decoding stage touches the phase and the Manchester state
    only, and calls nothing. *)
Lemma ford_feed_bit_keeps s level d s1 log1 ob :
  Ford.tpms_protocol_decoder_ford_feed_bit manchester_advance s level d = (s1, log1, ob) ->
  decode_data (decoder s1) = decode_data (decoder s)
  /\ decode_count_bit (decoder s1) = decode_count_bit (decoder s)
  /\ generic s1 = generic s
  /\ base s1 = base s
  /\ header_count s1 = header_count s
  /\ (parser_step (decoder s1) = parser_step (decoder s)
      \/ parser_step (decoder s1) = Ford.FordDecoderStepReset)
  /\ callbacks log1 = []
  /\ frame_completed log1 = false.
Proof.
  unfold Ford.tpms_protocol_decoder_ford_feed_bit.
  destruct (parser_step (decoder s)) eqn:Hs;
    try (intros [= <- <- <-]; rewrite ?Hs; repeat split; auto);
    (destruct (Ford.level_and_duration_to_event level d);
     try (destruct (manchester_advance _ _) as [n [b|]]);
     intros [= <- <- <-]; cbn; repeat split; auto).
  all: destruct (_ =? _); auto.
Qed.

Lemma smd3ma4_feed_bit_keeps s level d s1 log1 ob :
  SMD3MA4.tpms_protocol_decoder_SMD3MA4_feed_bit manchester_advance s level d
  = (s1, log1, ob) ->
  decode_data (decoder s1) = decode_data (decoder s)
  /\ decode_count_bit (decoder s1) = decode_count_bit (decoder s)
  /\ generic s1 = generic s
  /\ base s1 = base s
  /\ header_count s1 = header_count s
  /\ (parser_step (decoder s1) = parser_step (decoder s)
      \/ parser_step (decoder s1) = SMD3MA4.SMD3MA4DecoderStepReset)
  /\ callbacks log1 = []
  /\ frame_completed log1 = false.
Proof.
  unfold SMD3MA4.tpms_protocol_decoder_SMD3MA4_feed_bit.
  destruct (parser_step (decoder s)) eqn:Hs;
    try (intros [= <- <- <-]; rewrite ?Hs; repeat split; auto);
    (destruct (SMD3MA4.level_and_duration_to_event level d);
     try (destruct (manchester_advance _ _) as [n [b|]]);
     intros [= <- <- <-]; cbn; repeat split; auto).
  all: destruct (_ =? _); auto.
Qed.

Lemma ford_feed_bit_wellformed s level d s1 log1 ob :
  Ford.tpms_protocol_decoder_ford_feed_bit manchester_advance s level d = (s1, log1, ob) ->
  ford_wellformed s -> ford_wellformed s1.
Proof.
  intros Hbit (Hinv & Hstep & Hdata & Hpre & Hh).
  destruct (ford_feed_bit_keeps _ _ _ _ _ _ Hbit)
    as (Ed & Ec & _ & _ & Eh & Es & _).
  unfold ford_wellformed, ford_invariant in *.
  rewrite Ed, Ec, Eh.
  destruct Es as [Es|Es]; rewrite Es.
  - repeat split; tauto.
  - repeat split; try tauto; try lia; intros; congruence.
Qed.

Lemma smd3ma4_feed_bit_wellformed s level d s1 log1 ob :
  SMD3MA4.tpms_protocol_decoder_SMD3MA4_feed_bit manchester_advance s level d
  = (s1, log1, ob) ->
  smd3ma4_wellformed s -> smd3ma4_wellformed s1.
Proof.
  intros Hbit (Hinv & Hstep & Hdata & Hpre & Hh).
  destruct (smd3ma4_feed_bit_keeps _ _ _ _ _ _ Hbit)
    as (Ed & Ec & _ & _ & Eh & Es & _).
  unfold smd3ma4_wellformed, smd3ma4_invariant in *.
  rewrite Ed, Ec, Eh.
  destruct Es as [Es|Es]; rewrite Es.
  - repeat split; tauto.
  - repeat split; try tauto; try lia; intros; congruence.
Qed.

Lemma ford_feed_step_wellformed s level d bit :
  ford_wellformed s ->
  ford_wellformed (fst (Ford.tpms_protocol_decoder_ford_feed_step byte_order s level d bit)).
Proof.
  intros (Hinv & Hstep & Hdata & Hpre & Hh).
  pose proof (proj1 (ford_feed_step_frame byte_order s level d bit Hinv)) as Hinv'.
  cbv zeta in Hinv'.
  split; [exact Hinv'|]. clear Hinv'.
  destruct Hinv as [Hc Hd].
  change (min_count_bit_for_found Ford.tpms_protocol_ford_const) with 64 in *.
  unfold Ford.tpms_protocol_decoder_ford_feed_step.
  destruct (parser_step (decoder s)) eqn:Hs.
  - destruct (negb level && _); wf_tac Hs.
  - specialize (Hpre eq_refl).
    assert (Hm : 0 <= (header_count s + 1) mod 2 ^ 16 < 2 ^ 16)
      by (apply Z.mod_pos_bound; lia).
    destruct bit; [wf_tac Hs|].
    destruct (_ =? _); wf_tac Hs.
  - assert (Hlt : decode_count_bit (decoder s) < 64) by (apply Hd; discriminate).
    unfold subghz_protocol_blocks_add_bit.
    cbn [decoder decode_count_bit decode_data set_decode].
    rewrite (Z.mod_small (decode_count_bit (decoder s) + 1)) by lia.
    pose proof (add_bit_bound (decode_data (decoder s)) (decode_count_bit (decoder s))
                  bit ltac:(lia) Hdata) as Hb.
    destruct (_ =? _).
    + destruct (Ford.tpms_protocol_ford_check_crc _ _) as [ok crc_log].
      destruct ok; wf_tac Hs.
    + wf_tac Hs.
  - destruct Hstep as [E|[E|E]]; discriminate.
  - destruct Hstep as [E|[E|E]]; discriminate.
Qed.

Lemma smd3ma4_feed_step_wellformed s level d bit :
  smd3ma4_wellformed s ->
  smd3ma4_wellformed (fst (SMD3MA4.tpms_protocol_decoder_SMD3MA4_feed_step s level d bit)).
Proof.
  intros (Hinv & Hstep & Hdata & Hpre & Hh).
  pose proof (proj1 (smd3ma4_feed_step_frame s level d bit Hinv)) as Hinv'.
  cbv zeta in Hinv'.
  split; [exact Hinv'|]. clear Hinv'.
  destruct Hinv as [Hc Hd].
  change (min_count_bit_for_found SMD3MA4.tpms_protocol_SMD3MA4_const) with 33 in *.
  change SMD3MA4.PREAMBLE_BITS_LEN with 3 in *.
  unfold SMD3MA4.tpms_protocol_decoder_SMD3MA4_feed_step.
  destruct (parser_step (decoder s)) eqn:Hs.
  - destruct (level && _); wf_tac Hs.
  - destruct (Hpre eq_refl) as [Hc0 Hh3].
    destruct bit; [wf_tac Hs|].
    cbn [header_count set_header_count].
    rewrite (Z.mod_small (header_count s + 1)) by lia.
    change SMD3MA4.PREAMBLE_BITS_LEN with 3.
    destruct (Z.eqb_spec (header_count s + 1) 3);
      wf_tac Hs.
  - assert (Hlt : decode_count_bit (decoder s) < 33) by (apply Hd; discriminate).
    unfold subghz_protocol_blocks_add_bit.
    cbn [decoder decode_count_bit decode_data set_decode].
    rewrite (Z.mod_small (decode_count_bit (decoder s) + 1)) by lia.
    pose proof (add_bit_bound (decode_data (decoder s)) (decode_count_bit (decoder s))
                  bit ltac:(lia) Hdata) as Hb.
    destruct (_ =? _); wf_tac Hs.
  - destruct Hstep as [E|[E|E]]; discriminate.
  - destruct Hstep as [E|[E|E]]; discriminate.
Qed.
End Reachable.

Section Reachable2.
Variable manchester_advance : manchester_decoder.
Variable byte_order : ByteOrder.

Lemma ford_feed_wellformed s level d :
  ford_wellformed s ->
  ford_wellformed
    (fst (Ford.tpms_protocol_decoder_ford_feed manchester_advance byte_order s level d)).
Proof.
  intros Hwf.
  unfold Ford.tpms_protocol_decoder_ford_feed.
  destruct (Ford.tpms_protocol_decoder_ford_feed_bit manchester_advance s level d)
    as [[s1 log1] ob] eqn:Hbit.
  pose proof (ford_feed_bit_wellformed manchester_advance _ _ _ _ _ _ Hbit Hwf) as Hwf1.
  destruct ob as [bit|]; [|exact Hwf1].
  pose proof (ford_feed_step_wellformed byte_order s1 level d bit Hwf1) as Hwf2.
  destruct (Ford.tpms_protocol_decoder_ford_feed_step byte_order s1 level d bit).
  exact Hwf2.
Qed.

Lemma smd3ma4_feed_wellformed s level d :
  smd3ma4_wellformed s ->
  smd3ma4_wellformed
    (fst (SMD3MA4.tpms_protocol_decoder_SMD3MA4_feed manchester_advance s level d)).
Proof.
  intros Hwf.
  unfold SMD3MA4.tpms_protocol_decoder_SMD3MA4_feed.
  destruct (SMD3MA4.tpms_protocol_decoder_SMD3MA4_feed_bit manchester_advance s level d)
    as [[s1 log1] ob] eqn:Hbit.
  pose proof (smd3ma4_feed_bit_wellformed manchester_advance _ _ _ _ _ _ Hbit Hwf) as Hwf1.
  destruct ob as [bit|]; [|exact Hwf1].
  pose proof (smd3ma4_feed_step_wellformed s1 level d bit Hwf1) as Hwf2.
  destruct (SMD3MA4.tpms_protocol_decoder_SMD3MA4_feed_step s1 level d bit).
  exact Hwf2.
Qed.

Lemma ford_run_wellformed calls :
  ford_wellformed (Ford.run manchester_advance byte_order calls).
Proof.
  unfold Ford.run.
  assert (H0 : ford_wellformed Ford.tpms_protocol_decoder_ford_alloc).
  { unfold ford_wellformed, ford_invariant. cbn. repeat split; auto; try lia; try (intros; discriminate). }
  revert H0. generalize Ford.tpms_protocol_decoder_ford_alloc.
  induction calls as [|c calls IH]; intros s Hs; [exact Hs|].
  cbn [fold_left]. apply IH.
  destruct c as [level d| |registered]; cbn [Ford.call].
  - apply ford_feed_wellformed, Hs.
  - destruct Hs as ((Hc & Hd) & Hstep & Hdata & Hpre & Hh).
    unfold ford_wellformed, ford_invariant, Ford.tpms_protocol_decoder_ford_reset.
    fields. repeat split; auto; try lia; try (intros; discriminate).
  - exact Hs.
Qed.

Lemma smd3ma4_run_wellformed calls :
  smd3ma4_wellformed (SMD3MA4.run manchester_advance calls).
Proof.
  unfold SMD3MA4.run.
  assert (H0 : smd3ma4_wellformed SMD3MA4.tpms_protocol_decoder_SMD3MA4_alloc).
  { unfold smd3ma4_wellformed, smd3ma4_invariant. cbn. repeat split; auto; try lia; try (intros; discriminate). }
  revert H0. generalize SMD3MA4.tpms_protocol_decoder_SMD3MA4_alloc.
  induction calls as [|c calls IH]; intros s Hs; [exact Hs|].
  cbn [fold_left]. apply IH.
  destruct c as [level d| |registered]; cbn [SMD3MA4.call].
  - apply smd3ma4_feed_wellformed, Hs.
  - destruct Hs as ((Hc & Hd) & Hstep & Hdata & Hpre & Hh).
    unfold smd3ma4_wellformed, smd3ma4_invariant,
      SMD3MA4.tpms_protocol_decoder_SMD3MA4_reset.
    fields. repeat split; auto; try lia; try (intros; discriminate).
  - exact Hs.
Qed.

(** X1.  Whatever calls a client makes after alloc, both decoders are in
    one of the phases Idle, preamble acquisition and frame accumulation
    (the steps SaveDuration and CheckDuration of the enumerations are
    never entered); the frame register holds no more than the bits
    counted, decode_data < 2 ^ decode_count_bit; and preamble acquisition
    always runs on an empty frame buffer.  The SMD3MA4 preamble counter
    never exceeds 3 and is below 3 during preamble acquisition. *)
Theorem reachable_states_wellformed (calls : list DecoderCall) :
  (let s := Ford.run manchester_advance byte_order calls in
   (parser_step (decoder s) = Ford.FordDecoderStepReset
    \/ parser_step (decoder s) = Ford.FordDecoderStepCheckPreamble
    \/ parser_step (decoder s) = Ford.FordDecoderStepDecoderData)
   /\ 0 <= decode_data (decoder s) < 2 ^ decode_count_bit (decoder s)
   /\ (parser_step (decoder s) = Ford.FordDecoderStepCheckPreamble ->
       decode_count_bit (decoder s) = 0 /\ decode_data (decoder s) = 0))
  /\ (let s := SMD3MA4.run manchester_advance calls in
      (parser_step (decoder s) = SMD3MA4.SMD3MA4DecoderStepReset
       \/ parser_step (decoder s) = SMD3MA4.SMD3MA4DecoderStepCheckPreamble
       \/ parser_step (decoder s) = SMD3MA4.SMD3MA4DecoderStepDecoderData)
      /\ 0 <= decode_data (decoder s) < 2 ^ decode_count_bit (decoder s)
      /\ (parser_step (decoder s) = SMD3MA4.SMD3MA4DecoderStepCheckPreamble ->
          decode_count_bit (decoder s) = 0 /\ decode_data (decoder s) = 0
          /\ header_count s < 3)
      /\ 0 <= header_count s <= 3).
Proof.
  split; cbv zeta.
  - destruct (ford_run_wellformed calls) as (_ & Hstep & Hdata & Hpre & _).
    split; [exact Hstep|]. split; [exact Hdata|].
    intros H. specialize (Hpre H). rewrite Hpre in Hdata.
    split; [exact Hpre | change (2 ^ 0) with 1 in Hdata; lia].
  - destruct (smd3ma4_run_wellformed calls) as (_ & Hstep & Hdata & Hpre & Hh).
    split; [exact Hstep|]. split; [exact Hdata|].
    split; [|exact Hh].
    intros H. destruct (Hpre H) as [Hc Hlt]. rewrite Hc in Hdata.
    change (2 ^ 0) with 1 in Hdata.
    repeat split; [exact Hc | lia | exact Hlt].
Qed.
End Reachable2.

(** ** Emitted records *)

Section Emitted.
Variable manchester_advance : manchester_decoder.
Variable byte_order : ByteOrder.

Lemma ford_check_crc_calls_nothing s :
  callbacks (snd (Ford.tpms_protocol_ford_check_crc byte_order s)) = [].
Proof.
  unfold Ford.tpms_protocol_ford_check_crc. destruct (_ =? _); reflexivity.
Qed.

Lemma ford_feed_step_record s level d bit :
  ford_wellformed s ->
  let r := Ford.tpms_protocol_decoder_ford_feed_step byte_order s level d bit in
  (generic (fst r) = generic s /\ callbacks (snd r) = [])
  \/ (frame_completed (snd r) = true
      /\ generic (fst r)
         = Ford.tpms_protocol_ford_analyze
             (received (generic s) (decode_data (decoder (fst r))) 64)
      /\ 0 < decode_data (decoder (fst r)) < 2 ^ 64
      /\ callbacks (snd r) = if callback (base s) then [generic (fst r)] else []).
Proof.
  intros ((Hc & Hd) & Hstep & Hdata & Hpre & Hh). cbv zeta.
  change (min_count_bit_for_found Ford.tpms_protocol_ford_const) with 64 in *.
  unfold Ford.tpms_protocol_decoder_ford_feed_step.
  destruct (parser_step (decoder s)) eqn:Hs.
  - destruct (negb level && _); left; split; reflexivity.
  - destruct bit; [left; split; reflexivity|].
    destruct (_ =? _); left; split; reflexivity.
  - assert (Hlt : decode_count_bit (decoder s) < 64) by (apply Hd; discriminate).
    pose proof (add_bit_bound (decode_data (decoder s)) (decode_count_bit (decoder s))
                  bit ltac:(lia) Hdata) as Hb.
    pose proof (ford_check_crc_spec byte_order (subghz_protocol_blocks_add_bit s bit))
      as Hcrc.
    pose proof (ford_check_crc_calls_nothing (subghz_protocol_blocks_add_bit s bit))
      as Hlog.
    cbv zeta in Hcrc.
    unfold subghz_protocol_blocks_add_bit in *.
    cbn [decoder decode_count_bit decode_data set_decode] in *.
    rewrite (Z.mod_small (decode_count_bit (decoder s) + 1)) in * by lia.
    change (min_count_bit_for_found Ford.tpms_protocol_ford_const) with 64.
    destruct (Z.eqb_spec (decode_count_bit (decoder s) + 1) 64) as [E|E];
      [|left; split; reflexivity].
    destruct (Ford.tpms_protocol_ford_check_crc _ _) as [ok crc_log].
    cbn [fst snd] in Hcrc, Hlog.
    destruct ok; fields.
    + right. rewrite callbacks_app. cbn [callbacks frame_completed]. rewrite Hlog, E.
      destruct (proj1 Hcrc eq_refl) as [Hnz _].
      assert (Hmod : 0 <= Z.lor (Z.shiftl (decode_data (decoder s)) 1) (Z.b2z bit)
                          mod 2 ^ 64 < 2 ^ 64) by (apply Z.mod_pos_bound; lia).
      repeat split; try lia.
      destruct (callback (base s)); reflexivity.
    + left. rewrite callbacks_app. cbn [callbacks]. rewrite Hlog. split; reflexivity.
  - destruct Hstep as [E|[E|E]]; discriminate.
  - destruct Hstep as [E|[E|E]]; discriminate.
Qed.

Lemma smd3ma4_feed_step_record s level d bit :
  smd3ma4_wellformed s ->
  let r := SMD3MA4.tpms_protocol_decoder_SMD3MA4_feed_step s level d bit in
  (generic (fst r) = generic s /\ callbacks (snd r) = [])
  \/ (frame_completed (snd r) = true
      /\ generic (fst r)
         = SMD3MA4.tpms_protocol_SMD3MA4_analyze
             (received (generic s) (decode_data (decoder (fst r))) 33)
      /\ 0 <= decode_data (decoder (fst r)) < 2 ^ 33
      /\ callbacks (snd r) = if callback (base s) then [generic (fst r)] else []).
Proof.
  intros ((Hc & Hd) & Hstep & Hdata & Hpre & Hh). cbv zeta.
  change (min_count_bit_for_found SMD3MA4.tpms_protocol_SMD3MA4_const) with 33 in *.
  unfold SMD3MA4.tpms_protocol_decoder_SMD3MA4_feed_step.
  destruct (parser_step (decoder s)) eqn:Hs.
  - destruct (level && _); left; split; reflexivity.
  - destruct bit; [left; split; reflexivity|].
    destruct (_ =? _); left; split; reflexivity.
  - assert (Hlt : decode_count_bit (decoder s) < 33) by (apply Hd; discriminate).
    pose proof (add_bit_bound (decode_data (decoder s)) (decode_count_bit (decoder s))
                  bit ltac:(lia) Hdata) as Hb.
    unfold subghz_protocol_blocks_add_bit in *.
    cbn [decoder decode_count_bit decode_data set_decode] in *.
    rewrite (Z.mod_small (decode_count_bit (decoder s) + 1)) in * by lia.
    change (min_count_bit_for_found SMD3MA4.tpms_protocol_SMD3MA4_const) with 33.
    destruct (Z.eqb_spec (decode_count_bit (decoder s) + 1) 33) as [E|E];
      [|left; split; reflexivity].
    right. fields. cbn [callbacks frame_completed]. rewrite E in *.
    repeat split; try lia.
    destruct (callback (base s)); reflexivity.
  - destruct Hstep as [E|[E|E]]; discriminate.
  - destruct Hstep as [E|[E|E]]; discriminate.
Qed.

Lemma ford_feed_record s level d :
  ford_wellformed s ->
  let r := Ford.tpms_protocol_decoder_ford_feed manchester_advance byte_order s level d in
  (generic (fst r) = generic s /\ callbacks (snd r) = [])
  \/ (frame_completed (snd r) = true
      /\ generic (fst r)
         = Ford.tpms_protocol_ford_analyze
             (received (generic s) (decode_data (decoder (fst r))) 64)
      /\ 0 < decode_data (decoder (fst r)) < 2 ^ 64
      /\ callbacks (snd r) = if callback (base s) then [generic (fst r)] else []).
Proof.
  intros Hwf. cbv zeta.
  unfold Ford.tpms_protocol_decoder_ford_feed.
  destruct (Ford.tpms_protocol_decoder_ford_feed_bit manchester_advance s level d)
    as [[s1 log1] ob] eqn:Hbit.
  pose proof (ford_feed_bit_wellformed manchester_advance _ _ _ _ _ _ Hbit Hwf) as Hwf1.
  destruct (ford_feed_bit_keeps manchester_advance _ _ _ _ _ _ Hbit)
    as (_ & _ & Eg & Eb & _ & _ & Hcb & Hfc).
  destruct ob as [bit|]; [|left; split; assumption].
  pose proof (ford_feed_step_record s1 level d bit Hwf1) as H. cbv zeta in H.
  destruct (Ford.tpms_protocol_decoder_ford_feed_step byte_order s1 level d bit)
    as [s2 log2].
  cbn [fst snd] in *.
  rewrite callbacks_app, frame_completed_app, Hcb, Hfc, <- Eg, <- Eb. exact H.
Qed.

Lemma smd3ma4_feed_record s level d :
  smd3ma4_wellformed s ->
  let r := SMD3MA4.tpms_protocol_decoder_SMD3MA4_feed manchester_advance s level d in
  (generic (fst r) = generic s /\ callbacks (snd r) = [])
  \/ (frame_completed (snd r) = true
      /\ generic (fst r)
         = SMD3MA4.tpms_protocol_SMD3MA4_analyze
             (received (generic s) (decode_data (decoder (fst r))) 33)
      /\ 0 <= decode_data (decoder (fst r)) < 2 ^ 33
      /\ callbacks (snd r) = if callback (base s) then [generic (fst r)] else []).
Proof.
  intros Hwf. cbv zeta.
  unfold SMD3MA4.tpms_protocol_decoder_SMD3MA4_feed.
  destruct (SMD3MA4.tpms_protocol_decoder_SMD3MA4_feed_bit manchester_advance s level d)
    as [[s1 log1] ob] eqn:Hbit.
  pose proof (smd3ma4_feed_bit_wellformed manchester_advance _ _ _ _ _ _ Hbit Hwf) as Hwf1.
  destruct (smd3ma4_feed_bit_keeps manchester_advance _ _ _ _ _ _ Hbit)
    as (_ & _ & Eg & Eb & _ & _ & Hcb & Hfc).
  destruct ob as [bit|]; [|left; split; assumption].
  pose proof (smd3ma4_feed_step_record s1 level d bit Hwf1) as H. cbv zeta in H.
  destruct (SMD3MA4.tpms_protocol_decoder_SMD3MA4_feed_step s1 level d bit)
    as [s2 log2].
  cbn [fst snd] in *.
  rewrite callbacks_app, frame_completed_app, Hcb, Hfc, <- Eg, <- Eb. exact H.
Qed.

Lemma shiftr_id (x k : Z) :
  0 <= k -> 0 <= x < 2 ^ (k + 32) -> Z.shiftr x k mod 2 ^ 32 = x / 2 ^ k.
Proof.
  intros Hk Hx. rewrite Z.shiftr_div_pow2 by lia.
  apply Z.mod_small. split; [apply Z.div_pos; lia|].
  apply Z.div_lt_upper_bound; [lia|].
  rewrite <- Z.pow_add_r by lia. lia.
Qed.

(** X2.  In every reachable state, an edge either leaves the stored
    record untouched and calls nothing, or it completes a frame; then the
    stored record is the analysis of the frame register with its bit
    count (64 for Ford, 33 for SMD3MA4), and the sink is called exactly
    once with the stored record if a callback is registered, not at all
    otherwise.  A Ford record never holds the all-zero frame and its id is
    the upper 32 bits of the frame; an SMD3MA4 record holds a frame below
    2 ^ 33, so its id, the frame shifted right by 24, is below 512. *)
Theorem emitted_record_is_analysis (calls : list DecoderCall) (level : bool) (d : Z) :
  (let s := Ford.run manchester_advance byte_order calls in
   let r := Ford.tpms_protocol_decoder_ford_feed
              manchester_advance byte_order s level d in
   (generic (fst r) = generic s /\ callbacks (snd r) = [])
   \/ (frame_completed (snd r) = true
       /\ generic (fst r)
          = Ford.tpms_protocol_ford_analyze
              (received (generic s) (decode_data (decoder (fst r))) 64)
       /\ callbacks (snd r) = (if callback (base s) then [generic (fst r)] else [])
       /\ data_count_bit (generic (fst r)) = 64
       /\ 0 < data (generic (fst r)) < 2 ^ 64
       /\ id (generic (fst r)) = data (generic (fst r)) / 2 ^ 32
       /\ battery_low (generic (fst r)) = TPMS_NO_BATT))
  /\ (let s := SMD3MA4.run manchester_advance calls in
      let r := SMD3MA4.tpms_protocol_decoder_SMD3MA4_feed manchester_advance s level d in
      (generic (fst r) = generic s /\ callbacks (snd r) = [])
      \/ (frame_completed (snd r) = true
          /\ generic (fst r)
             = SMD3MA4.tpms_protocol_SMD3MA4_analyze
                 (received (generic s) (decode_data (decoder (fst r))) 33)
          /\ callbacks (snd r) = (if callback (base s) then [generic (fst r)] else [])
          /\ data_count_bit (generic (fst r)) = 33
          /\ 0 <= data (generic (fst r)) < 2 ^ 33
          /\ id (generic (fst r)) = data (generic (fst r)) / 2 ^ 24
          /\ 0 <= id (generic (fst r)) < 512
          /\ battery_low (generic (fst r)) = TPMS_NO_BATT)).
Proof.
  split; cbv zeta.
  - destruct (ford_feed_record _ level d (ford_run_wellformed manchester_advance byte_order calls))
      as [H|(Hfc & Hg & Hd & Hcb)]; [left; exact H|right].
    split; [exact Hfc|]. split; [exact Hg|]. split; [exact Hcb|].
    rewrite Hg. unfold Ford.tpms_protocol_ford_analyze.
    cbn [data_count_bit data id battery_low received].
    repeat split; try lia.
    apply shiftr_id; lia.
  - destruct (smd3ma4_feed_record _ level d (smd3ma4_run_wellformed manchester_advance calls))
      as [H|(Hfc & Hg & Hd & Hcb)]; [left; exact H|right].
    split; [exact Hfc|]. split; [exact Hg|]. split; [exact Hcb|].
    rewrite Hg. unfold SMD3MA4.tpms_protocol_SMD3MA4_analyze.
    cbn [data_count_bit data id battery_low received].
    assert (Hid : Z.shiftr (decode_data (decoder (fst (SMD3MA4.tpms_protocol_decoder_SMD3MA4_feed manchester_advance (SMD3MA4.run manchester_advance calls) level d)))) 24 mod 2 ^ 32
                  = decode_data (decoder (fst (SMD3MA4.tpms_protocol_decoder_SMD3MA4_feed manchester_advance (SMD3MA4.run manchester_advance calls) level d))) / 2 ^ 24)
      by (apply shiftr_id; lia).
    rewrite Hid.
    repeat split; try lia.
    + apply Z.div_pos; lia.
    + apply Z.div_lt_upper_bound; lia.
Qed.
End Emitted.

(** ** The timing windows of the two profiles *)

Lemma ford_event_long_or_reset (level : bool) (d : Z) :
  0 <= d ->
  Ford.level_and_duration_to_event level d
  = (if d <? 254
     then (if level then ManchesterEventLongHigh else ManchesterEventLongLow)
     else ManchesterEventReset).
Proof.
  intros Hd.
  unfold Ford.level_and_duration_to_event, DURATION_DIFF.
  cbn [te_long te_short te_delta Ford.tpms_protocol_ford_const].
  destruct (Z.ltb_spec d 254); destruct (Z.ltb_spec d 104);
    destruct (Z.ltb_spec d 52);
    repeat match goal with
           | |- context [?a <? ?b] => destruct (Z.ltb_spec a b)
           end; try lia; reflexivity.
Qed.

(** X3.  With the Ford constants the tolerance (150 us) exceeds the long
    duration (104 us), so the Long window covers the Short one: for a
    duration a [uint32_t] can hold, the Ford classifier yields a Long
    symbol below 254 us and the reset event from 254 us on; it never
    yields a Short symbol. *)
Theorem ford_classifier_never_short (level : bool) (d : Z) :
  0 <= d ->
  Ford.level_and_duration_to_event level d
  = (if d <? 254
     then (if level then ManchesterEventLongHigh else ManchesterEventLongLow)
     else ManchesterEventReset)
  /\ Ford.level_and_duration_to_event level d <> ManchesterEventShortHigh
  /\ Ford.level_and_duration_to_event level d <> ManchesterEventShortLow.
Proof.
  intros Hd.
  rewrite (ford_event_long_or_reset level d Hd).
  split; [reflexivity|].
  destruct (d <? 254), level; split; discriminate.
Qed.

(** A pulse of 60 us, 8 us from the short duration, is classified Long. *)
Lemma ford_classifier_never_short_witness :
  Ford.level_and_duration_to_event true 60 = ManchesterEventLongHigh
  /\ Ford.level_and_duration_to_event true 60 <> ManchesterEventShortHigh.
Proof.
  destruct (ford_classifier_never_short true 60 ltac:(lia)) as (H1 & H2 & _).
  split; [exact H1 | exact H2].
Defined.

Lemma smd3ma4_event_windows (level : bool) (d : Z) :
  SMD3MA4.level_and_duration_to_event level d
  = (if (185 <? d) && (d <? 295)
     then (if level then ManchesterEventLongHigh else ManchesterEventLongLow)
     else if (65 <? d) && (d <? 175)
     then (if level then ManchesterEventShortHigh else ManchesterEventShortLow)
     else ManchesterEventReset).
Proof.
  unfold SMD3MA4.level_and_duration_to_event, DURATION_DIFF.
  cbn [te_long te_short te_delta SMD3MA4.tpms_protocol_SMD3MA4_const].
  destruct (Z.ltb_spec d 240); destruct (Z.ltb_spec d 120);
    destruct (Z.ltb_spec 185 d); destruct (Z.ltb_spec d 295);
    destruct (Z.ltb_spec 65 d); destruct (Z.ltb_spec d 175); cbn [andb];
    repeat match goal with
           | |- context [?a <? ?b] => destruct (Z.ltb_spec a b)
           end; try lia; reflexivity.
Qed.

Lemma smd3ma4_sync_out_of_tolerance (level : bool) (d : Z) :
  (DURATION_DIFF d (te_long SMD3MA4.tpms_protocol_SMD3MA4_const * 2)
   <? te_delta SMD3MA4.tpms_protocol_SMD3MA4_const) = true ->
  SMD3MA4.level_and_duration_to_event level d = ManchesterEventReset.
Proof.
  rewrite smd3ma4_event_windows. unfold DURATION_DIFF.
  cbn [te_long te_delta SMD3MA4.tpms_protocol_SMD3MA4_const].
  change (240 * 2) with 480.
  destruct (Z.ltb_spec d 480);
    destruct (Z.ltb_spec 185 d); destruct (Z.ltb_spec d 295);
    destruct (Z.ltb_spec 65 d); destruct (Z.ltb_spec d 175); cbn [andb];
    try reflexivity;
    repeat match goal with
           | |- context [?a <? ?b] => destruct (Z.ltb_spec a b)
           end; try lia; try discriminate.
Qed.

(** X4.  The SMD3MA4 windows do not overlap: a duration is Long exactly
    strictly between 185 and 295 us, Short exactly strictly between 65
    and 175 us, and out of tolerance otherwise; in particular every start
    pulse (within 55 us of 480 us) is out of tolerance as a symbol. *)
Theorem smd3ma4_classifier_windows (level : bool) (d : Z) :
  SMD3MA4.level_and_duration_to_event level d
  = (if (185 <? d) && (d <? 295)
     then (if level then ManchesterEventLongHigh else ManchesterEventLongLow)
     else if (65 <? d) && (d <? 175)
     then (if level then ManchesterEventShortHigh else ManchesterEventShortLow)
     else ManchesterEventReset)
  /\ ((DURATION_DIFF d (te_long SMD3MA4.tpms_protocol_SMD3MA4_const * 2)
       <? te_delta SMD3MA4.tpms_protocol_SMD3MA4_const) = true ->
      SMD3MA4.level_and_duration_to_event level d = ManchesterEventReset).
Proof.
  split; [apply smd3ma4_event_windows | apply smd3ma4_sync_out_of_tolerance].
Qed.

Lemma smd3ma4_classifier_windows_witness :
  SMD3MA4.level_and_duration_to_event true 480 = ManchesterEventReset.
Proof.
  exact (proj2 (smd3ma4_classifier_windows true 480) eq_refl).
Defined.

(** ** Losing and regaining synchronisation *)

Section Resync.
Variable manchester_advance : manchester_decoder.
Variable byte_order : ByteOrder.

Lemma ford_feed_step_idle_calls_nothing s level d bit :
  parser_step (decoder s) = Ford.FordDecoderStepReset ->
  let r := Ford.tpms_protocol_decoder_ford_feed_step byte_order s level d bit in
  callbacks (snd r) = [] /\ frame_completed (snd r) = false
  /\ generic (fst r) = generic s.
Proof.
  intros Hs. cbv zeta. unfold Ford.tpms_protocol_decoder_ford_feed_step.
  rewrite Hs. destruct (negb level && _); repeat split.
Qed.

Lemma smd3ma4_feed_step_idle_calls_nothing s level d bit :
  parser_step (decoder s) = SMD3MA4.SMD3MA4DecoderStepReset ->
  let r := SMD3MA4.tpms_protocol_decoder_SMD3MA4_feed_step s level d bit in
  callbacks (snd r) = [] /\ frame_completed (snd r) = false
  /\ generic (fst r) = generic s.
Proof.
  intros Hs. cbv zeta. unfold SMD3MA4.tpms_protocol_decoder_SMD3MA4_feed_step.
  rewrite Hs. destruct (level && _); repeat split.
Qed.

Lemma ford_feed_out_of_tolerance s level d :
  Ford.level_and_duration_to_event level d = ManchesterEventReset ->
  let r := Ford.tpms_protocol_decoder_ford_feed manchester_advance byte_order s level d in
  fst r
  = fst (Ford.tpms_protocol_decoder_ford_feed manchester_advance byte_order
           (Ford.tpms_protocol_decoder_ford_reset s) level d)
  /\ callbacks (snd r) = []
  /\ frame_completed (snd r) = false
  /\ generic (fst r) = generic s.
Proof.
  intros Hev. cbv zeta.
  rewrite (ford_feed_idle manchester_advance byte_order
             (Ford.tpms_protocol_decoder_ford_reset s) level d eq_refl).
  cbn [fst].
  destruct (parser_step (decoder s)) eqn:Hs.
  - rewrite (ford_feed_idle manchester_advance byte_order s level d Hs).
    cbn [fst snd callbacks frame_completed].
    destruct s as [b [st dd cnt] g m h]. cbn in Hs. subst st.
    destruct (negb level && _); repeat split.
  - unfold Ford.tpms_protocol_decoder_ford_feed,
           Ford.tpms_protocol_decoder_ford_feed_bit.
    rewrite Hs, Hev.
    unfold Ford.tpms_protocol_decoder_ford_feed_step. fields.
    change (te_long Ford.tpms_protocol_ford_const * 2) with 208.
    change (te_delta Ford.tpms_protocol_ford_const) with 150.
    destruct (negb level && _); repeat split.
  - unfold Ford.tpms_protocol_decoder_ford_feed,
           Ford.tpms_protocol_decoder_ford_feed_bit.
    rewrite Hs, Hev.
    unfold Ford.tpms_protocol_decoder_ford_feed_step. fields.
    change (te_long Ford.tpms_protocol_ford_const * 2) with 208.
    change (te_delta Ford.tpms_protocol_ford_const) with 150.
    destruct (negb level && _); destruct (_ =? 0); repeat split.
  - unfold Ford.tpms_protocol_decoder_ford_feed,
           Ford.tpms_protocol_decoder_ford_feed_bit.
    rewrite Hs, Hev.
    unfold Ford.tpms_protocol_decoder_ford_feed_step. fields.
    change (te_long Ford.tpms_protocol_ford_const * 2) with 208.
    change (te_delta Ford.tpms_protocol_ford_const) with 150.
    destruct (negb level && _); repeat split.
  - unfold Ford.tpms_protocol_decoder_ford_feed,
           Ford.tpms_protocol_decoder_ford_feed_bit.
    rewrite Hs, Hev.
    unfold Ford.tpms_protocol_decoder_ford_feed_step. fields.
    change (te_long Ford.tpms_protocol_ford_const * 2) with 208.
    change (te_delta Ford.tpms_protocol_ford_const) with 150.
    destruct (negb level && _); repeat split.
Qed.

Lemma smd3ma4_feed_out_of_tolerance s level d :
  SMD3MA4.level_and_duration_to_event level d = ManchesterEventReset ->
  let r := SMD3MA4.tpms_protocol_decoder_SMD3MA4_feed manchester_advance s level d in
  fst r
  = fst (SMD3MA4.tpms_protocol_decoder_SMD3MA4_feed manchester_advance
           (SMD3MA4.tpms_protocol_decoder_SMD3MA4_reset s) level d)
  /\ callbacks (snd r) = []
  /\ frame_completed (snd r) = false
  /\ generic (fst r) = generic s.
Proof.
  intros Hev. cbv zeta.
  rewrite (smd3ma4_feed_idle manchester_advance
             (SMD3MA4.tpms_protocol_decoder_SMD3MA4_reset s) level d eq_refl).
  cbn [fst].
  destruct (parser_step (decoder s)) eqn:Hs.
  - rewrite (smd3ma4_feed_idle manchester_advance s level d Hs).
    cbn [fst snd callbacks frame_completed].
    destruct s as [b [st dd cnt] g m h]. cbn in Hs. subst st.
    destruct (level && _); repeat split.
  - unfold SMD3MA4.tpms_protocol_decoder_SMD3MA4_feed,
           SMD3MA4.tpms_protocol_decoder_SMD3MA4_feed_bit.
    rewrite Hs, Hev.
    unfold SMD3MA4.tpms_protocol_decoder_SMD3MA4_feed_step. fields.
    change (te_long SMD3MA4.tpms_protocol_SMD3MA4_const * 2) with 480.
    change (te_delta SMD3MA4.tpms_protocol_SMD3MA4_const) with 55.
    destruct (level && _); repeat split.
  - unfold SMD3MA4.tpms_protocol_decoder_SMD3MA4_feed,
           SMD3MA4.tpms_protocol_decoder_SMD3MA4_feed_bit.
    rewrite Hs, Hev.
    unfold SMD3MA4.tpms_protocol_decoder_SMD3MA4_feed_step. fields.
    change (te_long SMD3MA4.tpms_protocol_SMD3MA4_const * 2) with 480.
    change (te_delta SMD3MA4.tpms_protocol_SMD3MA4_const) with 55.
    destruct (level && _); destruct (_ =? 0); repeat split.
  - unfold SMD3MA4.tpms_protocol_decoder_SMD3MA4_feed,
           SMD3MA4.tpms_protocol_decoder_SMD3MA4_feed_bit.
    rewrite Hs, Hev.
    unfold SMD3MA4.tpms_protocol_decoder_SMD3MA4_feed_step. fields.
    change (te_long SMD3MA4.tpms_protocol_SMD3MA4_const * 2) with 480.
    change (te_delta SMD3MA4.tpms_protocol_SMD3MA4_const) with 55.
    destruct (level && _); repeat split.
  - unfold SMD3MA4.tpms_protocol_decoder_SMD3MA4_feed,
           SMD3MA4.tpms_protocol_decoder_SMD3MA4_feed_bit.
    rewrite Hs, Hev.
    unfold SMD3MA4.tpms_protocol_decoder_SMD3MA4_feed_step. fields.
    change (te_long SMD3MA4.tpms_protocol_SMD3MA4_const * 2) with 480.
    change (te_delta SMD3MA4.tpms_protocol_SMD3MA4_const) with 55.
    destruct (level && _); repeat split.
Qed.

(** X5.  In any phase, an edge whose duration is out of tolerance drops
    whatever was being received: the decoder ends in the state that
    reset() followed by the same edge gives (Idle, or preamble
    acquisition if the edge is itself a sync pulse), no frame is handed
    to validation, the sink is not called and the stored record is
    untouched. *)
Theorem out_of_tolerance_edge_acts_as_reset (level : bool) (d : Z) :
  (forall s : Ford.TPMSProtocolDecoderFord,
      Ford.level_and_duration_to_event level d = ManchesterEventReset ->
      let r := Ford.tpms_protocol_decoder_ford_feed
                 manchester_advance byte_order s level d in
      fst r
      = fst (Ford.tpms_protocol_decoder_ford_feed manchester_advance byte_order
               (Ford.tpms_protocol_decoder_ford_reset s) level d)
      /\ callbacks (snd r) = []
      /\ frame_completed (snd r) = false
      /\ generic (fst r) = generic s)
  /\ (forall s : SMD3MA4.TPMSProtocolDecoderSMD3MA4,
      SMD3MA4.level_and_duration_to_event level d = ManchesterEventReset ->
      let r := SMD3MA4.tpms_protocol_decoder_SMD3MA4_feed
                 manchester_advance s level d in
      fst r
      = fst (SMD3MA4.tpms_protocol_decoder_SMD3MA4_feed manchester_advance
               (SMD3MA4.tpms_protocol_decoder_SMD3MA4_reset s) level d)
      /\ callbacks (snd r) = []
      /\ frame_completed (snd r) = false
      /\ generic (fst r) = generic s).
Proof.
  split; intros s Hev.
  - apply ford_feed_out_of_tolerance, Hev.
  - apply smd3ma4_feed_out_of_tolerance, Hev.
Qed.

(** X6.  A sync pulse restarts acquisition from any phase.  For SMD3MA4,
    a high edge within 55 us of 480 us always leaves the decoder in
    preamble acquisition with the preamble counter at zero, the frame
    buffer empty and the Manchester machine at its start state, without
    touching the stored record.  For Ford the same holds of a low edge of
    254 us up to (not including) 358 us, except that the preamble counter
    keeps its value. *)
Theorem sync_pulse_restarts_acquisition (d : Z) :
  (forall s : SMD3MA4.TPMSProtocolDecoderSMD3MA4,
      Z.abs (d - 480) < 55 ->
      let r := SMD3MA4.tpms_protocol_decoder_SMD3MA4_feed
                 manchester_advance s true d in
      parser_step (decoder (fst r)) = SMD3MA4.SMD3MA4DecoderStepCheckPreamble
      /\ header_count (fst r) = 0
      /\ decode_data (decoder (fst r)) = 0
      /\ decode_count_bit (decoder (fst r)) = 0
      /\ manchester_saved_state (fst r) = ManchesterStateStart1
      /\ generic (fst r) = generic s
      /\ callbacks (snd r) = [])
  /\ (forall s : Ford.TPMSProtocolDecoderFord,
      254 <= d < 358 ->
      let r := Ford.tpms_protocol_decoder_ford_feed
                 manchester_advance byte_order s false d in
      parser_step (decoder (fst r)) = Ford.FordDecoderStepCheckPreamble
      /\ header_count (fst r) = header_count s
      /\ decode_data (decoder (fst r)) = 0
      /\ decode_count_bit (decoder (fst r)) = 0
      /\ manchester_saved_state (fst r) = ManchesterStateStart1
      /\ generic (fst r) = generic s
      /\ callbacks (snd r) = []).
Proof.
  split; intros s Hd; cbv zeta.
  - assert (Hsync : (DURATION_DIFF d 480 <? 55) = true)
      by (rewrite DURATION_DIFF_abs; apply Z.ltb_lt; exact Hd).
    pose proof (smd3ma4_sync_out_of_tolerance true d Hsync) as Hev.
    destruct (smd3ma4_feed_out_of_tolerance s true d Hev) as (E & Hcb & _ & Hg).
    rewrite Hcb, Hg, E.
    rewrite (smd3ma4_feed_idle manchester_advance
               (SMD3MA4.tpms_protocol_decoder_SMD3MA4_reset s) true d eq_refl).
    rewrite Hsync. repeat split.
  - assert (Hsync : (DURATION_DIFF d 208 <? 150) = true)
      by (rewrite DURATION_DIFF_abs; apply Z.ltb_lt; lia).
    assert (Hev : Ford.level_and_duration_to_event false d = ManchesterEventReset).
    { rewrite (ford_event_long_or_reset false d ltac:(lia)).
      destruct (Z.ltb_spec d 254); [lia | reflexivity]. }
    destruct (ford_feed_out_of_tolerance s false d Hev) as (E & Hcb & _ & Hg).
    rewrite Hcb, Hg, E.
    rewrite (ford_feed_idle manchester_advance byte_order
               (Ford.tpms_protocol_decoder_ford_reset s) false d eq_refl).
    rewrite Hsync. repeat split.
Qed.

(** X7.  While Idle, an edge that is not the protocol's sync pulse is
    ignored altogether: the instance is returned as it was (the
    Manchester decoder is not consulted) and nothing is logged or
    called. *)
Theorem idle_ignores_other_edges (level : bool) (d : Z) :
  (forall s : Ford.TPMSProtocolDecoderFord,
      parser_step (decoder s) = Ford.FordDecoderStepReset ->
      level = true \/ 150 <= Z.abs (d - 208) ->
      Ford.tpms_protocol_decoder_ford_feed manchester_advance byte_order s level d
      = (s, []))
  /\ (forall s : SMD3MA4.TPMSProtocolDecoderSMD3MA4,
      parser_step (decoder s) = SMD3MA4.SMD3MA4DecoderStepReset ->
      level = false \/ 55 <= Z.abs (d - 480) ->
      SMD3MA4.tpms_protocol_decoder_SMD3MA4_feed manchester_advance s level d
      = (s, [])).
Proof.
  split; intros s Hs Hno.
  - rewrite (ford_feed_idle manchester_advance byte_order s level d Hs).
    rewrite DURATION_DIFF_abs.
    destruct Hno as [-> | Hno]; [reflexivity|].
    destruct (Z.ltb_spec (Z.abs (d - 208)) 150); [lia|].
    now rewrite andb_false_r.
  - rewrite (smd3ma4_feed_idle manchester_advance s level d Hs).
    rewrite DURATION_DIFF_abs.
    destruct Hno as [-> | Hno]; [reflexivity|].
    destruct (Z.ltb_spec (Z.abs (d - 480)) 55); [lia|].
    now rewrite andb_false_r.
Qed.
End Resync.

(** The SMD3MA4 decoder in the middle of a frame, hit by a pulse of
    180 us (between the two windows): it is Idle again and has called
    nothing. *)
Lemma out_of_tolerance_edge_acts_as_reset_witness :
  parser_step
    (decoder
       (fst (SMD3MA4.tpms_protocol_decoder_SMD3MA4_feed Toolbox.manchester_advance
               smd3ma4_mid_frame false 180)))
  = SMD3MA4.SMD3MA4DecoderStepReset
  /\ callbacks
       (snd (SMD3MA4.tpms_protocol_decoder_SMD3MA4_feed Toolbox.manchester_advance
               smd3ma4_mid_frame false 180))
     = [].
Proof.
  destruct (proj2 (out_of_tolerance_edge_acts_as_reset
                     Toolbox.manchester_advance LittleEndian false 180)
              smd3ma4_mid_frame eq_refl) as (E & Hcb & _).
  split; [rewrite E; reflexivity | exact Hcb].
Defined.

(** The SMD3MA4 decoder in the middle of a frame, hit by a start pulse. *)
Lemma sync_pulse_restarts_acquisition_witness :
  parser_step
    (decoder
       (fst (SMD3MA4.tpms_protocol_decoder_SMD3MA4_feed Toolbox.manchester_advance
               smd3ma4_mid_frame true 500)))
  = SMD3MA4.SMD3MA4DecoderStepCheckPreamble
  /\ decode_count_bit
       (decoder
          (fst (SMD3MA4.tpms_protocol_decoder_SMD3MA4_feed Toolbox.manchester_advance
                  smd3ma4_mid_frame true 500)))
     = 0.
Proof.
  destruct (proj1 (sync_pulse_restarts_acquisition
                     Toolbox.manchester_advance LittleEndian 500)
              smd3ma4_mid_frame ltac:(simpl; lia)) as (H1 & _ & _ & H2 & _).
  split; [exact H1 | exact H2].
Defined.

(** An Idle SMD3MA4 decoder fed a low edge of start-pulse length. *)
Lemma idle_ignores_other_edges_witness :
  SMD3MA4.tpms_protocol_decoder_SMD3MA4_feed Toolbox.manchester_advance
    SMD3MA4.tpms_protocol_decoder_SMD3MA4_alloc false 480
  = (SMD3MA4.tpms_protocol_decoder_SMD3MA4_alloc, []).
Proof.
  exact (proj2 (idle_ignores_other_edges Toolbox.manchester_advance LittleEndian
                  false 480)
           SMD3MA4.tpms_protocol_decoder_SMD3MA4_alloc eq_refl (or_introl eq_refl)).
Defined.

(** ** From recovered bits to the record *)

Lemma bits_acc_bound (bits : list bool) (a c : Z) :
  0 <= c -> 0 <= a < 2 ^ c ->
  0 <= fold_left (fun acc b => 2 * acc + Z.b2z b) bits a
    < 2 ^ (c + Z.of_nat (List.length bits)).
Proof.
  revert a c. induction bits as [|b bits IH]; intros a c Hc Ha.
  - cbn. rewrite Z.add_0_r. exact Ha.
  - cbn [fold_left List.length].
    replace (c + Z.of_nat (S (List.length bits))) with ((c + 1) + Z.of_nat (List.length bits))
      by lia.
    apply IH; [lia|].
    assert (Hb : 0 <= Z.b2z b <= 1) by (destruct b; cbn; lia).
    rewrite Z.pow_add_r, Z.pow_1_r by lia. lia.
Qed.

Lemma bits_value_bound (bits : list bool) :
  0 <= bits_value bits < 2 ^ Z.of_nat (List.length bits).
Proof.
  unfold bits_value.
  pose proof (bits_acc_bound bits 0 0 ltac:(lia) ltac:(cbn; lia)) as H.
  exact H.
Qed.

Lemma add_bit_small (a c : Z) (b : bool) :
  0 <= c < 64 -> 0 <= a < 2 ^ c ->
  Z.lor (Z.shiftl a 1) (Z.b2z b) mod 2 ^ 64 = 2 * a + Z.b2z b.
Proof.
  intros Hc Ha. rewrite add_bit_value by lia.
  apply Z.mod_small.
  assert (Hb : 0 <= Z.b2z b <= 1) by (destruct b; cbn; lia).
  assert (2 ^ (c + 1) <= 2 ^ 64) by (apply Z.pow_le_mono_r; lia).
  rewrite Z.pow_add_r, Z.pow_1_r in * by lia. lia.
Qed.

Section Accumulate.
Variable byte_order : ByteOrder.
Variable level : bool.
Variable d : Z.

Lemma smd3ma4_feed_bits_complete (bits : list bool) :
  forall (s0 : SMD3MA4.TPMSProtocolDecoderSMD3MA4) (a c : Z),
    parser_step (decoder s0) = SMD3MA4.SMD3MA4DecoderStepDecoderData ->
    0 <= c -> 0 <= a < 2 ^ c ->
    bits <> [] ->
    c + Z.of_nat (List.length bits) = 33 ->
    feed_bits
      (fun i b => SMD3MA4.tpms_protocol_decoder_SMD3MA4_feed_step i level d b)
      (set_decode s0 a c) bits
    = let v := fold_left (fun acc b => 2 * acc + Z.b2z b) bits a in
      let record :=
        SMD3MA4.tpms_protocol_SMD3MA4_analyze (received (generic s0) v 33) in
      (set_parser_step (set_generic (set_decode s0 v 33) record)
         SMD3MA4.SMD3MA4DecoderStepReset,
       LogFrame v :: (if callback (base s0) then [CallbackInvoked record] else [])).
Proof.
  induction bits as [|b rest IH]; intros s0 a c Hs Hc Ha Hne Hlen; [now elim Hne|].
  cbn [feed_bits fold_left].
  unfold SMD3MA4.tpms_protocol_decoder_SMD3MA4_feed_step at 1.
  cbn [set_decode decoder parser_step]. rewrite Hs.
  unfold subghz_protocol_blocks_add_bit.
  cbn [set_decode decoder decode_data decode_count_bit].
  cbn [List.length] in Hlen.
  rewrite (add_bit_small a c b) by lia.
  rewrite (Z.mod_small (c + 1)) by lia.
  change (min_count_bit_for_found SMD3MA4.tpms_protocol_SMD3MA4_const) with 33.
  destruct rest as [|b' rest'].
  - cbn [List.length] in Hlen.
    replace (c + 1) with 33 by lia. rewrite Z.eqb_refl.
    cbn [feed_bits fold_left]. rewrite app_nil_r. reflexivity.
  - destruct (Z.eqb_spec (c + 1) 33) as [E|E]; [cbn [List.length] in Hlen; lia|].
    assert (Hb : 0 <= Z.b2z b <= 1) by (destruct b; cbn; lia).
    pose proof (IH s0 (2 * a + Z.b2z b) (c + 1) Hs ltac:(lia)
                  ltac:(rewrite Z.pow_add_r, Z.pow_1_r by lia; lia)
                  ltac:(discriminate) ltac:(lia)) as H.
    change (set_decode (set_decode s0 a c) (2 * a + Z.b2z b) (c + 1))
      with (set_decode s0 (2 * a + Z.b2z b) (c + 1)).
    rewrite H. reflexivity.
Qed.

Lemma ford_feed_bits_complete (bits : list bool) :
  forall (s0 : Ford.TPMSProtocolDecoderFord) (a c : Z),
    parser_step (decoder s0) = Ford.FordDecoderStepDecoderData ->
    0 <= c -> 0 <= a < 2 ^ c ->
    bits <> [] ->
    c + Z.of_nat (List.length bits) = 64 ->
    feed_bits
      (fun i b => Ford.tpms_protocol_decoder_ford_feed_step byte_order i level d b)
      (set_decode s0 a c) bits
    = Ford.tpms_protocol_decoder_ford_feed_step byte_order
        (set_decode s0
           (fold_left (fun acc b => 2 * acc + Z.b2z b) (removelast bits) a) 63)
        level d (last bits false).
Proof.
  induction bits as [|b rest IH]; intros s0 a c Hs Hc Ha Hne Hlen; [now elim Hne|].
  cbn [List.length] in Hlen.
  cbn [feed_bits].
  destruct rest as [|b' rest'].
  - cbn [List.length] in Hlen. cbn [feed_bits removelast last fold_left].
    replace c with 63 by lia.
    destruct (Ford.tpms_protocol_decoder_ford_feed_step _ _ _ _ _) as [s1 log1].
    now rewrite app_nil_r.
  - unfold Ford.tpms_protocol_decoder_ford_feed_step at 1.
    cbn [set_decode decoder parser_step]. rewrite Hs.
    unfold subghz_protocol_blocks_add_bit.
    cbn [set_decode decoder decode_data decode_count_bit].
    cbn [List.length] in Hlen.
    rewrite (add_bit_small a c b) by lia.
    rewrite (Z.mod_small (c + 1)) by lia.
    change (min_count_bit_for_found Ford.tpms_protocol_ford_const) with 64.
    destruct (Z.eqb_spec (c + 1) 64) as [E|E]; [lia|].
    assert (Hb : 0 <= Z.b2z b <= 1) by (destruct b; cbn; lia).
    pose proof (IH s0 (2 * a + Z.b2z b) (c + 1) Hs ltac:(lia)
                  ltac:(rewrite Z.pow_add_r, Z.pow_1_r by lia; lia)
                  ltac:(discriminate) ltac:(cbn [List.length]; lia)) as H.
    change (set_decode (set_decode s0 a c) (2 * a + Z.b2z b) (c + 1))
      with (set_decode s0 (2 * a + Z.b2z b) (c + 1)).
    rewrite H.
    change (removelast (b :: b' :: rest')) with (b :: removelast (b' :: rest')).
    change (last (b :: b' :: rest') false) with (last (b' :: rest') false).
    cbn [fold_left].
    destruct (Ford.tpms_protocol_decoder_ford_feed_step _ _ _ _ _) as [s1 log1].
    reflexivity.
Qed.
End Accumulate.

Lemma feed_bits_app {Step : Type}
    (f : TPMSProtocolDecoder Step -> bool -> TPMSProtocolDecoder Step * list Event)
    (l1 l2 : list bool) :
  forall s,
    feed_bits f s (l1 ++ l2)
    = let '(s1, log1) := feed_bits f s l1 in
      let '(s2, log2) := feed_bits f s1 l2 in
      (s2, log1 ++ log2).
Proof.
  induction l1 as [|b l1 IH]; intros s.
  - cbn. now destruct (feed_bits f s l2).
  - cbn [app feed_bits].
    destruct (f s b) as [s' log]. rewrite IH.
    destruct (feed_bits f s' l1) as [s1 log1].
    destruct (feed_bits f s1 l2) as [s2 log2].
    now rewrite app_assoc.
Qed.

Section BitsToRecord.
Variable byte_order : ByteOrder.
Variable level : bool.
Variable d : Z.

Lemma smd3ma4_preamble_opens s :
  parser_step (decoder s) = SMD3MA4.SMD3MA4DecoderStepCheckPreamble ->
  header_count s = 0 ->
  feed_bits (fun i b => SMD3MA4.tpms_protocol_decoder_SMD3MA4_feed_step i level d b)
    s [false; false; false]
  = (set_parser_step (set_header_count s 3) SMD3MA4.SMD3MA4DecoderStepDecoderData, []).
Proof.
  destruct s as [b [st dd cnt] g m h]. cbn [decoder parser_step header_count].
  intros -> ->. reflexivity.
Qed.

Lemma ford_preamble_opens s :
  parser_step (decoder s) = Ford.FordDecoderStepCheckPreamble ->
  header_count s = 0 ->
  feed_bits (fun i b => Ford.tpms_protocol_decoder_ford_feed_step byte_order i level d b)
    s (repeat false 16)
  = (set_parser_step (set_header_count s 16) Ford.FordDecoderStepDecoderData, []).
Proof.
  destruct s as [b [st dd cnt] g m h]. cbn [decoder parser_step header_count].
  intros -> ->. reflexivity.
Qed.

(** X8.  The SMD3MA4 switch, started in preamble acquisition with the
    counter at zero and the frame buffer empty (the state the start pulse
    leaves), and given the recovered bits 0 0 0 followed by any 33
    payload bits, ends Idle with the payload in the frame register, first
    bit most significant; the stored record is the analysis of that
    value, and the sink is called with it exactly once if a callback is
    registered. *)
Theorem smd3ma4_bits_to_record
    (s : SMD3MA4.TPMSProtocolDecoderSMD3MA4) (payload : list bool) :
  parser_step (decoder s) = SMD3MA4.SMD3MA4DecoderStepCheckPreamble ->
  header_count s = 0 ->
  decode_data (decoder s) = 0 ->
  decode_count_bit (decoder s) = 0 ->
  List.length payload = 33%nat ->
  let r :=
    feed_bits (fun i b => SMD3MA4.tpms_protocol_decoder_SMD3MA4_feed_step i level d b)
      s ([false; false; false] ++ payload) in
  decode_data (decoder (fst r)) = bits_value payload
  /\ decode_count_bit (decoder (fst r)) = 33
  /\ parser_step (decoder (fst r)) = SMD3MA4.SMD3MA4DecoderStepReset
  /\ generic (fst r)
     = SMD3MA4.tpms_protocol_SMD3MA4_analyze
         (received (generic s) (bits_value payload) 33)
  /\ callbacks (snd r) = (if callback (base s) then [generic (fst r)] else []).
Proof.
  intros Hs Hh Hd Hc Hlen. cbv zeta.
  rewrite feed_bits_app, (smd3ma4_preamble_opens s Hs Hh).
  destruct s as [b [st dd cnt] g m h].
  cbn [decoder parser_step header_count decode_data decode_count_bit] in *. subst.
  pose proof (smd3ma4_feed_bits_complete level d payload
                {| base := b;
                   decoder := {| parser_step := SMD3MA4.SMD3MA4DecoderStepDecoderData;
                                 decode_data := 0;
                                 decode_count_bit := 0 |};
                   generic := g;
                   manchester_saved_state := m;
                   header_count := 3 |}
                0 0 eq_refl ltac:(lia) ltac:(cbn; lia)
                ltac:(intros ->; discriminate) ltac:(lia)) as H.
  cbv zeta in H. fold (bits_value payload) in H.
  unfold set_parser_step, set_header_count, set_decode in H |- *.
  cbn [base decoder generic manchester_saved_state header_count parser_step
       decode_data decode_count_bit] in H |- *.
  rewrite H. fields. cbn [app callbacks].
  repeat split. destruct (callback b); reflexivity.
Qed.

(** X9.  The Ford switch, started in preamble acquisition with the
    counter at zero and the frame buffer empty, and given sixteen 0 bits
    followed by any 64 payload bits, ends Idle with the payload in the
    frame register, first bit most significant.  If the register is not
    zero and its memory bytes 0 to 6 sum to byte 7 modulo 256, the stored
    record is the analysis of that value and the sink is called with it
    exactly once if a callback is registered; otherwise the stored record
    is unchanged and nothing is called. *)
Theorem ford_bits_to_record
    (s : Ford.TPMSProtocolDecoderFord) (payload : list bool) :
  parser_step (decoder s) = Ford.FordDecoderStepCheckPreamble ->
  header_count s = 0 ->
  decode_data (decoder s) = 0 ->
  decode_count_bit (decoder s) = 0 ->
  List.length payload = 64%nat ->
  let r :=
    feed_bits (fun i b => Ford.tpms_protocol_decoder_ford_feed_step byte_order i level d b)
      s (repeat false 16 ++ payload) in
  let v := bits_value payload in
  let B := byte_at byte_order v in
  decode_data (decoder (fst r)) = v
  /\ decode_count_bit (decoder (fst r)) = 64
  /\ parser_step (decoder (fst r)) = Ford.FordDecoderStepReset
  /\ (v <> 0 /\ (B 0 + B 1 + B 2 + B 3 + B 4 + B 5 + B 6) mod 256 = B 7 ->
      generic (fst r) = Ford.tpms_protocol_ford_analyze (received (generic s) v 64)
      /\ callbacks (snd r) = if callback (base s) then [generic (fst r)] else [])
  /\ (~ (v <> 0 /\ (B 0 + B 1 + B 2 + B 3 + B 4 + B 5 + B 6) mod 256 = B 7) ->
      generic (fst r) = generic s /\ callbacks (snd r) = []).
Proof.
  intros Hs Hh Hd Hc Hlen. cbv zeta.
  rewrite feed_bits_app, (ford_preamble_opens s Hs Hh).
  destruct s as [b [st dd cnt] g m h].
  cbn [decoder parser_step header_count decode_data decode_count_bit] in *. subst.
  pose proof (ford_feed_bits_complete byte_order level d payload
                {| base := b;
                   decoder := {| parser_step := Ford.FordDecoderStepDecoderData;
                                 decode_data := 0;
                                 decode_count_bit := 0 |};
                   generic := g;
                   manchester_saved_state := m;
                   header_count := 16 |}
                0 0 eq_refl ltac:(lia) ltac:(cbn; lia)
                ltac:(intros ->; discriminate) ltac:(lia)) as H.
  unfold set_parser_step, set_header_count, set_decode in H |- *.
  cbn [base decoder generic manchester_saved_state header_count parser_step
       decode_data decode_count_bit] in H |- *.
  rewrite H. clear H.
  assert (Hne : payload <> []) by (intros ->; discriminate).
  destruct (exists_last Hne) as (front & lastbit & ->).
  rewrite removelast_last, last_last.
  rewrite length_app in Hlen. cbn [List.length] in Hlen.
  unfold bits_value. rewrite fold_left_app. cbn [fold_left].
  fold (bits_value front).
  pose proof (bits_value_bound front) as Hfront.
  replace (Z.of_nat (List.length front)) with 63 in Hfront by lia.
  set (v := 2 * bits_value front + Z.b2z lastbit).
  assert (Hv : 0 <= v < 2 ^ 64).
  { subst v. assert (0 <= Z.b2z lastbit <= 1) by (destruct lastbit; cbn; lia).
    change (2 ^ 64) with (2 * 2 ^ 63). lia. }
  unfold Ford.tpms_protocol_decoder_ford_feed_step.
  cbn [decoder parser_step].
  pose proof (ford_check_crc_spec byte_order
                (subghz_protocol_blocks_add_bit
                   {| base := b;
                      decoder := {| parser_step := Ford.FordDecoderStepDecoderData;
                                    decode_data := bits_value front;
                                    decode_count_bit := 63 |};
                      generic := g;
                      manchester_saved_state := m;
                      header_count := 16 |} lastbit)) as Hcrc.
  pose proof (ford_check_crc_calls_nothing byte_order
                (subghz_protocol_blocks_add_bit
                   {| base := b;
                      decoder := {| parser_step := Ford.FordDecoderStepDecoderData;
                                    decode_data := bits_value front;
                                    decode_count_bit := 63 |};
                      generic := g;
                      manchester_saved_state := m;
                      header_count := 16 |} lastbit)) as Hlog.
  cbv zeta in Hcrc.
  unfold subghz_protocol_blocks_add_bit in *.
  cbn [set_decode decoder decode_data decode_count_bit base generic
       manchester_saved_state header_count parser_step] in *.
  rewrite (add_bit_small (bits_value front) 63 lastbit) in * by lia.
  fold v in Hcrc, Hlog |- *.
  change ((63 + 1) mod 2 ^ 16) with 64 in *.
  change (64 =? min_count_bit_for_found Ford.tpms_protocol_ford_const) with true.
  cbv iota.
  destruct (Ford.tpms_protocol_ford_check_crc _ _) as [ok crc_log].
  cbn [fst snd] in Hcrc, Hlog.
  destruct ok; fields; cbn [app callbacks]; rewrite ?callbacks_app, ?Hlog;
    cbn [app callbacks].
  - split; [reflexivity|]. split; [reflexivity|]. split; [reflexivity|].
    split.
    + intros _. split; [reflexivity|]. destruct (callback b); reflexivity.
    + intros Hn. elim Hn. now apply Hcrc.
  - split; [reflexivity|]. split; [reflexivity|]. split; [reflexivity|].
    split.
    + intros Hok. apply Hcrc in Hok. discriminate.
    + intros _. split; reflexivity.
Qed.
End BitsToRecord.

Lemma bits_value_frame_bits (width : nat) (v : Z) :
  bits_value (frame_bits width v) = v mod 2 ^ Z.of_nat width.
Proof.
  unfold bits_value.
  assert (H : forall acc, fold_left (fun a b => 2 * a + Z.b2z b) (frame_bits width v) acc
                          = acc * 2 ^ Z.of_nat width + v mod 2 ^ Z.of_nat width).
  { induction width as [|k IH]; intros acc.
    - cbn. rewrite Z.mod_1_r. lia.
    - cbn [frame_bits fold_left]. rewrite IH.
      rewrite Nat2Z.inj_succ, Z.pow_succ_r by lia.
      rewrite (Z.mul_comm 2 (2 ^ Z.of_nat k)), Z.rem_mul_r by lia.
      rewrite <- Z.shiftr_div_pow2 by lia.
      rewrite <- (Z.bit0_mod (Z.shiftr v (Z.of_nat k))).
      rewrite Z.shiftr_spec by lia. rewrite Z.add_0_l. lia. }
  rewrite H. lia.
Qed.

Lemma frame_bits_length (width : nat) (v : Z) :
  List.length (frame_bits width v) = width.
Proof. induction width; cbn; congruence. Qed.

(** The last start pulse and all bits of [smd3ma4_sample_frame]. *)
Lemma smd3ma4_bits_to_record_witness :
  decode_data
    (decoder
       (fst (feed_bits
               (fun i b => SMD3MA4.tpms_protocol_decoder_SMD3MA4_feed_step i false 240 b)
               (fst (SMD3MA4.tpms_protocol_decoder_SMD3MA4_feed
                       Toolbox.manchester_advance
                       (set_callback SMD3MA4.tpms_protocol_decoder_SMD3MA4_alloc true)
                       true 480))
               ([false; false; false] ++ frame_bits 33 smd3ma4_sample_frame))))
  = smd3ma4_sample_frame
  /\ List.length
       (callbacks
          (snd (feed_bits
                  (fun i b =>
                     SMD3MA4.tpms_protocol_decoder_SMD3MA4_feed_step i false 240 b)
                  (fst (SMD3MA4.tpms_protocol_decoder_SMD3MA4_feed
                          Toolbox.manchester_advance
                          (set_callback SMD3MA4.tpms_protocol_decoder_SMD3MA4_alloc true)
                          true 480))
                  ([false; false; false] ++ frame_bits 33 smd3ma4_sample_frame))))
     = 1%nat.
Proof.
  destruct (smd3ma4_bits_to_record false 240
              (fst (SMD3MA4.tpms_protocol_decoder_SMD3MA4_feed
                      Toolbox.manchester_advance
                      (set_callback SMD3MA4.tpms_protocol_decoder_SMD3MA4_alloc true)
                      true 480))
              (frame_bits 33 smd3ma4_sample_frame)
              eq_refl eq_refl eq_refl eq_refl eq_refl)
    as (Hd & _ & _ & _ & Hcb).
  split; [rewrite Hd; reflexivity | rewrite Hcb; reflexivity].
Defined.

(** The sync gap and all bits of [ford_sample_frame]. *)
Lemma ford_bits_to_record_witness :
  decode_data
    (decoder
       (fst (feed_bits
               (fun i b =>
                  Ford.tpms_protocol_decoder_ford_feed_step LittleEndian i true 100 b)
               (fst (Ford.tpms_protocol_decoder_ford_feed
                       Toolbox.manchester_advance LittleEndian
                       (set_callback Ford.tpms_protocol_decoder_ford_alloc true)
                       false 208))
               (repeat false 16 ++ frame_bits 64 ford_sample_frame))))
  = ford_sample_frame
  /\ callbacks
       (snd (feed_bits
               (fun i b =>
                  Ford.tpms_protocol_decoder_ford_feed_step LittleEndian i true 100 b)
               (fst (Ford.tpms_protocol_decoder_ford_feed
                       Toolbox.manchester_advance LittleEndian
                       (set_callback Ford.tpms_protocol_decoder_ford_alloc true)
                       false 208))
               (repeat false 16 ++ frame_bits 64 ford_sample_frame)))
     = [Ford.tpms_protocol_ford_analyze
          (received (generic Ford.tpms_protocol_decoder_ford_alloc)
             ford_sample_frame 64)].
Proof.
  destruct (ford_bits_to_record LittleEndian true 100
              (fst (Ford.tpms_protocol_decoder_ford_feed
                      Toolbox.manchester_advance LittleEndian
                      (set_callback Ford.tpms_protocol_decoder_ford_alloc true)
                      false 208))
              (frame_bits 64 ford_sample_frame)
              eq_refl eq_refl eq_refl eq_refl eq_refl)
    as (Hd & _ & _ & Hacc & _).
  split; [rewrite Hd; reflexivity|].
  destruct Hacc as [Hg Hcb];
    [split; [vm_compute; discriminate | vm_compute; reflexivity]|].
  rewrite Hcb, Hg. reflexivity.
Defined.

(** ** The extractors at the edges of their fields *)

Lemma land_255_range (x : Z) : 0 <= Z.land x 255 <= 255.
Proof.
  change (Z.land x 255) with (Z.land x (Z.ones 8)). rewrite Z.land_ones by lia.
  pose proof (Z.mod_pos_bound x (2 ^ 8) ltac:(lia)). change (2 ^ 8) with 256 in *. lia.
Qed.

Lemma forall_bytes (P : Z -> bool) :
  forallb P byte_values = true ->
  forall b : Z, 0 <= b <= 255 -> P b = true.
Proof.
  intros H b Hb. rewrite forallb_forall in H. apply H.
  unfold byte_values. apply in_map_iff. exists (Z.to_nat b).
  split; [lia | apply in_seq; lia].
Qed.

Lemma float_same_eq (x y : spec_float) : float_same x y = true -> x = y.
Proof.
  destruct x as [s|s| |s m e], y as [s'|s'| |s' m' e']; cbn; try discriminate.
  - intros H. apply Bool.eqb_prop in H. now subst.
  - intros H. apply Bool.eqb_prop in H. now subst.
  - reflexivity.
  - intros H. apply andb_prop in H. destruct H as [H He].
    apply andb_prop in H. destruct H as [Hs Hm].
    apply Bool.eqb_prop in Hs. apply Pos.eqb_eq in Hm. apply Z.eqb_eq in He.
    now subst.
Qed.

(** What the Ford extractor stores for each value of the two bytes it
    reads, checked value by value. *)
Lemma ford_fields_by_byte (b : Z) :
  0 <= b <= 255 ->
  (56 <= b ->
   (float_value (float_of_uint64 (b - 56)) == inject_Z (b - 56))%Q)
  /\ (b < 56 ->
      float_of_uint64 ((b - 56) mod 2 ^ 64) = float_of_uint64 (2 ^ 64))
  /\ float_is_finite (float_of_uint64 ((b - 56) mod 2 ^ 64)) = true
  /\ (0 <= float_value (float_of_uint64 ((b - 56) mod 2 ^ 64)))%Q
  /\ float_is_finite
       (float_of_double
          (double_mul (double_of_float (float_mul (float_of_uint64 b) float_quarter))
             (double_literal 69 1000))) = true
  /\ (0 <= float_value
             (float_of_double
                (double_mul
                   (double_of_float (float_mul (float_of_uint64 b) float_quarter))
                   (double_literal 69 1000))))%Q
  /\ (inject_Z b * (69 # 4000) - (1 # 1000000)
      <= float_value
           (float_of_double
              (double_mul
                 (double_of_float (float_mul (float_of_uint64 b) float_quarter))
                 (double_literal 69 1000))))%Q
  /\ (float_value
        (float_of_double
           (double_mul (double_of_float (float_mul (float_of_uint64 b) float_quarter))
              (double_literal 69 1000)))
      <= inject_Z b * (69 # 4000) + (1 # 1000000))%Q.
Proof.
  intros Hb.
  pose proof (forall_bytes
    (fun b =>
       ((b <? 56) || Qeq_bool (float_value (float_of_uint64 (b - 56))) (inject_Z (b - 56)))
       && ((56 <=? b)
           || float_same (float_of_uint64 ((b - 56) mod 2 ^ 64))
                (float_of_uint64 (2 ^ 64)))
       && float_is_finite (float_of_uint64 ((b - 56) mod 2 ^ 64))
       && Qle_bool 0 (float_value (float_of_uint64 ((b - 56) mod 2 ^ 64)))
       && float_is_finite
            (float_of_double
               (double_mul
                  (double_of_float (float_mul (float_of_uint64 b) float_quarter))
                  (double_literal 69 1000)))
       && Qle_bool 0
            (float_value
               (float_of_double
                  (double_mul
                     (double_of_float (float_mul (float_of_uint64 b) float_quarter))
                     (double_literal 69 1000))))
       && Qle_bool (inject_Z b * (69 # 4000) - (1 # 1000000))
            (float_value
               (float_of_double
                  (double_mul
                     (double_of_float (float_mul (float_of_uint64 b) float_quarter))
                     (double_literal 69 1000))))
       && Qle_bool
            (float_value
               (float_of_double
                  (double_mul
                     (double_of_float (float_mul (float_of_uint64 b) float_quarter))
                     (double_literal 69 1000))))
            (inject_Z b * (69 # 4000) + (1 # 1000000)))
    ltac:(vm_compute; reflexivity) b Hb) as H.
  cbv beta in H.
  repeat (apply andb_prop in H; destruct H as [H ?]).
  repeat split.
  - intros Hge. apply Qeq_bool_iff.
    destruct (Z.ltb_spec b 56); [lia|]. assumption.
  - intros Hlt. apply float_same_eq.
    destruct (Z.leb_spec 56 b); [lia|]. assumption.
  - assumption.
  - apply Qle_bool_iff. assumption.
  - assumption.
  - apply Qle_bool_iff. assumption.
  - apply Qle_bool_iff. assumption.
  - apply Qle_bool_iff. assumption.
Qed.

(** X10.  The Ford extractor keeps the frame, its bit count and the
    protocol name, marks the battery state unknown, gives an id below
    2 ^ 32 and is idempotent.  The temperature it stores is the byte it
    reads minus 56, exactly, only when that byte is at least 56; for every
    byte below 56 the unsigned subtraction wraps and the stored binary32
    is 2 ^ 64, so the temperature is never negative.  The pressure it
    stores is finite, not negative, and within 10 ^ -6 of the byte it
    reads times 0.25 times 0.069. *)
Theorem ford_analyze_ranges (g : TPMSBlockGeneric) :
  let r := Ford.tpms_protocol_ford_analyze g in
  let t := Z.land (Z.shiftr (data g) 24) 255 in
  let p := Z.land (Z.shiftr (data g) 8) 255 in
  data r = data g
  /\ data_count_bit r = data_count_bit g
  /\ protocol_name r = protocol_name g
  /\ battery_low r = TPMS_NO_BATT
  /\ 0 <= id r < 2 ^ 32
  /\ Ford.tpms_protocol_ford_analyze r = r
  /\ (56 <= t ->
      temperature r = float_of_uint64 (t - 56)
      /\ (float_value (temperature r) == inject_Z (t - 56))%Q)
  /\ (t < 56 ->
      temperature r = float_of_uint64 (2 ^ 64)
      /\ (float_value (temperature r) == inject_Z (2 ^ 64))%Q)
  /\ float_is_finite (temperature r) = true
  /\ (0 <= float_value (temperature r))%Q
  /\ float_is_finite (pressure r) = true
  /\ (0 <= float_value (pressure r))%Q
  /\ (inject_Z p * (69 # 4000) - (1 # 1000000) <= float_value (pressure r))%Q
  /\ (float_value (pressure r) <= inject_Z p * (69 # 4000) + (1 # 1000000))%Q
  /\ (float_value (pressure r) <= 44 # 10)%Q.
Proof.
  cbv zeta.
  pose proof (land_255_range (Z.shiftr (data g) 24)) as Ht.
  pose proof (land_255_range (Z.shiftr (data g) 8)) as Hp.
  destruct (ford_fields_by_byte _ Ht) as (Hge & Hlt & Hfin & Hpos & _).
  destruct (ford_fields_by_byte _ Hp) as (_ & _ & _ & _ & Hpfin & Hp0 & Hplo & Hphi).
  unfold Ford.tpms_protocol_ford_analyze.
  cbn [data data_count_bit protocol_name battery_low id temperature pressure].
  split; [reflexivity|]. split; [reflexivity|]. split; [reflexivity|].
  split; [reflexivity|].
  split; [apply Z.mod_pos_bound; lia|].
  split; [reflexivity|].
  split.
  { intros H. rewrite Z.mod_small by lia. split; [reflexivity | exact (Hge H)]. }
  split.
  { intros H. rewrite (Hlt H). split; [reflexivity | vm_compute; reflexivity]. }
  split; [exact Hfin|]. split; [exact Hpos|]. split; [exact Hpfin|].
  split; [exact Hp0|].
  split; [exact Hplo|]. split; [exact Hphi|].
  eapply Qle_trans; [exact Hphi|].
  unfold Qle, Qplus, Qmult; cbn [Qnum Qden inject_Z]. lia.
Qed.

(** What the SMD3MA4 extractor stores for each value of the bytes it
    reads, checked value by value. *)
Lemma smd3ma4_fields_by_byte (b : Z) :
  0 <= b <= 255 ->
  (float_value (float_of_uint64 b) == inject_Z b)%Q
  /\ float_is_finite
       (float_of_double
          (double_mul
             (double_mul (double_of_uint64 ((b - 32) mod 2 ^ 64)) (double_literal 2 10))
             (double_literal 69 1000))) = true
  /\ (0 <= float_value
             (float_of_double
                (double_mul
                   (double_mul (double_of_uint64 ((b - 32) mod 2 ^ 64))
                      (double_literal 2 10))
                   (double_literal 69 1000))))%Q
  /\ (32 <= b ->
      (inject_Z (b - 32) * (138 # 10000) - (1 # 1000000)
       <= float_value
            (float_of_double
               (double_mul
                  (double_mul (double_of_uint64 ((b - 32) mod 2 ^ 64))
                     (double_literal 2 10))
                  (double_literal 69 1000))))%Q
      /\ (float_value
            (float_of_double
               (double_mul
                  (double_mul (double_of_uint64 ((b - 32) mod 2 ^ 64))
                     (double_literal 2 10))
                  (double_literal 69 1000)))
          <= inject_Z (b - 32) * (138 # 10000) + (1 # 1000000))%Q)
  /\ (b < 32 ->
      float_of_double
        (double_mul
           (double_mul (double_of_uint64 ((b - 32) mod 2 ^ 64)) (double_literal 2 10))
           (double_literal 69 1000))
      = float_of_double
          (double_mul
             (double_mul (double_of_uint64 (2 ^ 64)) (double_literal 2 10))
             (double_literal 69 1000))).
Proof.
  intros Hb.
  pose proof (forall_bytes
    (fun b =>
       Qeq_bool (float_value (float_of_uint64 b)) (inject_Z b)
       && float_is_finite
            (float_of_double
               (double_mul
                  (double_mul (double_of_uint64 ((b - 32) mod 2 ^ 64))
                     (double_literal 2 10))
                  (double_literal 69 1000)))
       && Qle_bool 0
            (float_value
               (float_of_double
                  (double_mul
                     (double_mul (double_of_uint64 ((b - 32) mod 2 ^ 64))
                        (double_literal 2 10))
                     (double_literal 69 1000))))
       && ((b <? 32)
           || Qle_bool (inject_Z (b - 32) * (138 # 10000) - (1 # 1000000))
                (float_value
                   (float_of_double
                      (double_mul
                         (double_mul (double_of_uint64 ((b - 32) mod 2 ^ 64))
                            (double_literal 2 10))
                         (double_literal 69 1000)))))
       && ((b <? 32)
           || Qle_bool
                (float_value
                   (float_of_double
                      (double_mul
                         (double_mul (double_of_uint64 ((b - 32) mod 2 ^ 64))
                            (double_literal 2 10))
                         (double_literal 69 1000))))
                (inject_Z (b - 32) * (138 # 10000) + (1 # 1000000)))
       && ((32 <=? b)
           || float_same
                (float_of_double
                   (double_mul
                      (double_mul (double_of_uint64 ((b - 32) mod 2 ^ 64))
                         (double_literal 2 10))
                      (double_literal 69 1000)))
                (float_of_double
                   (double_mul
                      (double_mul (double_of_uint64 (2 ^ 64)) (double_literal 2 10))
                      (double_literal 69 1000)))))
    ltac:(vm_compute; reflexivity) b Hb) as H.
  cbv beta in H.
  apply andb_prop in H. destruct H as [H Hsame].
  apply andb_prop in H. destruct H as [H Hhi].
  apply andb_prop in H. destruct H as [H Hlo].
  apply andb_prop in H. destruct H as [H Hpos].
  apply andb_prop in H. destruct H as [Hval Hfin].
  split; [apply Qeq_bool_iff; exact Hval|].
  split; [exact Hfin|].
  split; [apply Qle_bool_iff; exact Hpos|].
  split.
  - intros Hge.
    destruct (Z.ltb_spec b 32) as [Hlt|_]; [lia|].
    cbn [orb] in Hlo, Hhi.
    split; apply Qle_bool_iff; assumption.
  - intros Hlt.
    destruct (Z.leb_spec 32 b) as [Hge|_]; [lia|].
    cbn [orb] in Hsame. apply float_same_eq. exact Hsame.
Qed.

(** X11.  The SMD3MA4 extractor keeps the frame, its bit count and the
    protocol name, marks the battery state unknown and is idempotent.
    The pressure it stores is finite and not negative.  When the pressure
    byte (frame bits 12 to 5) is at least 32 it is within 10 ^ -6 of
    (byte - 32) x 0.2 x 0.069 bar, at most 3.08; for every byte below 32
    the unsigned subtraction wraps and the stored binary32 is the same
    value, 254565065275998208 bar.  The value it stores as temperature is
    the integer in frame bits 13 to 6, between 0 and 255, whose seven low
    bits are the seven high bits of the pressure byte. *)
Theorem smd3ma4_analyze_ranges (g : TPMSBlockGeneric) :
  let r := SMD3MA4.tpms_protocol_SMD3MA4_analyze g in
  let p := Z.land (Z.shiftr (data g) 5) 255 in
  let t := Z.land (Z.shiftr (data g) 6) 255 in
  data r = data g
  /\ data_count_bit r = data_count_bit g
  /\ protocol_name r = protocol_name g
  /\ battery_low r = TPMS_NO_BATT
  /\ SMD3MA4.tpms_protocol_SMD3MA4_analyze r = r
  /\ float_is_finite (pressure r) = true
  /\ (0 <= float_value (pressure r))%Q
  /\ (32 <= p ->
      (inject_Z (p - 32) * (138 # 10000) - (1 # 1000000)
       <= float_value (pressure r))%Q
      /\ (float_value (pressure r)
          <= inject_Z (p - 32) * (138 # 10000) + (1 # 1000000))%Q
      /\ (float_value (pressure r) <= 308 # 100)%Q)
  /\ (p < 32 ->
      pressure r
      = float_of_double
          (double_mul
             (double_mul (double_of_uint64 (2 ^ 64)) (double_literal 2 10))
             (double_literal 69 1000))
      /\ (float_value (pressure r) == inject_Z 254565065275998208)%Q)
  /\ temperature r = float_of_uint64 t
  /\ (float_value (temperature r) == inject_Z t)%Q
  /\ 0 <= t <= 255
  /\ t mod 128 = p / 2.
Proof.
  cbv zeta.
  pose proof (land_255_range (Z.shiftr (data g) 5)) as Hp.
  pose proof (land_255_range (Z.shiftr (data g) 6)) as Ht.
  destruct (smd3ma4_fields_by_byte _ Hp) as (_ & Hfin & Hpos & Hge & Hlt).
  destruct (smd3ma4_fields_by_byte _ Ht) as (Hval & _).
  unfold SMD3MA4.tpms_protocol_SMD3MA4_analyze.
  cbn [data data_count_bit protocol_name battery_low id temperature pressure].
  split; [reflexivity|]. split; [reflexivity|]. split; [reflexivity|].
  split; [reflexivity|]. split; [reflexivity|].
  split; [exact Hfin|]. split; [exact Hpos|].
  split.
  { intros H. destruct (Hge H) as [Hlo Hhi].
    split; [exact Hlo|]. split; [exact Hhi|].
    eapply Qle_trans; [exact Hhi|].
    unfold Qle, Qplus, Qmult; cbn [Qnum Qden inject_Z]. lia. }
  split.
  { intros H. rewrite (Hlt H). split; [reflexivity | vm_compute; reflexivity]. }
  split; [reflexivity|]. split; [exact Hval|]. split; [exact Ht|].
  change 255 with (Z.ones 8).
  rewrite !Z.land_ones, !Z.shiftr_div_pow2 by lia.
  change (2 ^ 8) with 256. change (2 ^ 6) with 64. change (2 ^ 5) with 32.
  Z.to_euclidean_division_equations. lia.
Qed.

(** ** The hash of the last parcel *)

Section Hash.
Variable subghz_protocol_blocks_get_hash_data :
  forall Step : Type, SubGhzBlockDecoder Step -> Z -> Z.
Variable manchester_advance : manchester_decoder.
Variable byte_order : ByteOrder.

(** X12.  In every reachable state get_hash_data hashes the block
    decoder over decode_count_bit / 8 + 1 bytes, a length between 1 and 9
    for Ford and between 1 and 5 for SMD3MA4; right after an edge that
    completed a frame the length is 9 for Ford, one more than the eight
    bytes of the frame register, and 5 for SMD3MA4. *)
Theorem hash_length_bounds (calls : list DecoderCall) (level : bool) (d : Z) :
  (let s := Ford.run manchester_advance byte_order calls in
   let r := Ford.tpms_protocol_decoder_ford_feed
              manchester_advance byte_order s level d in
   let len := decode_count_bit (decoder s) / 8 + 1 in
   tpms_protocol_decoder_ford_get_hash_data subghz_protocol_blocks_get_hash_data s
   = subghz_protocol_blocks_get_hash_data _ (decoder s) len
   /\ 1 <= len <= 9
   /\ (frame_completed (snd r) = true ->
       tpms_protocol_decoder_ford_get_hash_data
         subghz_protocol_blocks_get_hash_data (fst r)
       = subghz_protocol_blocks_get_hash_data _ (decoder (fst r)) 9))
  /\ (let s := SMD3MA4.run manchester_advance calls in
      let r := SMD3MA4.tpms_protocol_decoder_SMD3MA4_feed
                 manchester_advance s level d in
      let len := decode_count_bit (decoder s) / 8 + 1 in
      tpms_protocol_decoder_SMD3MA4_get_hash_data
        subghz_protocol_blocks_get_hash_data s
      = subghz_protocol_blocks_get_hash_data _ (decoder s) len
      /\ 1 <= len <= 5
      /\ (frame_completed (snd r) = true ->
          tpms_protocol_decoder_SMD3MA4_get_hash_data
            subghz_protocol_blocks_get_hash_data (fst r)
          = subghz_protocol_blocks_get_hash_data _ (decoder (fst r)) 5)).
Proof.
  split; cbv zeta.
  - pose proof (ford_run_invariant manchester_advance byte_order calls) as Hinv.
    destruct (ford_feed_frame manchester_advance byte_order _ level d Hinv)
      as (_ & Hiff & _).
    destruct Hinv as [Hc _].
    change (min_count_bit_for_found Ford.tpms_protocol_ford_const) with 64 in Hc.
    split; [reflexivity|].
    split; [Z.to_euclidean_division_equations; lia|].
    intros Hdone. apply Hiff in Hdone. destruct Hdone as [_ E].
    unfold tpms_protocol_decoder_ford_get_hash_data. rewrite E. reflexivity.
  - pose proof (smd3ma4_run_invariant manchester_advance calls) as Hinv.
    destruct (smd3ma4_feed_frame manchester_advance _ level d Hinv)
      as (_ & Hiff & _).
    destruct Hinv as [Hc _].
    change (min_count_bit_for_found SMD3MA4.tpms_protocol_SMD3MA4_const) with 33 in Hc.
    split; [reflexivity|].
    split; [Z.to_euclidean_division_equations; lia|].
    intros Hdone. apply Hiff in Hdone. destruct Hdone as [_ E].
    unfold tpms_protocol_decoder_SMD3MA4_get_hash_data. rewrite E. reflexivity.
Qed.
End Hash.

(** ** What feed leaves alone *)

Section Registration.
Variable manchester_advance : manchester_decoder.
Variable byte_order : ByteOrder.

(** X13.  From any state, feed never changes whether a callback is
    registered nor the protocol name of the stored record, for either
    decoder. *)
Theorem feed_keeps_registration (level : bool) (d : Z) :
  (forall s : Ford.TPMSProtocolDecoderFord,
      let r := Ford.tpms_protocol_decoder_ford_feed
                 manchester_advance byte_order s level d in
      base (fst r) = base s
      /\ protocol_name (generic (fst r)) = protocol_name (generic s))
  /\ (forall s : SMD3MA4.TPMSProtocolDecoderSMD3MA4,
      let r := SMD3MA4.tpms_protocol_decoder_SMD3MA4_feed
                 manchester_advance s level d in
      base (fst r) = base s
      /\ protocol_name (generic (fst r)) = protocol_name (generic s)).
Proof.
  split; intros s; cbv zeta.
  - unfold Ford.tpms_protocol_decoder_ford_feed.
    destruct (Ford.tpms_protocol_decoder_ford_feed_bit manchester_advance s level d)
      as [[s1 log1] ob] eqn:Hbit.
    destruct (ford_feed_bit_keeps manchester_advance _ _ _ _ _ _ Hbit)
      as (_ & _ & Eg & Eb & _).
    rewrite <- Eg, <- Eb.
    destruct ob as [bit|]; [|split; reflexivity].
    unfold Ford.tpms_protocol_decoder_ford_feed_step.
    destruct (parser_step (decoder s1)).
    + destruct (negb level && _); split; reflexivity.
    + destruct bit; [split; reflexivity|].
      destruct (_ =? _); split; reflexivity.
    + destruct (_ =? _); [|split; reflexivity].
      destruct (Ford.tpms_protocol_ford_check_crc _ _) as [ok crc_log].
      destruct ok; split; reflexivity.
    + split; reflexivity.
    + split; reflexivity.
  - unfold SMD3MA4.tpms_protocol_decoder_SMD3MA4_feed.
    destruct (SMD3MA4.tpms_protocol_decoder_SMD3MA4_feed_bit manchester_advance s level d)
      as [[s1 log1] ob] eqn:Hbit.
    destruct (smd3ma4_feed_bit_keeps manchester_advance _ _ _ _ _ _ Hbit)
      as (_ & _ & Eg & Eb & _).
    rewrite <- Eg, <- Eb.
    destruct ob as [bit|]; [|split; reflexivity].
    unfold SMD3MA4.tpms_protocol_decoder_SMD3MA4_feed_step.
    destruct (parser_step (decoder s1)).
    + destruct (level && _); split; reflexivity.
    + destruct bit; [split; reflexivity|].
      destruct (_ =? _); split; reflexivity.
    + destruct (_ =? _); split; reflexivity.
    + split; reflexivity.
    + split; reflexivity.
Qed.
End Registration.

(** ** The Ford decoder under long symbols only *)

Lemma toolbox_long_symbols_deliver_false :
  long_symbols_deliver_false Toolbox.manchester_advance toolbox_quiet.
Proof.
  split; [reflexivity|].
  intros m level Hq.
  destruct m, level; try discriminate Hq; reflexivity.
Qed.

Section LongOnly.
Variable manchester_advance : manchester_decoder.
Variable quiet : ManchesterState -> bool.
Variable byte_order : ByteOrder.
Hypothesis Hlong : long_symbols_deliver_false manchester_advance quiet.

Lemma ford_feed_never_locked s level d :
  0 <= d ->
  ford_never_locked quiet s ->
  ford_never_locked quiet
    (fst (Ford.tpms_protocol_decoder_ford_feed manchester_advance byte_order s level d))
  /\ callbacks
       (snd (Ford.tpms_protocol_decoder_ford_feed
               manchester_advance byte_order s level d)) = [].
Proof.
  intros Hd (Hstep & Hh & Hg).
  destruct Hlong as [Hq0 Hq].
  assert (Hidle : forall s0 : Ford.TPMSProtocolDecoderFord,
             parser_step (decoder s0) = Ford.FordDecoderStepReset ->
             header_count s0 = 0 ->
             generic s0 = generic Ford.tpms_protocol_decoder_ford_alloc ->
             ford_never_locked quiet
               (fst (Ford.tpms_protocol_decoder_ford_feed
                       manchester_advance byte_order s0 level d))).
  { intros s0 Hs0 Hh0 Hg0.
    rewrite (ford_feed_idle manchester_advance byte_order s0 level d Hs0).
    cbn [fst]. unfold ford_never_locked.
    destruct (negb level && _); fields; auto. }
  pose proof (ford_event_long_or_reset level d Hd) as Hev.
  destruct Hstep as [Hs | [Hs Hquiet]].
  - split; [apply Hidle; assumption|].
    rewrite (ford_feed_idle manchester_advance byte_order s level d Hs). reflexivity.
  - destruct (Z.ltb_spec d 254) as [Hlt|Hge].
    + specialize (Hq (manchester_saved_state s) level Hquiet).
      unfold Ford.tpms_protocol_decoder_ford_feed,
             Ford.tpms_protocol_decoder_ford_feed_bit.
      rewrite Hs, Hev.
      destruct level;
        (destruct (manchester_advance _ _) as [next [bit|]];
         [subst bit;
          unfold Ford.tpms_protocol_decoder_ford_feed_step; fields; rewrite Hs;
          cbn [negb fst snd callbacks app]; unfold ford_never_locked; fields; auto
         |cbn [fst snd callbacks]; unfold ford_never_locked; fields; auto]).
    + destruct (ford_feed_out_of_tolerance manchester_advance byte_order s level d Hev)
        as (E & Hcb & _).
      split; [|exact Hcb].
      rewrite E. apply Hidle; [reflexivity | exact Hh | exact Hg].
Qed.

Lemma ford_run_never_locked (calls : list DecoderCall) :
  durations_in_range calls ->
  ford_never_locked quiet (Ford.run manchester_advance byte_order calls).
Proof.
  intros Hcalls. unfold Ford.run.
  assert (H0 : ford_never_locked quiet Ford.tpms_protocol_decoder_ford_alloc)
    by (split; [left; reflexivity | split; reflexivity]).
  revert H0. generalize Ford.tpms_protocol_decoder_ford_alloc.
  induction Hcalls as [|c calls Hc _ IH]; intros s Hs; [exact Hs|].
  cbn [fold_left]. apply IH.
  destruct c as [lv dd| |registered]; cbn [Ford.call].
  - apply ford_feed_never_locked; [lia | exact Hs].
  - destruct Hs as (_ & Hh & Hg). split; [left; reflexivity | split; assumption].
  - exact Hs.
Qed.

(** X14.  If the Manchester decoder answers long symbols, from its
    start state on, with no bit or with the bit [false] (as the
    firmware's table does), then the Ford decoder never gets past its
    preamble: whatever edges with durations a [uint32_t] can hold it is
    fed after alloc, it is Idle or in preamble acquisition, its preamble
    counter is still zero, its stored record is the one alloc left, and
    the sink is never called.  Every such duration below 254 us is a
    long symbol for the Ford timing constants, and after inversion the
    delivered bit is a 1 where the preamble wants 0. *)
Theorem ford_never_passes_preamble
    (calls : list DecoderCall) (level : bool) (d : Z) :
  durations_in_range calls ->
  0 <= d < 2 ^ 32 ->
  let s := Ford.run manchester_advance byte_order calls in
  parser_step (decoder s) <> Ford.FordDecoderStepDecoderData
  /\ header_count s = 0
  /\ generic s = generic Ford.tpms_protocol_decoder_ford_alloc
  /\ callbacks
       (snd (Ford.tpms_protocol_decoder_ford_feed
               manchester_advance byte_order s level d)) = [].
Proof.
  intros Hcalls Hd. cbv zeta.
  pose proof (ford_run_never_locked calls Hcalls) as Hinv.
  destruct (ford_feed_never_locked _ level d ltac:(lia) Hinv) as [_ Hcb].
  destruct Hinv as (Hstep & Hh & Hg).
  split; [destruct Hstep as [E | [E _]]; rewrite E; discriminate|].
  split; [exact Hh|]. split; [exact Hg | exact Hcb].
Qed.

End LongOnly.

(** With the firmware's decoder: after two lock-on attempts the Ford
    decoder has counted no preamble bit and called nothing. *)
Lemma ford_never_passes_preamble_witness :
  header_count (Ford.run Toolbox.manchester_advance LittleEndian ford_attempt) = 0
  /\ callbacks
       (snd (Ford.tpms_protocol_decoder_ford_feed
               Toolbox.manchester_advance LittleEndian
               (Ford.run Toolbox.manchester_advance LittleEndian ford_attempt)
               false 104))
     = [].
Proof.
  assert (Hcalls : durations_in_range ford_attempt)
    by (repeat constructor; lia).
  destruct (ford_never_passes_preamble
              Toolbox.manchester_advance toolbox_quiet LittleEndian
              toolbox_long_symbols_deliver_false ford_attempt false 104
              Hcalls ltac:(lia))
    as (_ & Hh & _ & Hcb).
  split; [exact Hh | exact Hcb].
Defined.


(** ** One symbol at a time *)

Section Symbol.
Variable manchester_advance : manchester_decoder.
Variable byte_order : ByteOrder.

(** X15.  Outside Idle, a symbol within tolerance for which the
    Manchester decoder has no bit yet changes nothing but the saved
    Manchester state; during preamble acquisition a symbol for which it
    delivers [false] (a 1 after inversion) sends the decoder back to
    Idle with frame buffer, preamble counter and record as they were.
    Nothing is logged or called in either case. *)
Theorem symbol_without_bit_or_bad_preamble (level : bool) (d : Z)
    (next : ManchesterState) :
  (forall s : Ford.TPMSProtocolDecoderFord,
      (parser_step (decoder s) <> Ford.FordDecoderStepReset ->
       Ford.level_and_duration_to_event level d <> ManchesterEventReset ->
       manchester_advance (manchester_saved_state s)
         (Ford.level_and_duration_to_event level d) = (next, None) ->
       Ford.tpms_protocol_decoder_ford_feed manchester_advance byte_order s level d
       = (set_manchester_saved_state s next, []))
      /\ (parser_step (decoder s) = Ford.FordDecoderStepCheckPreamble ->
          Ford.level_and_duration_to_event level d <> ManchesterEventReset ->
          manchester_advance (manchester_saved_state s)
            (Ford.level_and_duration_to_event level d) = (next, Some false) ->
          Ford.tpms_protocol_decoder_ford_feed manchester_advance byte_order s level d
          = (Ford.tpms_protocol_decoder_ford_reset
               (set_manchester_saved_state s next), [])))
  /\ (forall s : SMD3MA4.TPMSProtocolDecoderSMD3MA4,
      (parser_step (decoder s) <> SMD3MA4.SMD3MA4DecoderStepReset ->
       SMD3MA4.level_and_duration_to_event level d <> ManchesterEventReset ->
       manchester_advance (manchester_saved_state s)
         (SMD3MA4.level_and_duration_to_event level d) = (next, None) ->
       SMD3MA4.tpms_protocol_decoder_SMD3MA4_feed manchester_advance s level d
       = (set_manchester_saved_state s next, []))
      /\ (parser_step (decoder s) = SMD3MA4.SMD3MA4DecoderStepCheckPreamble ->
          SMD3MA4.level_and_duration_to_event level d <> ManchesterEventReset ->
          manchester_advance (manchester_saved_state s)
            (SMD3MA4.level_and_duration_to_event level d) = (next, Some false) ->
          SMD3MA4.tpms_protocol_decoder_SMD3MA4_feed manchester_advance s level d
          = (SMD3MA4.tpms_protocol_decoder_SMD3MA4_reset
               (set_manchester_saved_state s next), []))).
Proof.
  split; intros s; split.
  - intros Hs Hev Hm.
    unfold Ford.tpms_protocol_decoder_ford_feed,
           Ford.tpms_protocol_decoder_ford_feed_bit.
    destruct (parser_step (decoder s)); [now elim Hs| | | |];
      (destruct (Ford.level_and_duration_to_event level d); try (now elim Hev);
       rewrite Hm; reflexivity).
  - intros Hs Hev Hm.
    unfold Ford.tpms_protocol_decoder_ford_feed,
           Ford.tpms_protocol_decoder_ford_feed_bit.
    rewrite Hs.
    destruct (Ford.level_and_duration_to_event level d); try (now elim Hev);
      rewrite Hm; unfold Ford.tpms_protocol_decoder_ford_feed_step;
      fields; rewrite Hs; reflexivity.
  - intros Hs Hev Hm.
    unfold SMD3MA4.tpms_protocol_decoder_SMD3MA4_feed,
           SMD3MA4.tpms_protocol_decoder_SMD3MA4_feed_bit.
    destruct (parser_step (decoder s)); [now elim Hs| | | |];
      (destruct (SMD3MA4.level_and_duration_to_event level d); try (now elim Hev);
       rewrite Hm; reflexivity).
  - intros Hs Hev Hm.
    unfold SMD3MA4.tpms_protocol_decoder_SMD3MA4_feed,
           SMD3MA4.tpms_protocol_decoder_SMD3MA4_feed_bit.
    rewrite Hs.
    destruct (SMD3MA4.level_and_duration_to_event level d); try (now elim Hev);
      rewrite Hm; unfold SMD3MA4.tpms_protocol_decoder_SMD3MA4_feed_step;
      fields; rewrite Hs; reflexivity.
Qed.

(** X16.  During accumulation, a symbol for which the Manchester
    decoder delivers the bit b appends the complement of b to the frame
    register as its new least significant bit and counts it; as long as
    the frame is not complete nothing else changes but the Manchester
    state, and nothing is logged or called. *)
Theorem accumulating_symbol_appends_complement (level : bool) (d : Z)
    (next : ManchesterState) (b : bool) :
  (forall s : Ford.TPMSProtocolDecoderFord,
      parser_step (decoder s) = Ford.FordDecoderStepDecoderData ->
      Ford.level_and_duration_to_event level d <> ManchesterEventReset ->
      manchester_advance (manchester_saved_state s)
        (Ford.level_and_duration_to_event level d) = (next, Some b) ->
      0 <= decode_data (decoder s) < 2 ^ decode_count_bit (decoder s) ->
      0 <= decode_count_bit (decoder s) < 63 ->
      Ford.tpms_protocol_decoder_ford_feed manchester_advance byte_order s level d
      = (set_decode (set_manchester_saved_state s next)
           (2 * decode_data (decoder s) + (1 - Z.b2z b))
           (decode_count_bit (decoder s) + 1), []))
  /\ (forall s : SMD3MA4.TPMSProtocolDecoderSMD3MA4,
      parser_step (decoder s) = SMD3MA4.SMD3MA4DecoderStepDecoderData ->
      SMD3MA4.level_and_duration_to_event level d <> ManchesterEventReset ->
      manchester_advance (manchester_saved_state s)
        (SMD3MA4.level_and_duration_to_event level d) = (next, Some b) ->
      0 <= decode_data (decoder s) < 2 ^ decode_count_bit (decoder s) ->
      0 <= decode_count_bit (decoder s) < 32 ->
      SMD3MA4.tpms_protocol_decoder_SMD3MA4_feed manchester_advance s level d
      = (set_decode (set_manchester_saved_state s next)
           (2 * decode_data (decoder s) + (1 - Z.b2z b))
           (decode_count_bit (decoder s) + 1), [])).
Proof.
  assert (Hneg : Z.b2z (negb b) = 1 - Z.b2z b) by (destruct b; reflexivity).
  split; intros s Hs Hev Hm Hdata Hcnt.
  - rewrite (ford_feed_data manchester_advance byte_order s level d next b Hs Hev Hm).
    unfold Ford.tpms_protocol_decoder_ford_feed_step.
    fields. rewrite Hs.
    unfold subghz_protocol_blocks_add_bit. fields.
    rewrite (add_bit_small _ (decode_count_bit (decoder s)) (negb b)) by lia.
    rewrite (Z.mod_small (decode_count_bit (decoder s) + 1)) by lia.
    change (min_count_bit_for_found Ford.tpms_protocol_ford_const) with 64.
    destruct (Z.eqb_spec (decode_count_bit (decoder s) + 1) 64); [lia|].
    rewrite Hneg. reflexivity.
  - rewrite (smd3ma4_feed_data manchester_advance s level d next b Hs Hev Hm).
    unfold SMD3MA4.tpms_protocol_decoder_SMD3MA4_feed_step.
    fields. rewrite Hs.
    unfold subghz_protocol_blocks_add_bit. fields.
    rewrite (add_bit_small _ (decode_count_bit (decoder s)) (negb b)) by lia.
    rewrite (Z.mod_small (decode_count_bit (decoder s) + 1)) by lia.
    change (min_count_bit_for_found SMD3MA4.tpms_protocol_SMD3MA4_const) with 33.
    destruct (Z.eqb_spec (decode_count_bit (decoder s) + 1) 33); [lia|].
    rewrite Hneg. reflexivity.
Qed.
End Symbol.

(** The SMD3MA4 decoder in the middle of its frame: a short low pulse
    gives no bit yet, and a long low pulse appends a 0. *)
Lemma symbol_without_bit_or_bad_preamble_witness :
  SMD3MA4.tpms_protocol_decoder_SMD3MA4_feed Toolbox.manchester_advance
    smd3ma4_mid_frame false 120
  = (set_manchester_saved_state smd3ma4_mid_frame ManchesterStateStart0, []).
Proof.
  assert (Hs : parser_step (decoder smd3ma4_mid_frame)
               <> SMD3MA4.SMD3MA4DecoderStepReset) by (vm_compute; discriminate).
  assert (Hev : SMD3MA4.level_and_duration_to_event false 120 <> ManchesterEventReset)
    by (vm_compute; discriminate).
  exact (proj1 (proj2 (symbol_without_bit_or_bad_preamble
                         Toolbox.manchester_advance LittleEndian false 120
                         ManchesterStateStart0)
                  smd3ma4_mid_frame) Hs Hev eq_refl).
Defined.

Lemma accumulating_symbol_appends_complement_witness :
  SMD3MA4.tpms_protocol_decoder_SMD3MA4_feed Toolbox.manchester_advance
    smd3ma4_mid_frame false 240
  = (set_decode (set_manchester_saved_state smd3ma4_mid_frame ManchesterStateMid1)
       22 5, []).
Proof.
  assert (Hev : SMD3MA4.level_and_duration_to_event false 240 <> ManchesterEventReset)
    by (vm_compute; discriminate).
  exact (proj2 (accumulating_symbol_appends_complement
                  Toolbox.manchester_advance LittleEndian false 240
                  ManchesterStateMid1 true)
           smd3ma4_mid_frame eq_refl Hev eq_refl
           ltac:(vm_compute; split; [discriminate | reflexivity])
           ltac:(vm_compute; split; [discriminate | reflexivity])).
Defined.
